(** * x402 payment server: challenge construction and payment verification

    A shallow embedding of [src/server.ts], which holds the two variants of
    [SolanaX402Server]: the SPL-token (USDC) server and the native-coin (SOL)
    server.  JavaScript numbers are IEEE 754 binary64 values, modelled by
    Rocq's primitive floats; [async] methods run sequentially and either
    return a value or throw, modelled by the [Outcome] monad. *)

From Stdlib Require Import Floats ZArith List String Ascii Bool Lia.
From Stdlib Require Import Uint63 DecimalString.
Import ListNotations.

Set Warnings "-inexact-float".
Local Open Scope string_scope.

(** ** JavaScript values and control flow *)

Module JS.

(** A JavaScript [Error] object; only its [message] is ever read. *)
Record Error := { message : string }.

(** What a [throw] or a rejected promise carries: an [Error] object, some
    other value that is neither [null] nor [undefined] (its [message] reads
    as [undefined]), [null], or [undefined]. *)
Inductive Exception :=
| ThrownError (e : Error)
| ThrownValue
| ThrownNull
| ThrownUndefined.
Coercion ThrownError : Error >-> Exception.

(** The result of running a method body: it returns or it throws. *)
Inductive Outcome (A : Type) : Type :=
| Returned (a : A)
| Thrown (e : Exception).
Arguments Returned {A} a.
Arguments Thrown {A} e.

Definition bind {A B} (c : Outcome A) (k : A -> Outcome B) : Outcome B :=
  match c with
  | Returned a => k a
  | Thrown e => Thrown e
  end.

(** [try { body } catch (error) { handler }] *)
Definition try_catch {A} (body : Outcome A)
    (handler : Exception -> Outcome A) : Outcome A :=
  match body with
  | Returned a => Returned a
  | Thrown e => handler e
  end.

Definition number := float.

(** Truthiness of a number: [0], [-0] and [NaN] are falsy. *)
Definition truthy (x : number) : bool :=
  negb (PrimFloat.is_zero x || PrimFloat.is_nan x).

(** Truthiness of a possibly absent number ([undefined] and [null] are falsy). *)
Definition truthy_opt (x : option number) : bool :=
  match x with
  | Some v => truthy v
  | None => false
  end.

(** Truthiness of a string: only the empty string is falsy. *)
Definition truthy_str (s : string) : bool :=
  match s with
  | EmptyString => false
  | String _ _ => true
  end.

(** [a || b] where [a] may be [undefined] or [null] and [b] is a number. *)
Definition or_number (a : option number) (b : number) : number :=
  match a with
  | Some v => if truthy v then v else b
  | None => b
  end.

(** [a || b] where both sides may be [undefined]. *)
Definition or_undefined (a b : option number) : option number :=
  if truthy_opt a then a else b.

(** [a || b] on a possibly absent string and a string. *)
Definition or_string (a : option string) (b : string) : string :=
  match a with
  | Some s => if truthy_str s then s else b
  | None => b
  end.

(** ToNumber on a number or [undefined]. *)
Definition ToNumber (x : option number) : number :=
  match x with
  | Some v => v
  | None => PrimFloat.nan
  end.

(** The double quote character, as a one-character string. *)
Definition dquote : string := String (ascii_of_nat 34) EmptyString.

(** [Array.prototype.findIndex]; [None] stands for [-1]. *)
Fixpoint findIndex {A} (p : A -> bool) (l : list A) : option nat :=
  match l with
  | [] => None
  | x :: rest =>
    if p x then Some 0%nat
    else match findIndex p rest with
         | Some i => Some (S i)
         | None => None
         end
  end.

(** The message of the TypeError raised by reading property [prop] of
    [undefined]. *)
Definition TypeError_undefined (prop : string) : Error :=
  {| message := "Cannot read properties of undefined (reading '" ++ prop ++ "')" |}.

(** The same for [null]. *)
Definition TypeError_null (prop : string) : Error :=
  {| message := "Cannot read properties of null (reading '" ++ prop ++ "')" |}.

Definition nullish (error : Exception) : bool :=
  match error with
  | ThrownNull | ThrownUndefined => true
  | ThrownError _ | ThrownValue => false
  end.

(** [error.message] for a caught [error]; [None] stands for [undefined].
    Reading it from [null] or [undefined] throws. *)
Definition message_of (error : Exception) : Outcome (option string) :=
  match error with
  | ThrownError e => Returned (Some (message e))
  | ThrownValue => Returned None
  | ThrownNull => Thrown (TypeError_null "message")
  | ThrownUndefined => Thrown (TypeError_undefined "message")
  end.

End JS.
Import JS.

Declare Scope outcome_scope.
Delimit Scope outcome_scope with outcome.
Notation "x <- c ;; k" := (bind c (fun x => k))
  (at level 61, c at next level, right associativity) : outcome_scope.
Local Open Scope outcome_scope.

(** ** Data model ([types.ts] and the parts of [@solana/web3.js] that are read) *)

Inductive Network := devnet | mainnet_beta.

Definition Network_toString (n : Network) : string :=
  match n with
  | devnet => "devnet"
  | mainnet_beta => "mainnet-beta"
  end.

Module X402ServerConfig.
Record t := {
  network : Network;
  recipientAddress : string;
  rpcUrl : option string;
  usdcMintAddress : option string
}.
End X402ServerConfig.

Module PaymentOption.
Record t := {
  id : string;
  scheme : string;
  network : string;
  recipient : string;
  token : string;
  amount : string;
  decimals : number
}.
End PaymentOption.

Module PaymentRequirements.
Record t := {
  version : string;
  paymentOptions : list PaymentOption.t
}.
End PaymentRequirements.

(** Optional fields are [None] when the property is absent or [undefined]. *)
Module PaymentVerification.
Record t := {
  valid : bool;
  signature : option string;
  amount : option number;
  token : option string;
  from : option string;
  to : option string;
  timestamp : option number;
  error : option string
}.
End PaymentVerification.

Module X402Response.
Record t := {
  statusCode : Z;
  headers : list (string * string);
  body : PaymentRequirements.t
}.
End X402Response.

(** The object literal [{ valid: false, error: msg }]. *)
Definition failure (msg : string) : PaymentVerification.t :=
  {| PaymentVerification.valid := false;
     PaymentVerification.signature := None;
     PaymentVerification.amount := None;
     PaymentVerification.token := None;
     PaymentVerification.from := None;
     PaymentVerification.to := None;
     PaymentVerification.timestamp := None;
     PaymentVerification.error := Some msg |}.

(** A public key, identified by its base58 rendering. *)
Record PublicKey := { toBase58 : string }.

Definition equals (k1 k2 : PublicKey) : bool :=
  String.eqb (toBase58 k1) (toBase58 k2).

Inductive Commitment := confirmed | finalized.

(** A non-null [TransactionError]. *)
Record TransactionError := { description : string }.

(** [ConfirmedTransactionMeta] / [ParsedTransactionMeta]. *)
Module Meta.
Record t := {
  err : option TransactionError;
  preBalances : list number;
  postBalances : list number
}.
End Meta.

(** [tx.meta?.err] is truthy: [meta] is present and [err] is not null. *)
Definition meta_err_truthy (meta : option Meta.t) : bool :=
  match meta with
  | Some m => match Meta.err m with Some _ => true | None => false end
  | None => false
  end.

(** [parsed.info] of a parsed instruction, as far as it is read; a property
    that is missing is [None]. *)
Module ParsedInfo.
Record t := {
  source : option string;
  destination : option string;
  amount : option number;
  tokenAmount : option number   (* [tokenAmount?.amount] *)
}.
End ParsedInfo.

(** The [parsed] property (of type [any]): a string (as the memo program
    gives) or an object with a [type] and an [info]. *)
Inductive Parsed :=
| ParsedString (s : string)
| ParsedObject (type : option string) (info : option ParsedInfo.t).

(** [ParsedInstruction | PartiallyDecodedInstruction]. *)
Inductive Instruction :=
| ParsedInstruction (program : string) (programId : PublicKey) (parsed : Parsed)
| PartiallyDecodedInstruction (programId : PublicKey)
    (accounts : list PublicKey) (data : string).

Module ParsedTransactionWithMeta.
Record t := {
  blockTime : option number;
  meta : option Meta.t;
  instructions : list Instruction   (* [transaction.message.instructions] *)
}.
End ParsedTransactionWithMeta.

Module VersionedTransactionResponse.
Record t := {
  blockTime : option number;
  meta : option Meta.t;
  (* [transaction.message.getAccountKeys()], then [.staticAccountKeys] *)
  getAccountKeys : Outcome (list PublicKey)
}.
End VersionedTransactionResponse.

(** A [Connection] of the Solana library, as far as it is told apart: by the
    endpoint it was opened on. *)
Record Connection := { rpcEndpoint : string }.

(** ** The environment of a call

    Everything a method reads that is not in the repository: the built-ins of
    the JavaScript runtime that primitive floats do not provide, the constants
    of [./constants], the connection and key operations of the Solana
    libraries, and the ledger behind the RPC connection. *)
Record Env := {
  Date_now : number;
  Math_floor : number -> number;
  Math_pow : number -> number -> number;
  Number_toString : number -> string;
  SOLANA_DEVNET_RPC : string;
  SOLANA_MAINNET_RPC : string;
  USDC_DEVNET_MINT : string;
  USDC_MAINNET_MINT : string;
  USDC_DECIMALS : number;
  SOL_DECIMALS : number;
  X402_VERSION : string;
  (* [new Connection(endpoint, 'confirmed')], which refuses some endpoints *)
  Connection_new : string -> Outcome Connection;
  PublicKey_new : string -> Outcome PublicKey;
  getAssociatedTokenAddress : PublicKey -> PublicKey -> Outcome PublicKey;
  getParsedTransaction :
    string -> Commitment -> Outcome (option ParsedTransactionWithMeta.t);
  getTransaction :
    string -> Commitment -> Outcome (option VersionedTransactionResponse.t)
}.

Definition LAMPORTS_PER_SOL : number := 1000000000%float.

(** The two fixed headers of a 402 response. *)
Definition headers_402 (E : Env) : list (string * string) :=
  [ ("Content-Type", "application/json");
    ("WWW-Authenticate", "x402 version=" ++ dquote ++ X402_VERSION E ++ dquote) ].

(** ** The SPL-token (USDC) server: first [SolanaX402Server] of [server.ts] *)

Module Token.

Module Server.
Record t := {
  connection : Connection;
  config : X402ServerConfig.t;
  usdcMint : PublicKey;
  recipientTokenAccount : option PublicKey
}.
End Server.

(** What [findTokenTransfer] returns; a property that [parsed.info] does
    not have is [None]. *)
Module TransferInfo.
Record t := {
  source : option string;
  destination : option string;
  amount : option number
}.
End TransferInfo.

(** [constructor]: opens the connection, then reads the mint; either can
    throw. *)
Definition constructor (E : Env) (config : X402ServerConfig.t)
  : Outcome Server.t :=
  let rpcUrl :=
    or_string (X402ServerConfig.rpcUrl config)
      (match X402ServerConfig.network config with
       | devnet => SOLANA_DEVNET_RPC E
       | mainnet_beta => SOLANA_MAINNET_RPC E
       end) in
  let defaultMint :=
    match X402ServerConfig.network config with
    | devnet => USDC_DEVNET_MINT E
    | mainnet_beta => USDC_MAINNET_MINT E
    end in
  connection <- Connection_new E rpcUrl ;;
  mint <- PublicKey_new E
            (or_string (X402ServerConfig.usdcMintAddress config) defaultMint) ;;
  Returned {| Server.connection := connection;
              Server.config := config;
              Server.usdcMint := mint;
              Server.recipientTokenAccount := None |}.

(** [initialize]: derives the recipient's token account and stores it. *)
Definition initialize (E : Env) (this : Server.t) : Outcome Server.t :=
  recipient <- PublicKey_new E
                 (X402ServerConfig.recipientAddress (Server.config this)) ;;
  account <- getAssociatedTokenAddress E (Server.usdcMint this) recipient ;;
  Returned {| Server.connection := Server.connection this;
              Server.config := Server.config this;
              Server.usdcMint := Server.usdcMint this;
              Server.recipientTokenAccount := Some account |}.

(** [createPaymentRequirements]: returns the requirements and the server
    state after the lazy initialisation. *)
Definition createPaymentRequirements (E : Env) (this : Server.t)
    (amount : number) (resourceId : option string)
  : Outcome (PaymentRequirements.t * Server.t) :=
  this' <- match Server.recipientTokenAccount this with
           | None => initialize E this
           | Some _ => Returned this
           end ;;
  let paymentOption :=
    {| PaymentOption.id :=
         or_string resourceId ("payment-" ++ Number_toString E (Date_now E));
       PaymentOption.scheme := "solana";
       PaymentOption.network :=
         Network_toString (X402ServerConfig.network (Server.config this'));
       PaymentOption.recipient :=
         X402ServerConfig.recipientAddress (Server.config this');
       PaymentOption.token := toBase58 (Server.usdcMint this');
       PaymentOption.amount := Number_toString E amount;
       PaymentOption.decimals := USDC_DECIMALS E |} in
  Returned ({| PaymentRequirements.version := X402_VERSION E;
               PaymentRequirements.paymentOptions := [paymentOption] |},
            this').

Definition create402Response (E : Env) (this : Server.t)
    (amount : number) (resourceId : option string)
  : Outcome (X402Response.t * Server.t) :=
  r <- createPaymentRequirements E this amount resourceId ;;
  let (requirements, this') := r in
  Returned ({| X402Response.statusCode := 402;
               X402Response.headers := headers_402 E;
               X402Response.body := requirements |},
            this').

(** [parsed.type === 'transfer' || parsed.type === 'transferChecked'] *)
Definition is_transfer_type (type : option string) : bool :=
  match type with
  | Some t => String.eqb t "transfer" || String.eqb t "transferChecked"
  | None => false
  end.

(** ['parsed' in instruction && instruction.parsed], then the type test;
    the result is the [parsed.info] to read, when the instruction matches. *)
Definition matching_parsed (instruction : Instruction)
  : option (option ParsedInfo.t) :=
  match instruction with
  | ParsedInstruction _ _ (ParsedObject type info) =>
    if is_transfer_type type then Some info else None
  | ParsedInstruction _ _ (ParsedString _) => None
  | PartiallyDecodedInstruction _ _ _ => None
  end.

(** The loop of [findTokenTransfer] over the instruction list. *)
Fixpoint findTokenTransfer_loop (instructions : list Instruction)
  : Outcome (option TransferInfo.t) :=
  match instructions with
  | [] => Returned None
  | instruction :: rest =>
    match matching_parsed instruction with
    | Some (Some info) =>
      Returned (Some
        {| TransferInfo.source := ParsedInfo.source info;
           TransferInfo.destination := ParsedInfo.destination info;
           TransferInfo.amount :=
             or_undefined (ParsedInfo.amount info)
                          (ParsedInfo.tokenAmount info) |})
    | Some None => Thrown (TypeError_undefined "source")
    | None => findTokenTransfer_loop rest
    end
  end.

Definition findTokenTransfer (tx : ParsedTransactionWithMeta.t)
  : Outcome (option TransferInfo.t) :=
  findTokenTransfer_loop (ParsedTransactionWithMeta.instructions tx).

(** [this.recipientTokenAccount?.toBase58()] *)
Definition expected_destination (this : Server.t) : option string :=
  match Server.recipientTokenAccount this with
  | Some k => Some (toBase58 k)
  | None => None
  end.

(** [destination !== expected], either side possibly [undefined]. *)
Definition strict_neq (destination expected : option string) : bool :=
  match destination, expected with
  | Some d, Some e => negb (String.eqb d e)
  | None, None => false
  | Some _, None | None, Some _ => true
  end.

(** [Date.now() / 1000 - txTime] *)
Definition age_of (E : Env) (txTime : number) : number :=
  (Date_now E / 1000 - txTime)%float.

Definition too_old_message (E : Env) (age maxAgeSeconds : number) : string :=
  "Transaction too old (" ++ Number_toString E (Math_floor E age) ++ "s > "
    ++ Number_toString E maxAgeSeconds ++ "s)".

Definition insufficient_message (E : Env) (actualAmount expectedAmount : number)
  : string :=
  "Insufficient payment amount: " ++ Number_toString E actualAmount ++ " < "
    ++ Number_toString E expectedAmount.

(** The checks on a fetched record, in the order of the source: execution
    error, age, transfer extraction, recipient, amount. *)
Definition check_record (E : Env) (this : Server.t) (signature : string)
    (expectedAmount maxAgeSeconds : number) (tx : ParsedTransactionWithMeta.t)
  : Outcome PaymentVerification.t :=
  if meta_err_truthy (ParsedTransactionWithMeta.meta tx) then
    Returned (failure "Transaction failed")
  else
    let txTime := ParsedTransactionWithMeta.blockTime tx in
    if truthy_opt txTime
       && (maxAgeSeconds <? age_of E (ToNumber txTime))%float then
      Returned (failure
        (too_old_message E (age_of E (ToNumber txTime)) maxAgeSeconds))
    else
      transferInfo <- findTokenTransfer tx ;;
      match transferInfo with
      | None => Returned (failure "No token transfer found in transaction")
      | Some transferInfo =>
        if strict_neq (TransferInfo.destination transferInfo)
                      (expected_destination this) then
          Returned (failure "Payment sent to wrong address")
        else
          let actualAmount :=
            (ToNumber (TransferInfo.amount transferInfo)
               / Math_pow E 10 (USDC_DECIMALS E))%float in
          let expectedAmountInSmallestUnit :=
            (expectedAmount * Math_pow E 10 (USDC_DECIMALS E))%float in
          if (ToNumber (TransferInfo.amount transferInfo)
                <? expectedAmountInSmallestUnit)%float then
            Returned (failure
              (insufficient_message E actualAmount expectedAmount))
          else
            Returned
              {| PaymentVerification.valid := true;
                 PaymentVerification.signature := Some signature;
                 PaymentVerification.amount := Some actualAmount;
                 PaymentVerification.token := Some "USDC";
                 PaymentVerification.from := TransferInfo.source transferInfo;
                 PaymentVerification.to :=
                   TransferInfo.destination transferInfo;
                 PaymentVerification.timestamp :=
                   if truthy_opt txTime then txTime else None;
                 PaymentVerification.error := None |}
      end.

(** [error.message || 'Unknown error during verification'] *)
Definition catch_message (message : option string) : string :=
  or_string message "Unknown error during verification".

(** The [catch] clause. *)
Definition catch_clause (error : Exception) : Outcome PaymentVerification.t :=
  message <- message_of error ;;
  Returned (failure (catch_message message)).

(** [verifyPayment]; an omitted [maxAgeSeconds] is [None] and defaults to 300. *)
Definition verifyPayment (E : Env) (this : Server.t) (signature : string)
    (expectedAmount : number) (maxAgeSeconds : option number)
  : Outcome PaymentVerification.t :=
  let maxAgeSeconds :=
    match maxAgeSeconds with Some m => m | None => 300%float end in
  try_catch
    (tx <- getParsedTransaction E signature confirmed ;;
     match tx with
     | None => Returned (failure "Transaction not found")
     | Some tx => check_record E this signature expectedAmount maxAgeSeconds tx
     end)
    catch_clause.

Definition isSignatureUsed (E : Env) (signature : string) : Outcome bool :=
  tx <- getTransaction E signature confirmed ;;
  Returned (match tx with Some _ => true | None => false end).

Definition getPaymentStatus (E : Env) (signature : string)
  : Outcome (bool * bool) :=
  confirmedTx <- getTransaction E signature confirmed ;;
  finalizedTx <- getTransaction E signature finalized ;;
  Returned (match confirmedTx with Some _ => true | None => false end,
            match finalizedTx with Some _ => true | None => false end).

End Token.

(** ** The native-coin (SOL) server: second [SolanaX402Server] of [server.ts] *)

Module Native.

Module Server.
Record t := {
  connection : Connection;
  config : X402ServerConfig.t
}.
End Server.

(** [constructor]: opens the connection, which can throw. *)
Definition constructor (E : Env) (config : X402ServerConfig.t)
  : Outcome Server.t :=
  let rpcUrl :=
    or_string (X402ServerConfig.rpcUrl config)
      (match X402ServerConfig.network config with
       | devnet => SOLANA_DEVNET_RPC E
       | mainnet_beta => SOLANA_MAINNET_RPC E
       end) in
  connection <- Connection_new E rpcUrl ;;
  Returned {| Server.connection := connection; Server.config := config |}.

(** [initialize]: only validates the recipient address (the console output
    is not modelled). *)
Definition initialize (E : Env) (this : Server.t) : Outcome unit :=
  try_catch
    (_ <- PublicKey_new E
            (X402ServerConfig.recipientAddress (Server.config this)) ;;
     Returned tt)
    (fun _ => Thrown {| message := "Invalid recipient address" |}).

Definition createPaymentRequirements (E : Env) (this : Server.t)
    (amountInSol : number) (resourceId : option string)
  : Outcome PaymentRequirements.t :=
  let paymentOption :=
    {| PaymentOption.id :=
         or_string resourceId ("sol-" ++ Number_toString E (Date_now E));
       PaymentOption.scheme := "solana";
       PaymentOption.network :=
         Network_toString (X402ServerConfig.network (Server.config this));
       PaymentOption.recipient :=
         X402ServerConfig.recipientAddress (Server.config this);
       PaymentOption.token := "native";
       PaymentOption.amount := Number_toString E amountInSol;
       PaymentOption.decimals := SOL_DECIMALS E |} in
  Returned {| PaymentRequirements.version := X402_VERSION E;
              PaymentRequirements.paymentOptions := [paymentOption] |}.

Definition create402Response (E : Env) (this : Server.t)
    (amountInSol : number) (resourceId : option string)
  : Outcome X402Response.t :=
  requirements <- createPaymentRequirements E this amountInSol resourceId ;;
  Returned {| X402Response.statusCode := 402;
              X402Response.headers := headers_402 E;
              X402Response.body := requirements |}.

(** [Math.floor(Date.now() / 1000)] *)
Definition now_seconds (E : Env) : number :=
  Math_floor E (Date_now E / 1000)%float.

(** [tx.meta?.preBalances[i] || 0], and the same for [postBalances]. *)
Definition balance_at (balances : Meta.t -> list number)
    (meta : option Meta.t) (i : nat) : number :=
  or_number (match meta with
             | Some m => nth_error (balances m) i
             | None => None
             end) 0%float.

Definition tolerance : number := 0.0001%float.

Definition too_old_message (E : Env) (age maxAgeSeconds : number) : string :=
  "Transaction too old: " ++ Number_toString E age ++ "s (max "
    ++ Number_toString E maxAgeSeconds ++ "s)".

Definition mismatch_message (E : Env) (expectedAmountSol receivedSol : number)
  : string :=
  "Amount mismatch: expected " ++ Number_toString E expectedAmountSol
    ++ " SOL, got " ++ Number_toString E receivedSol ++ " SOL".

(** The recipient's balance change in SOL:
    [(postBalance - preBalance) / LAMPORTS_PER_SOL]. *)
Definition receivedSol_at (meta : option Meta.t) (recipientIndex : nat)
  : number :=
  ((balance_at Meta.postBalances meta recipientIndex
      - balance_at Meta.preBalances meta recipientIndex)
     / LAMPORTS_PER_SOL)%float.

(** The checks on a fetched record, in the order of the source: age,
    execution error, recipient lookup, amount. *)
Definition check_record (E : Env) (this : Server.t) (signature : string)
    (expectedAmountSol maxAgeSeconds : number)
    (tx : VersionedTransactionResponse.t)
  : Outcome PaymentVerification.t :=
  let now := now_seconds E in
  let txTime := or_number (VersionedTransactionResponse.blockTime tx) 0%float in
  let age := (now - txTime)%float in
  if (maxAgeSeconds <? age)%float then
    Returned (failure (too_old_message E age maxAgeSeconds))
  else if meta_err_truthy (VersionedTransactionResponse.meta tx) then
    Returned (failure "Transaction failed")
  else
    recipientPubkey <- PublicKey_new E
      (X402ServerConfig.recipientAddress (Server.config this)) ;;
    staticAccountKeys <- VersionedTransactionResponse.getAccountKeys tx ;;
    match findIndex (fun key => equals key recipientPubkey) staticAccountKeys
    with
    | None => Returned (failure "Recipient not found in transaction")
    | Some recipientIndex =>
      let receivedSol :=
        receivedSol_at (VersionedTransactionResponse.meta tx) recipientIndex in
      if (tolerance <? abs (receivedSol - expectedAmountSol))%float then
        Returned (failure (mismatch_message E expectedAmountSol receivedSol))
      else
        match nth_error staticAccountKeys 0 with
        | None => Thrown (TypeError_undefined "toBase58")
        | Some senderPubkey =>
          Returned
            {| PaymentVerification.valid := true;
               PaymentVerification.signature := Some signature;
               PaymentVerification.amount := Some receivedSol;
               PaymentVerification.token := Some "SOL";
               PaymentVerification.from := Some (toBase58 senderPubkey);
               PaymentVerification.to :=
                 Some (X402ServerConfig.recipientAddress (Server.config this));
               PaymentVerification.timestamp := Some txTime;
               PaymentVerification.error := None |}
        end
    end.

(** [`Verification failed: ${error.message}`] *)
Definition catch_message (message : option string) : string :=
  "Verification failed: "
    ++ match message with Some m => m | None => "undefined" end.

(** The [catch] clause. *)
Definition catch_clause (error : Exception) : Outcome PaymentVerification.t :=
  message <- message_of error ;;
  Returned (failure (catch_message message)).

(** [verifyPayment]; an omitted [maxAgeSeconds] is [None] and defaults to 300. *)
Definition verifyPayment (E : Env) (this : Server.t) (signature : string)
    (expectedAmountSol : number) (maxAgeSeconds : option number)
  : Outcome PaymentVerification.t :=
  let maxAgeSeconds :=
    match maxAgeSeconds with Some m => m | None => 300%float end in
  try_catch
    (tx <- getTransaction E signature confirmed ;;
     match tx with
     | None => Returned (failure "Transaction not found")
     | Some tx =>
       check_record E this signature expectedAmountSol maxAgeSeconds tx
     end)
    catch_clause.

Definition isSignatureUsed (E : Env) (signature : string) : Outcome bool :=
  tx <- getTransaction E signature confirmed ;;
  Returned (match tx with Some _ => true | None => false end).

Definition getPaymentStatus (E : Env) (signature : string)
  : Outcome (bool * bool) :=
  confirmedTx <- getTransaction E signature confirmed ;;
  finalizedTx <- getTransaction E signature finalized ;;
  Returned (match confirmedTx with Some _ => true | None => false end,
            match finalizedTx with Some _ => true | None => false end).

End Native.

(** ** The replay guard of the specification *)

(** Modelled from the spec: the ReplayGuard of section 4.4, which the source
    does not implement.  Its state is the set of consumed signatures;
    [markConsumed] records a signature as spent and returns whether it was
    newly recorded ([false] if already spent). *)
Module ReplayGuard.

Definition t := list string.

Definition isConsumed (g : t) (signature : string) : bool :=
  existsb (String.eqb signature) g.

Definition markConsumed (g : t) (signature : string) : bool * t :=
  if isConsumed g signature then (false, g) else (true, signature :: g).

End ReplayGuard.

(** ** Properties of verdicts *)

Definition present {A} (x : option A) : bool :=
  match x with Some _ => true | None => false end.

(** The success fields other than [timestamp] are all present. *)
Definition success_fields_present (v : PaymentVerification.t) : bool :=
  present (PaymentVerification.signature v)
  && present (PaymentVerification.amount v)
  && present (PaymentVerification.token v)
  && present (PaymentVerification.from v)
  && present (PaymentVerification.to v).

(** All the success fields, [timestamp] included, are absent. *)
Definition success_fields_absent (v : PaymentVerification.t) : bool :=
  negb (present (PaymentVerification.signature v))
  && negb (present (PaymentVerification.amount v))
  && negb (present (PaymentVerification.token v))
  && negb (present (PaymentVerification.from v))
  && negb (present (PaymentVerification.to v))
  && negb (present (PaymentVerification.timestamp v)).

(** Exactly one of the two shapes: a success with every success field and no
    error, or a failure with an error and no success field. *)
Definition one_shape (v : PaymentVerification.t) : bool :=
  if PaymentVerification.valid v then
    success_fields_present v
    && present (PaymentVerification.timestamp v)
    && negb (present (PaymentVerification.error v))
  else
    present (PaymentVerification.error v) && success_fields_absent v.

(** The same, leaving open whether a success carries [from], [to] and
    [timestamp]. *)
Definition one_shape_core (v : PaymentVerification.t) : bool :=
  if PaymentVerification.valid v then
    present (PaymentVerification.signature v)
    && present (PaymentVerification.amount v)
    && present (PaymentVerification.token v)
    && negb (present (PaymentVerification.error v))
  else
    present (PaymentVerification.error v) && success_fields_absent v.

(** The reason of a verdict is a staleness reason. *)
Definition is_too_old (v : PaymentVerification.t) : bool :=
  match PaymentVerification.error v with
  | Some msg => String.prefix "Transaction too old" msg
  | None => false
  end.

(** The staleness test of each variant on a fetched record. *)
Definition token_stale (E : Env) (maxAgeSeconds : number)
    (tx : ParsedTransactionWithMeta.t) : bool :=
  truthy_opt (ParsedTransactionWithMeta.blockTime tx)
  && (maxAgeSeconds
        <? Token.age_of E (ToNumber (ParsedTransactionWithMeta.blockTime tx)))%float.

Definition native_age (E : Env) (tx : VersionedTransactionResponse.t) : number :=
  (Native.now_seconds E
     - or_number (VersionedTransactionResponse.blockTime tx) 0)%float.

Definition native_stale (E : Env) (maxAgeSeconds : number)
    (tx : VersionedTransactionResponse.t) : bool :=
  (maxAgeSeconds <? native_age E tx)%float.

(** An omitted [maxAgeSeconds] stands for 300. *)
Definition max_age (maxAgeSeconds : option number) : number :=
  match maxAgeSeconds with Some m => m | None => 300%float end.

(** The environment with its clock set to [now]. *)
Definition set_Date_now (E : Env) (now : number) : Env :=
  {| Date_now := now;
     Math_floor := Math_floor E;
     Math_pow := Math_pow E;
     Number_toString := Number_toString E;
     SOLANA_DEVNET_RPC := SOLANA_DEVNET_RPC E;
     SOLANA_MAINNET_RPC := SOLANA_MAINNET_RPC E;
     USDC_DEVNET_MINT := USDC_DEVNET_MINT E;
     USDC_MAINNET_MINT := USDC_MAINNET_MINT E;
     USDC_DECIMALS := USDC_DECIMALS E;
     SOL_DECIMALS := SOL_DECIMALS E;
     X402_VERSION := X402_VERSION E;
     Connection_new := Connection_new E;
     PublicKey_new := PublicKey_new E;
     getAssociatedTokenAddress := getAssociatedTokenAddress E;
     getParsedTransaction := getParsedTransaction E;
     getTransaction := getTransaction E |}.

(** ** A concrete environment, for running the model on examples *)

Module Sample.

Definition Z_toString (z : Z) : string := NilZero.string_of_int (Z.to_int z).

Definition of_Z (z : Z) : number :=
  if (z <? 0)%Z then (- of_uint63 (Uint63.of_Z (- z)))%float
  else of_uint63 (Uint63.of_Z z).

(** The largest integer below a number. *)
Definition floor (x : number) : number :=
  match Prim2SF x with
  | S754_finite s m e =>
    if (0 <=? e)%Z then x
    else of_Z ((if s then Zneg m else Zpos m) / 2 ^ (- e))
  | _ => x
  end.

(** The integer a number truncates to (0 for the non-finite ones). *)
Definition trunc (x : number) : Z :=
  match Prim2SF x with
  | S754_finite s m e =>
    if (0 <=? e)%Z then ((if s then Zneg m else Zpos m) * 2 ^ e)%Z
    else Z.quot (if s then Zneg m else Zpos m) (2 ^ (- e))
  | _ => 0%Z
  end.

(** Powers with a non-negative whole exponent, by repeated multiplication. *)
Definition pow (base exponent : number) : number :=
  Nat.iter (Z.to_nat (trunc exponent)) (fun acc => (acc * base)%float) 1%float.

(** Drops the factors of two shared by a mantissa and a negative exponent. *)
Fixpoint reduce (m : positive) (k : Z) : positive * Z :=
  match m with
  | xO m' => if (0 <? k)%Z then reduce m' (k - 1) else (m, k)
  | _ => (m, k)
  end.

Definition zeros (n : nat) : string :=
  Nat.iter n (fun s => "0" ++ s) "".

(** A number in decimal notation: whole numbers as integers, the others by
    their exact (finite) decimal expansion. *)
Definition toString (x : number) : string :=
  match Prim2SF x with
  | S754_nan => "NaN"
  | S754_infinity s => if s then "-Infinity" else "Infinity"
  | S754_zero _ => "0"
  | S754_finite s m e =>
    (if s then "-" else "") ++
    (if (0 <=? e)%Z then Z_toString (Zpos m * 2 ^ e)
     else
       let (m', k) := reduce m (- e) in
       let whole := (Zpos m' / 2 ^ k)%Z in
       if (k =? 0)%Z then Z_toString whole
       else
         let digits := Z_toString ((Zpos m' mod 2 ^ k) * 5 ^ k) in
         Z_toString whole ++ "."
           ++ zeros (Z.to_nat k - String.length digits) ++ digits)
  end.

(** Addresses are taken as well formed when they have 32 to 44 characters,
    none of them outside the base58 alphabet. *)
Definition base58_char (c : ascii) : bool :=
  let n := nat_of_ascii c in
  ((49 <=? n) && (n <=? 57)             (* 1-9 *)
   || (65 <=? n) && (n <=? 90) && negb (n =? 73) && negb (n =? 79)
   || (97 <=? n) && (n <=? 122) && negb (n =? 108))%nat.

Definition well_formed (s : string) : bool :=
  forallb base58_char (list_ascii_of_string s)
  && (32 <=? String.length s)%nat && (String.length s <=? 44)%nat.

Definition new_key (s : string) : Outcome PublicKey :=
  if well_formed s then Returned {| toBase58 := s |}
  else Thrown {| message := "Invalid public key input" |}.

Definition recipient : string := "9xQeWvG816bUx9EPjHmaT23yvVM2ZWbrrpZb9PusVFin".
Definition recipient_account : string :=
  "7UX2i7SucgLMQcfZ75s3VXmZZY4YRUyJN9X1RgfMoDUi".
Definition other_account : string :=
  "5Q544fKrFoe6tsEbD7S8EmxGTJYAKtTVhAW5Q5pge4j1".
Definition sender : string := "3n5Mq1vD3kVFMxWBcPqZkkm6cS6Wq2xL1y3ZpJd1jvVh".
Definition sender_account : string :=
  "6dM4QaR8mP2VnT5sZq1WcYb3hXe9LkUuJ7FpGgDy4oSt".

(** A connection opens on an endpoint that starts with [http:] or
    [https:]. *)
Definition new_connection (endpoint : string) : Outcome Connection :=
  if String.prefix "http:" endpoint || String.prefix "https:" endpoint
  then Returned {| rpcEndpoint := endpoint |}
  else Thrown
         {| message := "Endpoint URL must start with `http:` or `https:`." |}.

(** The token account derived for [recipient]; other owners give
    [other_account]. *)
Definition derive (mint owner : PublicKey) : Outcome PublicKey :=
  if String.eqb (toBase58 owner) recipient
  then Returned {| toBase58 := recipient_account |}
  else Returned {| toBase58 := other_account |}.

(** An environment with the clock at [now] and the given ledger. *)
Definition env (now : number)
    (parsedLedger :
       string -> Commitment -> Outcome (option ParsedTransactionWithMeta.t))
    (ledger :
       string -> Commitment -> Outcome (option VersionedTransactionResponse.t))
  : Env :=
  {| Date_now := now;
     Math_floor := floor;
     Math_pow := pow;
     Number_toString := toString;
     SOLANA_DEVNET_RPC := "https://api.devnet.solana.com";
     SOLANA_MAINNET_RPC := "https://api.mainnet-beta.solana.com";
     USDC_DEVNET_MINT := "4zMMC9srt5Ri5X14GAgXhaHii3GnPAEERYPJgZJDncDU";
     USDC_MAINNET_MINT := "EPjFWdd5AufqSSqeM2qN1xzybapC9G4wEGGkZwyTDt1v";
     USDC_DECIMALS := 6%float;
     SOL_DECIMALS := 9%float;
     X402_VERSION := "1.0";
     Connection_new := new_connection;
     PublicKey_new := new_key;
     getAssociatedTokenAddress := derive;
     getParsedTransaction := parsedLedger;
     getTransaction := ledger |}.

Definition config : X402ServerConfig.t :=
  {| X402ServerConfig.network := devnet;
     X402ServerConfig.recipientAddress := recipient;
     X402ServerConfig.rpcUrl := None;
     X402ServerConfig.usdcMintAddress := None |}.

(** The same configuration with a recipient that is no address. *)
Definition malformed_config : X402ServerConfig.t :=
  {| X402ServerConfig.network := devnet;
     X402ServerConfig.recipientAddress := "not-an-address";
     X402ServerConfig.rpcUrl := None;
     X402ServerConfig.usdcMintAddress := None |}.

(** The clock of the examples: 2023-11-14T22:13:20Z, in milliseconds. *)
Definition now : number := 1700000000000%float.

(** A ledger with no transaction, and one whose fetch fails. *)
Definition empty_ledger {A} (_ : string) (_ : Commitment)
  : Outcome (option A) := Returned None.

Definition down_ledger {A} (_ : string) (_ : Commitment)
  : Outcome (option A) := Thrown {| message := "fetch failed" |}.

(** A ledger holding one record, under the signature ["sig1"]. *)
Definition ledger_with {A} (tx : A) (signature : string) (_ : Commitment)
  : Outcome (option A) :=
  if String.eqb signature "sig1" then Returned (Some tx) else Returned None.

Definition ok_meta (pre post : list number) : option Meta.t :=
  Some {| Meta.err := None; Meta.preBalances := pre; Meta.postBalances := post |}.

Definition failed_meta : option Meta.t :=
  Some {| Meta.err := Some {| description := "InstructionError" |};
          Meta.preBalances := []; Meta.postBalances := [] |}.

Definition token_program : PublicKey :=
  {| toBase58 := "TokenkegQfeZyiNwAJbNbGKPFXCWuBvf9Ss623VQ5DA" |}.
Definition system_program : PublicKey :=
  {| toBase58 := "11111111111111111111111111111111" |}.

(** An SPL-token [transfer] of [amount] base units to [destination]. *)
Definition token_transfer (destination : string) (amount : number)
  : Instruction :=
  ParsedInstruction "spl-token" token_program
    (ParsedObject (Some "transfer")
       (Some {| ParsedInfo.source := Some sender_account;
                ParsedInfo.destination := Some destination;
                ParsedInfo.amount := Some amount;
                ParsedInfo.tokenAmount := None |})).

(** A system-program [transfer] of lamports: its [info] holds [source],
    [destination] and [lamports], and no [amount]. *)
Definition system_transfer (destination : string) : Instruction :=
  ParsedInstruction "system" system_program
    (ParsedObject (Some "transfer")
       (Some {| ParsedInfo.source := Some sender;
                ParsedInfo.destination := Some destination;
                ParsedInfo.amount := None;
                ParsedInfo.tokenAmount := None |})).

Definition parsed_tx (blockTime : option number) (meta : option Meta.t)
    (instructions : list Instruction) : ParsedTransactionWithMeta.t :=
  {| ParsedTransactionWithMeta.blockTime := blockTime;
     ParsedTransactionWithMeta.meta := meta;
     ParsedTransactionWithMeta.instructions := instructions |}.

(** A native record paying the recipient, the second account of two. *)
Definition native_tx (blockTime : option number) (meta : option Meta.t)
  : VersionedTransactionResponse.t :=
  {| VersionedTransactionResponse.blockTime := blockTime;
     VersionedTransactionResponse.meta := meta;
     VersionedTransactionResponse.getAccountKeys :=
       Returned [ {| toBase58 := sender |}; {| toBase58 := recipient |} ] |}.

(** The token server once initialised, and before. *)
Definition token_server (account : option PublicKey) : Token.Server.t :=
  {| Token.Server.connection :=
       {| rpcEndpoint := "https://api.devnet.solana.com" |};
     Token.Server.config := config;
     Token.Server.usdcMint :=
       {| toBase58 := "4zMMC9srt5Ri5X14GAgXhaHii3GnPAEERYPJgZJDncDU" |};
     Token.Server.recipientTokenAccount := account |}.

Definition initialized : Token.Server.t :=
  token_server (Some {| toBase58 := recipient_account |}).

Definition uninitialized : Token.Server.t := token_server None.

(** The native server that the constructor builds from [config], and the one
    it builds from [malformed_config]. *)
Definition native_server : Native.Server.t :=
  {| Native.Server.connection :=
       {| rpcEndpoint := "https://api.devnet.solana.com" |};
     Native.Server.config := config |}.

Definition native_misconfigured : Native.Server.t :=
  {| Native.Server.connection :=
       {| rpcEndpoint := "https://api.devnet.solana.com" |};
     Native.Server.config := malformed_config |}.

(** The token server that the constructor builds from [malformed_config]. *)
Definition misconfigured : Token.Server.t :=
  {| Token.Server.connection :=
       {| rpcEndpoint := "https://api.devnet.solana.com" |};
     Token.Server.config := malformed_config;
     Token.Server.usdcMint :=
       {| toBase58 := "4zMMC9srt5Ri5X14GAgXhaHii3GnPAEERYPJgZJDncDU" |};
     Token.Server.recipientTokenAccount := None |}.

End Sample.

(** ** The recipient's balance (native server) *)

Module Balance.

(** [getRecipientBalance]; [getBalance] is the ledger's balance query, in
    lamports. *)
Definition getRecipientBalance (E : Env)
    (getBalance : PublicKey -> Outcome number) (this : Native.Server.t)
  : Outcome number :=
  pubkey <- PublicKey_new E
              (X402ServerConfig.recipientAddress (Native.Server.config this)) ;;
  balance <- getBalance pubkey ;;
  Returned (balance / LAMPORTS_PER_SOL)%float.

End Balance.

(** ** The workflow node ([PocketNodeMock.node.ts]) *)

Module PocketNodeMock.

(** The values the node handles: parameters, credentials, the objects of the
    payment SDK and the JSON it emits.  An object is the list of its own
    properties, read through [lookup]. *)
#[warnings="-register-all"]
Inductive Value :=
| VUndefined
| VNull
| VBool (b : bool)
| VNumber (n : number)
| VString (s : string)
| VObject (fields : list (string * Value)).

Definition truthy_value (v : Value) : bool :=
  match v with
  | VUndefined | VNull => false
  | VBool b => b
  | VNumber n => truthy n
  | VString s => truthy_str s
  | VObject _ => true
  end.

(** [a || b] *)
Definition or_value (a b : Value) : Value :=
  if truthy_value a then a else b.

(** [v === s] for a string literal [s]. *)
Definition is_string (v : Value) (s : string) : bool :=
  match v with
  | VString s' => String.eqb s' s
  | _ => false
  end.

Fixpoint lookup (key : string) (fields : list (string * Value))
  : option Value :=
  match fields with
  | [] => None
  | (k, v) :: rest => if String.eqb k key then Some v else lookup key rest
  end.

(** Defines the property [key], or overwrites it where it stands. *)
Fixpoint set (key : string) (v : Value) (fields : list (string * Value))
  : list (string * Value) :=
  match fields with
  | [] => [(key, v)]
  | (k, old) :: rest =>
    if String.eqb k key then (k, v) :: rest else (k, old) :: set key v rest
  end.

(** What is thrown: a [NodeOperationError] (with the item index of its
    context, when it has one), another [Error] object, or any other value. *)
Inductive Thrown :=
| OperationError (e : Error) (itemIndex : option nat)
| ErrorObject (e : Error)
| NotAnError (v : Value).

Definition is_operation_error (t : Thrown) : bool :=
  match t with
  | OperationError _ _ => true
  | ErrorObject _ | NotAnError _ => false
  end.

Inductive Completion (A : Type) : Type :=
| Normal (a : A)
| Throw (t : Thrown).
Arguments Normal {A} a.
Arguments Throw {A} t.

Definition and_then {A B} (c : Completion A) (k : A -> Completion B)
  : Completion B :=
  match c with
  | Normal a => k a
  | Throw t => Throw t
  end.

(** [v.key], for a key that no primitive value has. *)
Definition get (v : Value) (key : string) : Completion Value :=
  match v with
  | VUndefined => Throw (ErrorObject (TypeError_undefined key))
  | VNull => Throw (ErrorObject (TypeError_null key))
  | VObject fields =>
    Normal (match lookup key fields with Some x => x | None => VUndefined end)
  | VBool _ | VNumber _ | VString _ => Normal VUndefined
  end.

(** [v?.key] *)
Definition get_optional (v : Value) (key : string) : Value :=
  match v with
  | VObject fields =>
    match lookup key fields with Some x => x | None => VUndefined end
  | _ => VUndefined
  end.

(** The own enumerable properties that [...v] copies: those of an object, the
    indexed characters of a string, none for the other values. *)
Fixpoint characters (s : string) (index : nat) : list (string * Value) :=
  match s with
  | EmptyString => []
  | String c rest =>
    (NilZero.string_of_uint (Nat.to_uint index),
     VString (String c EmptyString))
      :: characters rest (S index)
  end.

Definition own_properties (v : Value) : list (string * Value) :=
  match v with
  | VObject fields => fields
  | VString s => characters s 0
  | _ => []
  end.

(** [{ ...fields, ...v }] *)
Definition spread (fields : list (string * Value)) (v : Value)
  : list (string * Value) :=
  fold_left (fun acc kv => set (fst kv) (snd kv) acc) (own_properties v) fields.

(** An instance of the SDK's [X402Server]. *)
Record X402Server := {
  create402Response : Value -> Completion Value;
  verifyPayment : Value -> Value -> Completion Value
}.

(** What [execute] reads: the n8n execution context and the two SDKs. *)
Record Context := {
  getInputData : list Value;
  getNodeParameter : string -> nat -> option Value -> Completion Value;
  getCredentials : string -> Completion Value;
  continueOnFail : bool;
  generateWallet : Value -> Completion Value;
  X402Server_new : Value -> Completion X402Server
}.

Record ExecutionData := {
  json : Value;
  pairedItem : nat
}.

(** How [execute] ends: with its output, by throwing a value that came from
    elsewhere as it is, or by throwing a [NodeOperationError] that it builds
    for an item from what that item threw. *)
Inductive Result :=
| Done (output : list (list ExecutionData))
| Propagated (t : Thrown)
| NodeOperationError (cause : Thrown) (itemIndex : nat).

(** The credentials and the network that [execute] settles on before the
    loop. *)
Definition credentials_of (this : Context) : Value :=
  match getCredentials this "pocketNodeApi" with
  | Normal c => c
  | Throw _ => VNull
  end.

Definition network_of (this : Context) : Value :=
  match getCredentials this "pocketNodeApi" with
  | Normal c => or_value (get_optional c "network") (VString "devnet")
  | Throw _ => VString "devnet"
  end.

(** The recipient address before any wallet is generated. *)
Definition configured_recipient (credentials nodeWalletAddress : Value)
  : Value :=
  if truthy_value nodeWalletAddress then nodeWalletAddress
  else if truthy_value (get_optional credentials "walletAddress")
       then get_optional credentials "walletAddress"
       else VString "".

(** [if (!recipientAddress) { recipientAddress = generateWallet(network).address }] *)
Definition ensure_recipient (this : Context) (network recipientAddress : Value)
  : Completion Value :=
  if truthy_value recipientAddress then Normal recipientAddress
  else and_then (generateWallet this network)
         (fun generatedWallet => get generatedWallet "address").

Definition server_config (recipientAddress network : Value) : Value :=
  VObject [ ("recipientAddress", recipientAddress); ("network", network) ].

(** The body of the [try] block for item [i]; [None] when it pushes
    nothing. *)
Definition item (this : Context) (operation credentials network : Value)
    (i : nat) : Completion (option ExecutionData) :=
  and_then (getNodeParameter this "walletAddress" i (Some (VString "")))
  (fun nodeWalletAddress =>
  let recipientAddress := configured_recipient credentials nodeWalletAddress in
  if is_string operation "return402" then
    and_then (getNodeParameter this "resource" i (Some (VString "/api/resource")))
    (fun resourceInput =>
    let resource := or_value resourceInput (VString "/api/resource") in
    and_then (getNodeParameter this "description" i
                (Some (VString "Premium content access")))
    (fun description =>
    and_then (getNodeParameter this "amount" i (Some (VString "0.01")))
    (fun amount =>
    and_then (getNodeParameter this "mimeType" i
                (Some (VString "application/json")))
    (fun mimeType =>
    and_then (getNodeParameter this "timeout" i (Some (VNumber 60%float)))
    (fun timeout =>
    and_then (ensure_recipient this network recipientAddress)
    (fun recipientAddress =>
    and_then (X402Server_new this (server_config recipientAddress network))
    (fun server =>
    and_then (create402Response server
                (VObject [ ("resource", resource);
                           ("description", description);
                           ("amount", amount);
                           ("mimeType", mimeType);
                           ("timeout", timeout) ]))
    (fun response =>
    Normal (Some
      {| json := VObject (spread [ ("statusCode", VNumber 402%float) ] response);
         pairedItem := i |})))))))))
  else if is_string operation "verifyPayment" then
    and_then (ensure_recipient this network recipientAddress)
    (fun recipientAddress =>
    and_then (X402Server_new this (server_config recipientAddress network))
    (fun server =>
    and_then (getNodeParameter this "signature" i None)
    (fun signature =>
    and_then (getNodeParameter this "expectedAmount" i None)
    (fun expectedAmount =>
    and_then (verifyPayment server signature expectedAmount)
    (fun verification =>
    and_then (get verification "valid")
    (fun valid =>
    and_then (get verification "amount")
    (fun amount =>
    and_then (get verification "from")
    (fun from =>
    and_then (get verification "to")
    (fun to =>
    and_then (get verification "error")
    (fun error =>
    Normal (Some
      {| json := VObject [ ("verified", valid);
                           ("signature", signature);
                           ("amount", amount);
                           ("from", from);
                           ("to", to);
                           ("error", error) ];
         pairedItem := i |})))))))))))
  else Normal None).

(** The item pushed by the [catch] block when the node continues on
    failure: [error instanceof Error ? error.message : 'Unknown error']. *)
Definition error_item (t : Thrown) (i : nat) : ExecutionData :=
  {| json :=
       VObject [ ("error",
                  VString (match t with
                           | OperationError e _ | ErrorObject e => message e
                           | NotAnError _ => "Unknown error"
                           end)) ];
     pairedItem := i |}.

(** [throw new NodeOperationError(node, error, { itemIndex: i })]: the
    library's constructor returns [error] itself when that is a
    [NodeOperationError] already. *)
Definition raise (error : Thrown) (i : nat) : Result :=
  if is_operation_error error then Propagated error
  else NodeOperationError error i.

(** The loop over the items still to process, [returnData] holding what was
    pushed so far. *)
Fixpoint loop (this : Context) (operation credentials network : Value)
    (indices : list nat) (returnData : list ExecutionData) : Result :=
  match indices with
  | [] => Done [returnData]
  | i :: rest =>
    match item this operation credentials network i with
    | Normal (Some data) =>
      loop this operation credentials network rest (returnData ++ [data])
    | Normal None => loop this operation credentials network rest returnData
    | Throw t =>
      if continueOnFail this then
        loop this operation credentials network rest
          (returnData ++ [error_item t i])
      else raise t i
    end
  end.

Definition execute (this : Context) : Result :=
  let items := getInputData this in
  match getNodeParameter this "operation" 0 None with
  | Throw t => Propagated t
  | Normal operation =>
    loop this operation (credentials_of this) (network_of this)
      (seq 0 (List.length items)) []
  end.

(** The context with another wallet generator. *)
Definition set_generateWallet (this : Context)
    (generate : Value -> Completion Value) : Context :=
  {| getInputData := getInputData this;
     getNodeParameter := getNodeParameter this;
     getCredentials := getCredentials this;
     continueOnFail := continueOnFail this;
     generateWallet := generate;
     X402Server_new := X402Server_new this |}.

(** The operation is one of the two the node knows. *)
Definition known_operation (operation : Value) : bool :=
  is_string operation "return402" || is_string operation "verifyPayment".

(** What the loop pushes for item [i]: the item's own output, or the error
    item when it throws. *)
Definition pushed (this : Context) (operation credentials network : Value)
    (i : nat) (data : ExecutionData) : Prop :=
  pairedItem data = i
  /\ (forall output,
      item this operation credentials network i = Normal (Some output) ->
      data = output)
  /\ (forall t,
      item this operation credentials network i = Throw t ->
      data = error_item t i).

End PocketNodeMock.

(** ** A concrete execution context, for running the node on examples *)

Module SampleNode.

Import PocketNodeMock.

(** An SDK server that answers a challenge request with the requirements it
    was asked for, and knows one paid signature. *)
Definition server (config : Value) : X402Server :=
  {| create402Response := fun params =>
       Normal (VObject [ ("x402Version", VNumber 1%float);
                         ("accepts", params);
                         ("payTo", get_optional config "recipientAddress") ]);
     verifyPayment := fun signature expectedAmount =>
       if is_string signature "sig1" then
         Normal (VObject [ ("valid", VBool true);
                           ("amount", expectedAmount);
                           ("from", VString Sample.sender);
                           ("to", get_optional config "recipientAddress") ])
       else if is_string signature "" then
         Throw (ErrorObject {| message := "Signature is required" |})
       else
         Normal (VObject [ ("valid", VBool false);
                           ("error", VString "Transaction not found") ]) |}.

(** A context with [items] input items, whose parameters are given by
    [parameter]; a parameter that is not set takes its fallback, and reading
    it without fallback throws. *)
Definition context (items : nat) (continue : bool)
    (parameter : string -> nat -> option Value) : Context :=
  {| getInputData := repeat (VObject []) items;
     getNodeParameter := fun name i fallback =>
       match parameter name i, fallback with
       | Some v, _ => Normal v
       | None, Some v => Normal v
       | None, None =>
         Throw (ErrorObject
                  {| message := "Could not get parameter " ++ name |})
       end;
     getCredentials := fun _ =>
       Throw (ErrorObject {| message := "Credentials not found" |});
     continueOnFail := continue;
     generateWallet := fun _ =>
       Normal (VObject [ ("address", VString Sample.other_account) ]);
     X402Server_new := fun config => Normal (server config) |}.

(** Three items to verify: a paid signature, an unknown one, and an empty
    one, for which the SDK throws. *)
Definition verify_parameters (name : string) (i : nat) : option Value :=
  if String.eqb name "operation" then Some (VString "verifyPayment")
  else if String.eqb name "walletAddress" then Some (VString Sample.recipient)
  else if String.eqb name "expectedAmount" then Some (VString "0.01")
  else if String.eqb name "signature" then
    Some (VString (match i with
                   | 0%nat => "sig1"
                   | 1%nat => "sig9"
                   | _ => ""
                   end))
  else None.

(** A challenge request with every parameter left to its default. *)
Definition challenge_parameters (name : string) (i : nat) : option Value :=
  if String.eqb name "operation" then Some (VString "return402") else None.

(** Three items to verify, no continuing on failure, and an SDK server that
    rejects every verification with a [NodeOperationError] made for item
    7. *)
Definition rethrowing_context : Context :=
  let base := context 3 false verify_parameters in
  {| getInputData := getInputData base;
     getNodeParameter := getNodeParameter base;
     getCredentials := getCredentials base;
     continueOnFail := false;
     generateWallet := generateWallet base;
     X402Server_new := fun config =>
       Normal
         {| create402Response := create402Response (server config);
            verifyPayment := fun _ _ =>
              Throw (OperationError
                       {| message := "No payment for this item" |}
                       (Some 7%nat)) |} |}.

End SampleNode.

(** * Properties *)

(** ** Outcomes *)

Lemma message_of_returns (error : Exception) :
  nullish error = false -> exists m, message_of error = Returned m.
Proof. destruct error; cbn; try discriminate; eauto. Qed.

Lemma try_catch_returns {A} (body : Outcome A)
    (handler : Exception -> Outcome A) :
  (forall error, body = Thrown error -> exists a, handler error = Returned a) ->
  exists a, try_catch body handler = Returned a.
Proof. destruct body as [a | e]; cbn [try_catch]; eauto. Qed.

(** A verdict that a [catch] clause returns is a failure literal. *)
Lemma token_catch_clause_verdict error v :
  Token.catch_clause error = Returned v -> exists reason, v = failure reason.
Proof.
  unfold Token.catch_clause.
  destruct (message_of error) as [m | e]; cbn [bind]; [| discriminate].
  intros [= <-]. eauto.
Qed.

Lemma native_catch_clause_verdict error v :
  Native.catch_clause error = Returned v -> exists reason, v = failure reason.
Proof.
  unfold Native.catch_clause.
  destruct (message_of error) as [m | e]; cbn [bind]; [| discriminate].
  intros [= <-]. eauto.
Qed.

(** ** The verdicts of the token server *)

Section TokenVerdicts.

Variable E : Env.
Variable this : Token.Server.t.
Variable signature : string.
Variable expectedAmount : number.

(** A verdict returned for a fetched record is a failure literal or an
    accepted payment, whose [from] and [to] are the source and the
    destination of the extracted transfer and whose timestamp is the block
    time when that is truthy. *)
Lemma token_check_record_verdict maxAge tx v :
  Token.check_record E this signature expectedAmount maxAge tx = Returned v ->
  (PaymentVerification.valid v = false /\ exists reason, v = failure reason)
  \/ (PaymentVerification.valid v = true
      /\ one_shape_core v = true
      /\ (exists transferInfo,
            Token.findTokenTransfer tx = Returned (Some transferInfo)
            /\ PaymentVerification.from v
               = Token.TransferInfo.source transferInfo
            /\ PaymentVerification.to v
               = Token.TransferInfo.destination transferInfo)
      /\ PaymentVerification.timestamp v
         = (if truthy_opt (ParsedTransactionWithMeta.blockTime tx)
            then ParsedTransactionWithMeta.blockTime tx else None)).
Proof.
  unfold Token.check_record.
  destruct (meta_err_truthy _); [intros [= <-]; left; eauto |].
  destruct (truthy_opt _ && _); [intros [= <-]; left; eauto |].
  destruct (Token.findTokenTransfer tx) as [[ti |] | e]; cbn [bind try_catch];
    [| intros [= <-]; left; eauto | discriminate].
  destruct (Token.strict_neq _ _); [intros [= <-]; left; eauto |].
  destruct (_ <? _)%float; intros [= <-]; [left; eauto |].
  right. split; [reflexivity |]. split; [reflexivity |].
  split; [exists ti; repeat split | reflexivity].
Qed.

(** The checks on a fetched record throw nothing but the TypeError of the
    extractor. *)
Lemma token_check_record_throws maxAge tx error :
  Token.check_record E this signature expectedAmount maxAge tx = Thrown error ->
  error = TypeError_undefined "source".
Proof.
  unfold Token.check_record.
  destruct (meta_err_truthy _); [discriminate |].
  destruct (truthy_opt _ && _); [discriminate |].
  unfold Token.findTokenTransfer.
  induction (ParsedTransactionWithMeta.instructions tx) as [| i rest IH];
    cbn [Token.findTokenTransfer_loop bind].
  - discriminate.
  - destruct (Token.matching_parsed i) as [[info |] |]; cbn [bind].
    + destruct (Token.strict_neq _ _); [discriminate |].
      destruct (_ <? _)%float; discriminate.
    + intros [= <-]. reflexivity.
    + exact IH.
Qed.

(** [verifyPayment] returns whenever the fetch throws neither [null] nor
    [undefined]: the [catch] clause turns every other thrown value into a
    verdict. *)
Lemma token_verifyPayment_returns maxAgeSeconds :
  (forall error,
      getParsedTransaction E signature confirmed = Thrown error ->
      nullish error = false) ->
  exists v,
    Token.verifyPayment E this signature expectedAmount maxAgeSeconds
    = Returned v.
Proof.
  intros Hfetch. unfold Token.verifyPayment. apply try_catch_returns.
  intros error.
  destruct (getParsedTransaction E signature confirmed) as [[tx |] | e]
    eqn:Hget; cbn [bind].
  - intros Hthrown. rewrite (token_check_record_throws _ _ _ Hthrown).
    cbn. eauto.
  - discriminate.
  - intros [= <-]. unfold Token.catch_clause.
    destruct (message_of_returns e (Hfetch e eq_refl)) as [m ->].
    cbn [bind]. eauto.
Qed.

(** On a fetched record, [verifyPayment] is [check_record] under the
    [catch] clause. *)
Lemma token_verifyPayment_fetched maxAgeSeconds tx :
  getParsedTransaction E signature confirmed = Returned (Some tx) ->
  Token.verifyPayment E this signature expectedAmount maxAgeSeconds
  = try_catch
      (Token.check_record E this signature expectedAmount
         (max_age maxAgeSeconds) tx)
      Token.catch_clause.
Proof. unfold Token.verifyPayment. intros ->. reflexivity. Qed.

Lemma token_verifyPayment_verdict maxAgeSeconds v :
  Token.verifyPayment E this signature expectedAmount maxAgeSeconds
  = Returned v ->
  (PaymentVerification.valid v = false /\ exists reason, v = failure reason)
  \/ (PaymentVerification.valid v = true
      /\ one_shape_core v = true
      /\ exists tx transferInfo,
           getParsedTransaction E signature confirmed = Returned (Some tx)
           /\ Token.findTokenTransfer tx = Returned (Some transferInfo)
           /\ PaymentVerification.from v
              = Token.TransferInfo.source transferInfo
           /\ PaymentVerification.to v
              = Token.TransferInfo.destination transferInfo
           /\ PaymentVerification.timestamp v
              = (if truthy_opt (ParsedTransactionWithMeta.blockTime tx)
                 then ParsedTransactionWithMeta.blockTime tx else None)).
Proof.
  unfold Token.verifyPayment.
  destruct (getParsedTransaction E signature confirmed) as [[tx |] | e] eqn:Hfetch;
    cbn [bind try_catch].
  - destruct (Token.check_record _ _ _ _ _ tx) as [v' | e] eqn:Hcheck;
      cbn [bind try_catch].
    + intros [= <-].
      destruct (token_check_record_verdict _ _ _ Hcheck)
        as [Hl | (Hv & Hs & (ti & Hfind & Hfrom & Hto) & Ht)];
        [left; exact Hl | right].
      split; [exact Hv |]. split; [exact Hs |]. exists tx, ti. auto.
    + intros Hcatch. left.
      destruct (token_catch_clause_verdict _ _ Hcatch) as [reason ->]. eauto.
  - intros [= <-]. left. eauto.
  - intros Hcatch. left.
    destruct (token_catch_clause_verdict _ _ Hcatch) as [reason ->]. eauto.
Qed.

End TokenVerdicts.

(** ** The verdicts of the native server *)

Section NativeVerdicts.

Variable E : Env.
Variable this : Native.Server.t.
Variable signature : string.
Variable expectedAmountSol : number.

Lemma native_check_record_verdict maxAge tx v :
  Native.check_record E this signature expectedAmountSol maxAge tx
  = Returned v ->
  (PaymentVerification.valid v = false /\ exists reason, v = failure reason)
  \/ (PaymentVerification.valid v = true
      /\ one_shape v = true
      /\ PaymentVerification.timestamp v
         = Some (or_number (VersionedTransactionResponse.blockTime tx) 0%float)).
Proof.
  unfold Native.check_record.
  destruct (_ <? _)%float; [intros [= <-]; left; eauto |].
  destruct (meta_err_truthy _); [intros [= <-]; left; eauto |].
  destruct (PublicKey_new E _) as [key | e]; cbn [bind try_catch]; [| discriminate].
  destruct (VersionedTransactionResponse.getAccountKeys tx) as [keys | e];
    cbn [bind try_catch]; [| discriminate].
  destruct (findIndex _ keys) as [i |]; [| intros [= <-]; left; eauto].
  destruct (_ <? _)%float; [intros [= <-]; left; eauto |].
  destruct (nth_error keys 0); [| discriminate].
  intros [= <-]. right. repeat split; reflexivity.
Qed.

(** The checks on a fetched record throw what the key constructor or the
    account-key lookup throws, or the TypeError of a missing first key. *)
Lemma native_check_record_throws maxAge tx error :
  Native.check_record E this signature expectedAmountSol maxAge tx
  = Thrown error ->
  PublicKey_new E
    (X402ServerConfig.recipientAddress (Native.Server.config this))
  = Thrown error
  \/ VersionedTransactionResponse.getAccountKeys tx = Thrown error
  \/ error = TypeError_undefined "toBase58".
Proof.
  unfold Native.check_record.
  destruct (_ <? _)%float; [discriminate |].
  destruct (meta_err_truthy _); [discriminate |].
  destruct (PublicKey_new E _) as [key | e]; cbn [bind try_catch];
    [| intros [= <-]; left; reflexivity].
  destruct (VersionedTransactionResponse.getAccountKeys tx) as [keys | e];
    cbn [bind try_catch]; [| intros [= <-]; right; left; reflexivity].
  destruct (findIndex _ keys) as [i |]; [| discriminate].
  destruct (_ <? _)%float; [discriminate |].
  destruct (nth_error keys 0); [discriminate |].
  intros [= <-]. right. right. reflexivity.
Qed.

(** [verifyPayment] returns whenever neither the fetch, nor the key
    constructor, nor the account-key lookup throws [null] or [undefined]. *)
Lemma native_verifyPayment_returns maxAgeSeconds :
  (forall error,
      getTransaction E signature confirmed = Thrown error ->
      nullish error = false) ->
  (forall error,
      PublicKey_new E
        (X402ServerConfig.recipientAddress (Native.Server.config this))
      = Thrown error ->
      nullish error = false) ->
  (forall tx error,
      getTransaction E signature confirmed = Returned (Some tx) ->
      VersionedTransactionResponse.getAccountKeys tx = Thrown error ->
      nullish error = false) ->
  exists v,
    Native.verifyPayment E this signature expectedAmountSol maxAgeSeconds
    = Returned v.
Proof.
  intros Hfetch Hkey Hkeys. unfold Native.verifyPayment.
  apply try_catch_returns. intros error.
  destruct (getTransaction E signature confirmed) as [[tx |] | e]
    eqn:Hget; cbn [bind].
  - intros Hthrown. unfold Native.catch_clause.
    destruct (native_check_record_throws _ _ _ Hthrown) as [H | [H | ->]].
    + destruct (message_of_returns _ (Hkey _ H)) as [m ->]. cbn [bind]. eauto.
    + destruct (message_of_returns _ (Hkeys tx _ eq_refl H)) as [m ->].
      cbn [bind]. eauto.
    + cbn. eauto.
  - discriminate.
  - intros [= <-]. unfold Native.catch_clause.
    destruct (message_of_returns e (Hfetch e eq_refl)) as [m ->].
    cbn [bind]. eauto.
Qed.

Lemma native_verifyPayment_fetched maxAgeSeconds tx :
  getTransaction E signature confirmed = Returned (Some tx) ->
  Native.verifyPayment E this signature expectedAmountSol maxAgeSeconds
  = try_catch
      (Native.check_record E this signature expectedAmountSol
         (max_age maxAgeSeconds) tx)
      Native.catch_clause.
Proof. unfold Native.verifyPayment. intros ->. reflexivity. Qed.

Lemma native_verifyPayment_verdict maxAgeSeconds v :
  Native.verifyPayment E this signature expectedAmountSol maxAgeSeconds
  = Returned v ->
  (PaymentVerification.valid v = false /\ exists reason, v = failure reason)
  \/ (PaymentVerification.valid v = true
      /\ one_shape v = true
      /\ exists tx,
           getTransaction E signature confirmed = Returned (Some tx)
           /\ PaymentVerification.timestamp v
              = Some (or_number (VersionedTransactionResponse.blockTime tx)
                        0%float)).
Proof.
  unfold Native.verifyPayment.
  destruct (getTransaction E signature confirmed) as [[tx |] | e];
    cbn [bind try_catch].
  - destruct (Native.check_record _ _ _ _ _ tx) as [v' | e] eqn:Hcheck;
      cbn [bind try_catch].
    + intros [= <-].
      destruct (native_check_record_verdict _ _ _ Hcheck)
        as [Hl | (Hv & Hs & Ht)]; [left; exact Hl | right].
      split; [exact Hv |]. split; [exact Hs |]. exists tx. auto.
    + intros Hcatch. left.
      destruct (native_catch_clause_verdict _ _ Hcatch) as [reason ->]. eauto.
  - intros [= <-]. left. eauto.
  - intros Hcatch. left.
    destruct (native_catch_clause_verdict _ _ Hcatch) as [reason ->]. eauto.
Qed.

End NativeVerdicts.

(** ** Errors inside [verifyPayment] *)

(** C1, as stated, fails: with a ledger whose fetch throws an error, both
    variants of [verifyPayment] return a failed verdict carrying the error's
    message instead of letting the error reach the caller. *)
Lemma fetch_error_is_returned_not_thrown :
  Token.verifyPayment (Sample.env Sample.now Sample.down_ledger Sample.down_ledger)
    Sample.initialized "abc" 0.01%float None
  = Returned (failure "fetch failed")
  /\ Native.verifyPayment
       (Sample.env Sample.now Sample.down_ledger Sample.down_ledger)
       Sample.native_server "abc" 0.01%float None
     = Returned (failure "Verification failed: fetch failed").
Proof. split; reflexivity. Qed.

(** C1 (amended): [verifyPayment] catches what is thrown inside it.  In both
    variants, whenever nothing it calls throws [null] or [undefined], the
    call returns a verdict, and a verdict that is not valid is the literal
    [{valid:false, error:<reason>}]; a missing record gives the reason
    "Transaction not found"; and a ledger fetch that throws a value whose
    [message] can be read is returned as such a verdict too, its reason being
    that message (or "Unknown error during verification" when it is empty or
    undefined) in the token variant and "Verification failed: " followed by
    the message in the native one. *)
Theorem verifyPayment_returns_errors_as_verdicts :
  forall (E : Env) (signature : string) (expectedAmount : number)
         (maxAgeSeconds : option number),
    (forall this,
        (forall error,
            getParsedTransaction E signature confirmed = Thrown error ->
            nullish error = false) ->
        exists v,
          Token.verifyPayment E this signature expectedAmount maxAgeSeconds
          = Returned v
          /\ (PaymentVerification.valid v = false ->
              exists reason, v = failure reason))
    /\ (forall this,
        (forall error,
            getTransaction E signature confirmed = Thrown error ->
            nullish error = false) ->
        (forall error,
            PublicKey_new E
              (X402ServerConfig.recipientAddress (Native.Server.config this))
            = Thrown error ->
            nullish error = false) ->
        (forall tx error,
            getTransaction E signature confirmed = Returned (Some tx) ->
            VersionedTransactionResponse.getAccountKeys tx = Thrown error ->
            nullish error = false) ->
        exists v,
          Native.verifyPayment E this signature expectedAmount maxAgeSeconds
          = Returned v
          /\ (PaymentVerification.valid v = false ->
              exists reason, v = failure reason))
    /\ (forall this,
        getParsedTransaction E signature confirmed = Returned None ->
        Token.verifyPayment E this signature expectedAmount maxAgeSeconds
        = Returned (failure "Transaction not found"))
    /\ (forall this,
        getTransaction E signature confirmed = Returned None ->
        Native.verifyPayment E this signature expectedAmount maxAgeSeconds
        = Returned (failure "Transaction not found"))
    /\ (forall this error message,
        getParsedTransaction E signature confirmed = Thrown error ->
        message_of error = Returned message ->
        Token.verifyPayment E this signature expectedAmount maxAgeSeconds
        = Returned (failure (Token.catch_message message)))
    /\ (forall this error message,
        getTransaction E signature confirmed = Thrown error ->
        message_of error = Returned message ->
        Native.verifyPayment E this signature expectedAmount maxAgeSeconds
        = Returned (failure (Native.catch_message message))).
Proof.
  intros E signature expectedAmount maxAgeSeconds.
  repeat split.
  - intros this Hfetch.
    destruct (token_verifyPayment_returns E this signature expectedAmount
                maxAgeSeconds Hfetch) as [v Hv].
    exists v. split; [exact Hv |]. intros Hvalid.
    destruct (token_verifyPayment_verdict _ _ _ _ _ _ Hv) as [[_ Hr] | [Ht _]];
      [exact Hr | congruence].
  - intros this Hfetch Hkey Hkeys.
    destruct (native_verifyPayment_returns E this signature expectedAmount
                maxAgeSeconds Hfetch Hkey Hkeys) as [v Hv].
    exists v. split; [exact Hv |]. intros Hvalid.
    destruct (native_verifyPayment_verdict _ _ _ _ _ _ Hv) as [[_ Hr] | [Ht _]];
      [exact Hr | congruence].
  - intros this Hfetch. unfold Token.verifyPayment. now rewrite Hfetch.
  - intros this Hfetch. unfold Native.verifyPayment. now rewrite Hfetch.
  - intros this error message Hfetch Hmessage.
    unfold Token.verifyPayment, Token.catch_clause.
    rewrite Hfetch. cbn [bind try_catch]. now rewrite Hmessage.
  - intros this error message Hfetch Hmessage.
    unfold Native.verifyPayment, Native.catch_clause.
    rewrite Hfetch. cbn [bind try_catch]. now rewrite Hmessage.
Qed.

(** The theorem at a ledger whose fetch fails with an error. *)
Lemma verifyPayment_returns_errors_as_verdicts_witness :
  Token.verifyPayment
    (Sample.env Sample.now Sample.down_ledger Sample.down_ledger)
    Sample.initialized "abc" 0.01%float None
  = Returned (failure "fetch failed")
  /\ exists v,
       Native.verifyPayment
         (Sample.env Sample.now Sample.down_ledger Sample.down_ledger)
         Sample.native_server "abc" 0.01%float None
       = Returned v.
Proof.
  pose proof (verifyPayment_returns_errors_as_verdicts
                (Sample.env Sample.now Sample.down_ledger Sample.down_ledger)
                "abc" 0.01%float None)
    as (_ & Hnative & _ & _ & Htoken & _).
  split.
  - exact (Htoken Sample.initialized {| message := "fetch failed" |}
             (Some "fetch failed") eq_refl eq_refl).
  - destruct (Hnative Sample.native_server) as (v & Hv & _).
    + intros error [= <-]. reflexivity.
    + intros error. cbn. discriminate.
    + intros tx error. cbn. discriminate.
    + exists v. exact Hv.
Defined.

(** What the amended claim leaves open: a fetch that rejects with [null]
    makes the [catch] clause itself throw, reading [message] from [null]. *)
Lemma verifyPayment_rethrows_for_null :
  let ledger {A} (_ : string) (_ : Commitment) : Outcome (option A) :=
    Thrown ThrownNull in
  Token.verifyPayment (Sample.env Sample.now ledger ledger)
    Sample.initialized "abc" 0.01%float None
  = Thrown (TypeError_null "message")
  /\ Native.verifyPayment (Sample.env Sample.now ledger ledger)
       Sample.native_server "abc" 0.01%float None
     = Thrown (TypeError_null "message").
Proof. split; reflexivity. Qed.

(** ** The replay check *)

(** The contract of the specification's guard: a signature is newly recorded
    once, and found spent from then on. *)
Lemma markConsumed_once (g : ReplayGuard.t) (signature : string) :
  ReplayGuard.isConsumed (snd (ReplayGuard.markConsumed g signature)) signature
  = true
  /\ fst (ReplayGuard.markConsumed
            (snd (ReplayGuard.markConsumed g signature)) signature)
     = false.
Proof.
  unfold ReplayGuard.markConsumed.
  destruct (ReplayGuard.isConsumed g signature) eqn:Hg; simpl.
  - rewrite Hg. split; reflexivity.
  - unfold ReplayGuard.isConsumed. simpl. rewrite String.eqb_refl. simpl.
    split; reflexivity.
Qed.


(** ** The 402 response *)

(** In the token variant the requirements are produced whenever the
    recipient's token account is already derived. *)
Lemma token_requirements_when_initialized E this amount resourceId account :
  Token.Server.recipientTokenAccount this = Some account ->
  exists requirements,
    Token.createPaymentRequirements E this amount resourceId
    = Returned (requirements, this).
Proof.
  intros Hacc. unfold Token.createPaymentRequirements. rewrite Hacc.
  cbn [bind]. eauto.
Qed.




(** ** Comparisons of binary64 numbers *)

Lemma SFcompare_antisym (x y : spec_float) :
  SFcompare y x = option_map CompOpp (SFcompare x y).
Proof.
  destruct x as [sx | sx | | sx mx ex], y as [sy | sy | | sy my ey];
    simpl; try reflexivity;
    try (destruct sx; reflexivity); try (destruct sy; reflexivity);
    try (destruct sx, sy; reflexivity).
  destruct sx, sy; simpl; try reflexivity;
    rewrite (Z.compare_antisym ex ey);
    destruct (ex ?= ey)%Z; simpl; try reflexivity;
    rewrite (Pos.compare_cont_antisym mx my Eq); reflexivity.
Qed.

Lemma is_nan_false (x : number) :
  PrimFloat.is_nan x = false -> Prim2SF x <> S754_nan.
Proof.
  unfold PrimFloat.is_nan. rewrite FloatAxioms.eqb_spec.
  intros H Hn. rewrite Hn in H. discriminate.
Qed.

Lemma SFcompare_defined (x y : spec_float) :
  x <> S754_nan -> y <> S754_nan -> exists c, SFcompare x y = Some c.
Proof. destruct x, y; simpl; intros; try congruence; eauto. Qed.

(** Away from NaN, [x > y] fails exactly when [x <= y]. *)
Lemma ltb_negb_leb (x y : number) :
  PrimFloat.is_nan x = false -> PrimFloat.is_nan y = false ->
  (x <? y)%float = negb (y <=? x)%float.
Proof.
  intros Hx Hy. rewrite FloatAxioms.ltb_spec, FloatAxioms.leb_spec. unfold SFltb, SFleb.
  rewrite (SFcompare_antisym (Prim2SF x) (Prim2SF y)).
  destruct (SFcompare_defined _ _ (is_nan_false _ Hx) (is_nan_false _ Hy))
    as [c ->].
  destruct c; reflexivity.
Qed.

Lemma sub_zero (x : number) : (x - 0)%float = x.
Proof.
  apply Prim2SF_inj. rewrite FloatAxioms.sub_spec.
  change (Prim2SF 0) with (S754_zero false).
  destruct (Prim2SF x) as [[] | | |]; reflexivity.
Qed.

(** A falsy block time reads as 0 under [blockTime || 0]. *)
Lemma or_number_falsy (x : option number) :
  truthy_opt x = false -> or_number x 0%float = 0%float.
Proof. destruct x as [v |]; simpl; [intros -> |]; reflexivity. Qed.

(** ** The transfer extractor *)

Lemma findIndex_nonempty {A} (p : A -> bool) (l : list A) (i : nat) :
  findIndex p l = Some i -> exists x, nth_error l 0 = Some x.
Proof. destruct l as [| x rest]; simpl; [discriminate | eauto]. Qed.

(** Whether an instruction matches depends on its [parsed] value alone, not
    on the program it belongs to. *)
Lemma matching_parsed_ignores_program program program' id id' parsed :
  Token.matching_parsed (ParsedInstruction program id parsed)
  = Token.matching_parsed (ParsedInstruction program' id' parsed).
Proof. reflexivity. Qed.

(** X3: the extractor returns the source, the destination and the amount of
    the first instruction, in list order, whose [parsed.type] is [transfer]
    or [transferChecked]. *)
Lemma findTokenTransfer_first_match before instruction after info :
  (forall i, In i before -> Token.matching_parsed i = None) ->
  Token.matching_parsed instruction = Some (Some info) ->
  Token.findTokenTransfer_loop (before ++ instruction :: after)
  = Returned (Some
      {| Token.TransferInfo.source := ParsedInfo.source info;
         Token.TransferInfo.destination := ParsedInfo.destination info;
         Token.TransferInfo.amount :=
           or_undefined (ParsedInfo.amount info) (ParsedInfo.tokenAmount info) |}).
Proof.
  intros Hbefore Hmatch.
  induction before as [| i before IH]; simpl.
  - rewrite Hmatch. reflexivity.
  - rewrite (Hbefore i (or_introl eq_refl)).
    apply IH. intros j Hj. apply Hbefore. right. exact Hj.
Qed.

(** Without an instruction of transfer type there is no transfer. *)
Lemma findTokenTransfer_no_match instructions :
  (forall i, In i instructions -> Token.matching_parsed i = None) ->
  Token.findTokenTransfer_loop instructions = Returned None.
Proof.
  induction instructions as [| i rest IH]; intros Hnone; simpl.
  - reflexivity.
  - rewrite (Hnone i (or_introl eq_refl)).
    apply IH. intros j Hj. apply Hnone. right. exact Hj.
Qed.

(** The only error the extractor raises is the TypeError of reading
    [source] from a missing [info]. *)
Lemma findTokenTransfer_loop_throws instructions e :
  Token.findTokenTransfer_loop instructions = Thrown e ->
  e = TypeError_undefined "source".
Proof.
  induction instructions as [| i rest IH]; simpl; [discriminate |].
  destruct (Token.matching_parsed i) as [[info |] |];
    [discriminate | intros [= <-]; reflexivity | exact IH].
Qed.

Lemma findTokenTransfer_throws tx e :
  Token.findTokenTransfer tx = Thrown e -> e = TypeError_undefined "source".
Proof. apply findTokenTransfer_loop_throws. Qed.

(** C5 (the code departs from it): a record whose first instruction is a
    system-program [transfer] of lamports and whose second is the SPL-token
    [transfer].  The extractor returns the system transfer, with no amount,
    as it never looks at the program of an instruction; and a record holding
    only such a system transfer to the recipient's token account is accepted
    as a payment, of amount NaN. *)
Theorem findTokenTransfer_takes_system_transfer :
  Token.findTokenTransfer
    (Sample.parsed_tx (Some 1699999900%float) (Sample.ok_meta [] [])
       [ Sample.system_transfer Sample.recipient_account;
         Sample.token_transfer Sample.recipient_account 15000%float ])
  = Returned (Some
      {| Token.TransferInfo.source := Some Sample.sender;
         Token.TransferInfo.destination := Some Sample.recipient_account;
         Token.TransferInfo.amount := None |})
  /\ Token.verifyPayment
       (Sample.env Sample.now
          (Sample.ledger_with
             (Sample.parsed_tx (Some 1699999900%float) (Sample.ok_meta [] [])
                [ Sample.system_transfer Sample.recipient_account ]))
          Sample.empty_ledger)
       Sample.initialized "sig1" 0.01%float None
     = Returned
         {| PaymentVerification.valid := true;
            PaymentVerification.signature := Some "sig1";
            PaymentVerification.amount := Some nan;
            PaymentVerification.token := Some "USDC";
            PaymentVerification.from := Some Sample.sender;
            PaymentVerification.to := Some Sample.recipient_account;
            PaymentVerification.timestamp := Some 1699999900%float;
            PaymentVerification.error := None |}.
Proof. split; reflexivity. Qed.

(** ** The order of the checks *)

(** C2, as stated, fails in the token variant: a record that is older than
    [maxAgeSeconds] and reports an execution error is rejected as
    "Transaction failed", the execution check coming first there. *)
Lemma token_stale_and_failed_is_failed :
  let tx :=
    Sample.parsed_tx (Some 1699990000%float) Sample.failed_meta
      [ Sample.token_transfer Sample.recipient_account 15000%float ] in
  let E := Sample.env Sample.now (Sample.ledger_with tx) Sample.empty_ledger in
  token_stale E 300%float tx = true
  /\ meta_err_truthy (ParsedTransactionWithMeta.meta tx) = true
  /\ Token.verifyPayment E Sample.initialized "sig1" 0.01%float None
     = Returned (failure "Transaction failed").
Proof. repeat split; reflexivity. Qed.

(** C2 (amended): on a fetched record each variant runs its checks in a fixed
    order, each rejecting at once.  The native variant: age, execution
    error, recipient lookup, amount.  The token variant: execution error,
    age, transfer extraction, recipient, amount.  So a record that is both
    too old and failed is "Transaction too old" for the native variant and
    "Transaction failed" for the token one. *)
Theorem checks_run_in_source_order :
  forall (E : Env) (signature : string) (expectedAmount : number)
         (maxAgeSeconds : option number),
    (forall (this : Native.Server.t) tx,
        getTransaction E signature confirmed = Returned (Some tx) ->
        let verdict :=
          Native.verifyPayment E this signature expectedAmount maxAgeSeconds in
        let maxAge := max_age maxAgeSeconds in
        let failed := meta_err_truthy (VersionedTransactionResponse.meta tx) in
        (native_stale E maxAge tx = true ->
         verdict
         = Returned (failure
             (Native.too_old_message E (native_age E tx) maxAge)))
        /\ (native_stale E maxAge tx = false -> failed = true ->
            verdict = Returned (failure "Transaction failed"))
        /\ (forall key keys,
            native_stale E maxAge tx = false -> failed = false ->
            PublicKey_new E
              (X402ServerConfig.recipientAddress (Native.Server.config this))
            = Returned key ->
            VersionedTransactionResponse.getAccountKeys tx = Returned keys ->
            (findIndex (fun k => equals k key) keys = None ->
             verdict
             = Returned (failure "Recipient not found in transaction"))
            /\ (forall i,
                findIndex (fun k => equals k key) keys = Some i ->
                let receivedSol :=
                  Native.receivedSol_at
                    (VersionedTransactionResponse.meta tx) i in
                ((Native.tolerance <? abs (receivedSol - expectedAmount))%float
                 = true ->
                 verdict
                 = Returned (failure
                     (Native.mismatch_message E expectedAmount receivedSol)))
                /\ ((Native.tolerance
                       <? abs (receivedSol - expectedAmount))%float = false ->
                    exists v,
                      verdict = Returned v
                      /\ PaymentVerification.valid v = true
                      /\ PaymentVerification.amount v = Some receivedSol))))
    /\ (forall (this : Token.Server.t) tx,
        getParsedTransaction E signature confirmed = Returned (Some tx) ->
        let verdict :=
          Token.verifyPayment E this signature expectedAmount maxAgeSeconds in
        let maxAge := max_age maxAgeSeconds in
        let failed := meta_err_truthy (ParsedTransactionWithMeta.meta tx) in
        (failed = true -> verdict = Returned (failure "Transaction failed"))
        /\ (failed = false -> token_stale E maxAge tx = true ->
            verdict
            = Returned (failure
                (Token.too_old_message E
                   (Token.age_of E
                      (ToNumber (ParsedTransactionWithMeta.blockTime tx)))
                   maxAge)))
        /\ (failed = false -> token_stale E maxAge tx = false ->
            Token.findTokenTransfer tx = Returned None ->
            verdict
            = Returned (failure "No token transfer found in transaction"))
        /\ (forall transferInfo,
            failed = false -> token_stale E maxAge tx = false ->
            Token.findTokenTransfer tx = Returned (Some transferInfo) ->
            let paid := ToNumber (Token.TransferInfo.amount transferInfo) in
            let scale := Math_pow E 10%float (USDC_DECIMALS E) in
            let wrong :=
              Token.strict_neq (Token.TransferInfo.destination transferInfo)
                (Token.expected_destination this) in
            (wrong = true ->
             verdict = Returned (failure "Payment sent to wrong address"))
            /\ (wrong = false ->
                (paid <? expectedAmount * scale)%float = true ->
                verdict
                = Returned (failure
                    (Token.insufficient_message E (paid / scale)%float
                       expectedAmount)))
            /\ (wrong = false ->
                (paid <? expectedAmount * scale)%float = false ->
                exists v,
                  verdict = Returned v
                  /\ PaymentVerification.valid v = true
                  /\ PaymentVerification.amount v
                     = Some (paid / scale)%float))).
Proof.
  intros E signature expectedAmount maxAgeSeconds. split.
  - intros this tx Hfetch. cbv zeta.
    rewrite (native_verifyPayment_fetched _ _ _ _ _ _ Hfetch).
    unfold Native.check_record, native_stale, native_age. cbv zeta.
    split; [| split].
    + intros ->. reflexivity.
    + intros -> ->. reflexivity.
    + intros key keys -> -> -> ->. cbn [bind]. split.
      * intros ->. reflexivity.
      * intros i Hi. rewrite Hi. split.
        -- intros ->. reflexivity.
        -- intros ->.
           destruct (findIndex_nonempty _ _ _ Hi) as [sender ->].
           eexists. repeat split.
  - intros this tx Hfetch. cbv zeta.
    rewrite (token_verifyPayment_fetched _ _ _ _ _ _ Hfetch).
    unfold Token.check_record, token_stale. cbv zeta.
    split; [| split; [| split]].
    + intros ->. reflexivity.
    + intros -> ->. reflexivity.
    + intros -> -> ->. reflexivity.
    + intros transferInfo -> -> ->. cbn [bind]. split; [| split].
      * intros ->. reflexivity.
      * intros -> ->. reflexivity.
      * intros -> ->. eexists. repeat split.
Qed.

(** The theorem at a native record that is both too old and failed. *)
Lemma checks_run_in_source_order_witness :
  let tx := Sample.native_tx (Some 1699990000%float) Sample.failed_meta in
  let E := Sample.env Sample.now Sample.empty_ledger (Sample.ledger_with tx) in
  native_stale E 300%float tx = true
  /\ meta_err_truthy (VersionedTransactionResponse.meta tx) = true
  /\ Native.verifyPayment E Sample.native_server "sig1"
       0.01%float None
     = Returned (failure "Transaction too old: 10000s (max 300s)").
Proof.
  cbv zeta. split; [reflexivity | split; [reflexivity |]].
  exact (proj1 (proj1 (checks_run_in_source_order
                         (Sample.env Sample.now Sample.empty_ledger
                            (Sample.ledger_with
                               (Sample.native_tx (Some 1699990000%float)
                                  Sample.failed_meta)))
                         "sig1" 0.01%float None)
                  Sample.native_server
                  (Sample.native_tx (Some 1699990000%float) Sample.failed_meta)
                  eq_refl)
          eq_refl).
Defined.

(** ** The shape of a verdict *)

(** C6, as stated, fails in the token variant: for a record without a block
    time the accepted verdict has no timestamp. *)
Lemma token_success_without_timestamp :
  let tx :=
    Sample.parsed_tx None (Sample.ok_meta [] [])
      [ Sample.token_transfer Sample.recipient_account 15000%float ] in
  let E := Sample.env Sample.now (Sample.ledger_with tx) Sample.empty_ledger in
  let v :=
    {| PaymentVerification.valid := true;
       PaymentVerification.signature := Some "sig1";
       PaymentVerification.amount := Some (15000 / 1000000)%float;
       PaymentVerification.token := Some "USDC";
       PaymentVerification.from := Some Sample.sender_account;
       PaymentVerification.to := Some Sample.recipient_account;
       PaymentVerification.timestamp := None;
       PaymentVerification.error := None |} in
  Token.verifyPayment E Sample.initialized "sig1" 0.01%float None = Returned v
  /\ one_shape v = false.
Proof. split; reflexivity. Qed.

(** C6 (amended): every verdict that [verifyPayment] returns has one of two
    shapes.  One that is not valid has an error and none of the success
    fields.  A valid one has signature, amount and token, and no error.  In
    the native variant it also has from and to, and as timestamp the block
    time of the fetched record, or 0 when that is null.  In the token variant
    its from and to are the source and the destination of the extracted
    transfer, present when the instruction's info holds them, and its
    timestamp is the record's block time when that is truthy, and absent when
    it is null or 0. *)
Theorem verdict_has_one_shape :
  forall (E : Env) (signature : string) (expectedAmount : number)
         (maxAgeSeconds : option number),
    (forall (this : Native.Server.t) v,
        Native.verifyPayment E this signature expectedAmount maxAgeSeconds
        = Returned v ->
        one_shape v = true
        /\ (PaymentVerification.valid v = true ->
            exists tx,
              getTransaction E signature confirmed = Returned (Some tx)
              /\ PaymentVerification.timestamp v
                 = Some (or_number (VersionedTransactionResponse.blockTime tx)
                           0%float)))
    /\ (forall (this : Token.Server.t) v,
        Token.verifyPayment E this signature expectedAmount maxAgeSeconds
        = Returned v ->
        one_shape_core v = true
        /\ (PaymentVerification.valid v = true ->
            exists tx transferInfo,
              getParsedTransaction E signature confirmed = Returned (Some tx)
              /\ Token.findTokenTransfer tx = Returned (Some transferInfo)
              /\ PaymentVerification.from v
                 = Token.TransferInfo.source transferInfo
              /\ PaymentVerification.to v
                 = Token.TransferInfo.destination transferInfo
              /\ PaymentVerification.timestamp v
                 = (if truthy_opt (ParsedTransactionWithMeta.blockTime tx)
                    then ParsedTransactionWithMeta.blockTime tx
                    else None))).
Proof.
  intros E signature expectedAmount maxAgeSeconds. split.
  - intros this v Hv.
    destruct (native_verifyPayment_verdict _ _ _ _ _ _ Hv)
      as [[_ [reason ->]] | (Hvalid & Hshape & Htime)].
    + split; [reflexivity | discriminate].
    + split; [exact Hshape | intros _; exact Htime].
  - intros this v Hv.
    destruct (token_verifyPayment_verdict _ _ _ _ _ _ Hv)
      as [[_ [reason ->]] | (Hvalid & Hshape & Hfields)].
    + split; [reflexivity | discriminate].
    + split; [exact Hshape | intros _; exact Hfields].
Qed.

(** The theorem at a token record with a block time, paid in full: the
    verdict of the call carries that block time, and the source and the
    destination of the transfer. *)
Lemma verdict_has_one_shape_witness :
  let tx :=
    Sample.parsed_tx (Some 1699999900%float) (Sample.ok_meta [] [])
      [ Sample.token_transfer Sample.recipient_account 15000%float ] in
  let E := Sample.env Sample.now (Sample.ledger_with tx) Sample.empty_ledger in
  exists v,
    Token.verifyPayment E Sample.initialized "sig1" 0.01%float None = Returned v
    /\ PaymentVerification.valid v = true
    /\ PaymentVerification.from v = Some Sample.sender_account
    /\ PaymentVerification.to v = Some Sample.recipient_account
    /\ PaymentVerification.timestamp v = Some 1699999900%float.
Proof.
  cbv zeta. eexists. split; [reflexivity |]. split; [reflexivity |].
  destruct (proj2 (proj2 (verdict_has_one_shape
                     (Sample.env Sample.now
                        (Sample.ledger_with
                           (Sample.parsed_tx (Some 1699999900%float)
                              (Sample.ok_meta [] [])
                              [ Sample.token_transfer Sample.recipient_account
                                  15000%float ]))
                        Sample.empty_ledger)
                     "sig1" 0.01%float None)
              Sample.initialized _ eq_refl) eq_refl)
    as (tx & ti & Hfetch & Hfind & Hfrom & Hto & Htime).
  injection Hfetch as <-. injection Hfind as <-.
  split; [exact Hfrom |]. split; [exact Hto | exact Htime].
Defined.

(** ** The token variant before its initialisation *)





(** What the amended claim leaves open: a transfer whose info names no
    destination.  Its destination and the expected one are then both
    [undefined], the recipient check passes, and the verdict is valid with no
    [to]. *)
Lemma uninitialized_transfer_without_destination :
  let transfer :=
    ParsedInstruction "spl-token" Sample.token_program
      (ParsedObject (Some "transfer")
         (Some {| ParsedInfo.source := Some Sample.sender_account;
                  ParsedInfo.destination := None;
                  ParsedInfo.amount := Some 15000%float;
                  ParsedInfo.tokenAmount := None |})) in
  let tx :=
    Sample.parsed_tx (Some 1699999900%float) (Sample.ok_meta [] [])
      [ transfer ] in
  let E := Sample.env Sample.now (Sample.ledger_with tx) Sample.empty_ledger in
  Token.verifyPayment E Sample.uninitialized "sig1" 0.01%float None
  = Returned
      {| PaymentVerification.valid := true;
         PaymentVerification.signature := Some "sig1";
         PaymentVerification.amount := Some (15000 / 1000000)%float;
         PaymentVerification.token := Some "USDC";
         PaymentVerification.from := Some Sample.sender_account;
         PaymentVerification.to := None;
         PaymentVerification.timestamp := Some 1699999900%float;
         PaymentVerification.error := None |}.
Proof. reflexivity. Qed.

(** ** Records without a block time *)

(** C10: for a record whose block time is falsy (null or 0), the token
    variant skips the age check: the verdict is no staleness verdict, and it
    is the same whatever the clock and [maxAgeSeconds] are.  The native
    variant reads the block time of such a record as 0, so its age is the
    current time in seconds, and rejects it as too old whenever that exceeds
    [maxAgeSeconds]. *)
Theorem falsy_blockTime_freshness :
  forall (E : Env) (signature : string) (expectedAmount : number)
         (maxAgeSeconds : option number),
    (forall (this : Token.Server.t) tx,
        getParsedTransaction E signature confirmed = Returned (Some tx) ->
        truthy_opt (ParsedTransactionWithMeta.blockTime tx) = false ->
        (exists v,
            Token.verifyPayment E this signature expectedAmount maxAgeSeconds
            = Returned v
            /\ is_too_old v = false)
        /\ (forall now' maxAgeSeconds',
            Token.verifyPayment (set_Date_now E now') this signature
              expectedAmount maxAgeSeconds'
            = Token.verifyPayment E this signature expectedAmount
                maxAgeSeconds))
    /\ (forall (this : Native.Server.t) tx,
        getTransaction E signature confirmed = Returned (Some tx) ->
        truthy_opt (VersionedTransactionResponse.blockTime tx) = false ->
        native_age E tx = Native.now_seconds E
        /\ ((max_age maxAgeSeconds <? Native.now_seconds E)%float = true ->
            Native.verifyPayment E this signature expectedAmount maxAgeSeconds
            = Returned (failure
                (Native.too_old_message E (Native.now_seconds E)
                   (max_age maxAgeSeconds)))
            /\ is_too_old
                 (failure
                    (Native.too_old_message E (Native.now_seconds E)
                       (max_age maxAgeSeconds)))
               = true)).
Proof.
  intros E signature expectedAmount maxAgeSeconds. split.
  - intros this tx Hfetch Hfalsy. split.
    + rewrite (token_verifyPayment_fetched _ _ _ _ _ _ Hfetch).
      unfold Token.check_record. rewrite Hfalsy. cbn [andb].
      destruct (meta_err_truthy _); [eexists; split; reflexivity |].
      destruct (Token.findTokenTransfer tx) as [[ti |] | e] eqn:Hfind;
        cbn [bind try_catch]; [| eexists; split; reflexivity |].
      * destruct (Token.strict_neq _ _); [eexists; split; reflexivity |].
        destruct (_ <? _)%float; eexists; split; reflexivity.
      * rewrite (findTokenTransfer_throws _ _ Hfind).
        eexists; split; reflexivity.
    + intros now' maxAgeSeconds'. unfold Token.verifyPayment.
      cbn [set_Date_now getParsedTransaction]. rewrite Hfetch.
      cbn [bind]. unfold Token.check_record. rewrite Hfalsy. reflexivity.
  - intros this tx Hfetch Hfalsy.
    assert (Hage : native_age E tx = Native.now_seconds E).
    { unfold native_age. rewrite (or_number_falsy _ Hfalsy). apply sub_zero. }
    split; [exact Hage |]. intros Hold.
    rewrite (native_verifyPayment_fetched _ _ _ _ _ _ Hfetch).
    unfold Native.check_record. fold (native_age E tx). rewrite Hage, Hold.
    split; reflexivity.
Qed.

(** The theorem at a native record and a token record without block time. *)
Lemma falsy_blockTime_freshness_witness :
  let paid := [ Sample.token_transfer Sample.recipient_account 15000%float ] in
  let E :=
    Sample.env Sample.now
      (Sample.ledger_with (Sample.parsed_tx None (Sample.ok_meta [] []) paid))
      (Sample.ledger_with (Sample.native_tx None (Sample.ok_meta [] []))) in
  Native.verifyPayment E Sample.native_server "sig1"
    0.01%float None
  = Returned (failure "Transaction too old: 1700000000s (max 300s)")
  /\ Token.verifyPayment (set_Date_now E 9999999999999%float)
       Sample.initialized "sig1" 0.01%float (Some 1%float)
     = Token.verifyPayment E Sample.initialized "sig1" 0.01%float None.
Proof.
  cbv zeta.
  pose proof
    (falsy_blockTime_freshness
       (Sample.env Sample.now
          (Sample.ledger_with
             (Sample.parsed_tx None (Sample.ok_meta [] [])
                [ Sample.token_transfer Sample.recipient_account 15000%float ]))
          (Sample.ledger_with (Sample.native_tx None (Sample.ok_meta [] []))))
       "sig1" 0.01%float None) as [Htoken Hnative].
  split.
  - exact (proj1 (proj2 (Hnative
                           Sample.native_server
                           (Sample.native_tx None (Sample.ok_meta [] []))
                           eq_refl eq_refl)
                    eq_refl)).
  - exact (proj2 (Htoken Sample.initialized
                    (Sample.parsed_tx None (Sample.ok_meta [] [])
                       [ Sample.token_transfer Sample.recipient_account
                           15000%float ])
                    eq_refl eq_refl)
             9999999999999%float (Some 1%float)).
Defined.

(** ** The amount checks *)

Lemma ltb_nan_r (x y : number) :
  Prim2SF y = S754_nan -> (x <? y)%float = false.
Proof.
  intros Hy. rewrite FloatAxioms.ltb_spec, Hy. unfold SFltb.
  destruct (Prim2SF x); reflexivity.
Qed.

Lemma abs_sub_nan (x : number) : Prim2SF (abs (x - nan)) = S754_nan.
Proof.
  rewrite FloatAxioms.abs_spec, FloatAxioms.sub_spec.
  change (Prim2SF nan) with S754_nan.
  destruct (Prim2SF x); reflexivity.
Qed.

Lemma nan_mul (y : number) : Prim2SF (nan * y) = S754_nan.
Proof.
  rewrite FloatAxioms.mul_spec. change (Prim2SF nan) with S754_nan.
  reflexivity.
Qed.

Section NativeAmount.

Variable E : Env.
Variable this : Native.Server.t.
Variable signature : string.
Variable maxAgeSeconds : option number.
Variable tx : VersionedTransactionResponse.t.
Variable key : PublicKey.
Variable keys : list PublicKey.
Variable recipientIndex : nat.

Hypothesis found : getTransaction E signature confirmed = Returned (Some tx).
Hypothesis fresh : native_stale E (max_age maxAgeSeconds) tx = false.
Hypothesis successful :
  meta_err_truthy (VersionedTransactionResponse.meta tx) = false.
Hypothesis recipient_key :
  PublicKey_new E
    (X402ServerConfig.recipientAddress (Native.Server.config this))
  = Returned key.
Hypothesis account_keys :
  VersionedTransactionResponse.getAccountKeys tx = Returned keys.
Hypothesis recipient_listed :
  findIndex (fun k => equals k key) keys = Some recipientIndex.

Let received : number :=
  Native.receivedSol_at (VersionedTransactionResponse.meta tx) recipientIndex.

(** The native verdict on a found, fresh, successful record that lists the
    recipient is valid exactly when the source's test
    [Math.abs(receivedSol - expectedAmountSol) > tolerance] fails. *)
Lemma native_valid_unless_above_tolerance expectedAmountSol :
  exists v,
    Native.verifyPayment E this signature expectedAmountSol maxAgeSeconds
    = Returned v
    /\ PaymentVerification.valid v
       = negb (Native.tolerance <? abs (received - expectedAmountSol))%float.
Proof.
  rewrite (native_verifyPayment_fetched _ _ _ _ _ _ found).
  unfold Native.check_record. fold (native_age E tx).
  fold (native_stale E (max_age maxAgeSeconds) tx).
  rewrite fresh, successful, recipient_key, account_keys. cbn [bind].
  rewrite recipient_listed. fold received.
  destruct (Native.tolerance <? abs (received - expectedAmountSol))%float.
  - eexists. split; reflexivity.
  - destruct (findIndex_nonempty _ _ _ recipient_listed) as [sender ->].
    eexists. split; reflexivity.
Qed.

(** X1: on a found, fresh, successful native record that lists the
    recipient, when the difference between the received and the expected
    amount is a number, the verdict is valid exactly when
    [|received - expected| <= tolerance]. *)
Lemma native_valid_iff_within_tolerance expectedAmountSol :
  PrimFloat.is_nan (abs (received - expectedAmountSol)) = false ->
  exists v,
    Native.verifyPayment E this signature expectedAmountSol maxAgeSeconds
    = Returned v
    /\ PaymentVerification.valid v
       = (abs (received - expectedAmountSol) <=? Native.tolerance)%float.
Proof.
  intros Hnumber.
  destruct (native_valid_unless_above_tolerance expectedAmountSol)
    as (v & Hv & Hvalid).
  exists v. split; [exact Hv |].
  rewrite Hvalid, (ltb_negb_leb Native.tolerance _ eq_refl Hnumber).
  apply negb_involutive.
Qed.

(** When the expected amount is NaN, the verdict is valid although the
    difference is not within the tolerance. *)
Lemma native_valid_for_nan :
  exists v,
    Native.verifyPayment E this signature nan maxAgeSeconds = Returned v
    /\ PaymentVerification.valid v = true
    /\ (abs (received - nan) <=? Native.tolerance)%float = false.
Proof.
  destruct (native_valid_unless_above_tolerance nan) as (v & Hv & Hvalid).
  exists v. split; [exact Hv |]. split.
  - rewrite Hvalid, (ltb_nan_r _ _ (abs_sub_nan received)). reflexivity.
  - rewrite FloatAxioms.leb_spec, abs_sub_nan. reflexivity.
Qed.

End NativeAmount.

Section TokenAmount.

Variable E : Env.
Variable this : Token.Server.t.
Variable signature : string.
Variable maxAgeSeconds : option number.
Variable tx : ParsedTransactionWithMeta.t.
Variable transferInfo : Token.TransferInfo.t.

Hypothesis found :
  getParsedTransaction E signature confirmed = Returned (Some tx).
Hypothesis successful :
  meta_err_truthy (ParsedTransactionWithMeta.meta tx) = false.
Hypothesis fresh : token_stale E (max_age maxAgeSeconds) tx = false.
Hypothesis transfer :
  Token.findTokenTransfer tx = Returned (Some transferInfo).
Hypothesis right_destination :
  Token.strict_neq (Token.TransferInfo.destination transferInfo)
    (Token.expected_destination this) = false.

Let paid : number := ToNumber (Token.TransferInfo.amount transferInfo).
Let scale : number := Math_pow E 10%float (USDC_DECIMALS E).

(** The token verdict on a found, successful, fresh record with a transfer to
    the expected account is valid exactly when the source's test
    [transferInfo.amount < expectedAmountInSmallestUnit] fails. *)
Lemma token_valid_unless_below_expected expectedAmount :
  exists v,
    Token.verifyPayment E this signature expectedAmount maxAgeSeconds
    = Returned v
    /\ PaymentVerification.valid v
       = negb (paid <? expectedAmount * scale)%float.
Proof.
  rewrite (token_verifyPayment_fetched _ _ _ _ _ _ found).
  unfold Token.check_record.
  fold (token_stale E (max_age maxAgeSeconds) tx).
  rewrite successful, fresh, transfer. cbn [bind].
  rewrite right_destination. fold paid. fold scale.
  destruct (paid <? expectedAmount * scale)%float;
    eexists; split; reflexivity.
Qed.

(** X2: on a found, successful, fresh token record with a transfer to the
    expected account, when both amounts are numbers, the verdict is valid
    exactly when the paid amount is at least the binary64 product
    [expectedAmount * 10^decimals]. *)
Lemma token_valid_iff_at_least_expected expectedAmount :
  PrimFloat.is_nan paid = false ->
  PrimFloat.is_nan (expectedAmount * scale)%float = false ->
  exists v,
    Token.verifyPayment E this signature expectedAmount maxAgeSeconds
    = Returned v
    /\ PaymentVerification.valid v = (expectedAmount * scale <=? paid)%float.
Proof.
  intros Hpaid Hexpected.
  destruct (token_valid_unless_below_expected expectedAmount)
    as (v & Hv & Hvalid).
  exists v. split; [exact Hv |].
  rewrite Hvalid, (ltb_negb_leb _ _ Hpaid Hexpected). apply negb_involutive.
Qed.

(** When the expected amount is NaN, the verdict is valid although the paid
    amount is not at least the expected one. *)
Lemma token_valid_for_nan :
  exists v,
    Token.verifyPayment E this signature nan maxAgeSeconds = Returned v
    /\ PaymentVerification.valid v = true
    /\ (nan * scale <=? paid)%float = false.
Proof.
  destruct (token_valid_unless_below_expected nan) as (v & Hv & Hvalid).
  exists v. split; [exact Hv |]. split.
  - rewrite Hvalid, (ltb_nan_r _ _ (nan_mul scale)). reflexivity.
  - rewrite FloatAxioms.leb_spec, nan_mul. reflexivity.
Qed.

End TokenAmount.

(** C3 (the code departs from it): a native record that is found, fresh and
    successful and lists the recipient, whose balance it leaves unchanged.
    With NaN as expected amount the verdict is valid, although the
    difference between the received and the expected amount is not within
    the tolerance. *)
Theorem native_accepts_nan_expected_amount :
  let tx :=
    Sample.native_tx (Some 1699999900%float)
      (Sample.ok_meta [5000000000%float; 1000000000%float]
                      [4999995000%float; 1000000000%float]) in
  let E := Sample.env Sample.now Sample.empty_ledger (Sample.ledger_with tx) in
  Native.verifyPayment E Sample.native_server "sig1" nan None
  = Returned
      {| PaymentVerification.valid := true;
         PaymentVerification.signature := Some "sig1";
         PaymentVerification.amount := Some 0%float;
         PaymentVerification.token := Some "SOL";
         PaymentVerification.from := Some Sample.sender;
         PaymentVerification.to := Some Sample.recipient;
         PaymentVerification.timestamp := Some 1699999900%float;
         PaymentVerification.error := None |}
  /\ Native.receivedSol_at (VersionedTransactionResponse.meta tx) 1 = 0%float
  /\ (abs (0 - nan) <=? Native.tolerance)%float = false.
Proof. repeat split; reflexivity. Qed.

(** C4 (the code departs from it): a token record that is found, fresh and
    successful and transfers 4030000 base units, which is 4.03 USDC, to the
    expected account.  With 4.03 as expected amount the verdict is not valid:
    the product [4.03 * 1000000] of binary64 numbers exceeds 4030000.  With NaN
    as expected amount the verdict is valid. *)
Theorem token_amount_check_departs :
  let tx :=
    Sample.parsed_tx (Some 1699999900%float) (Sample.ok_meta [] [])
      [ Sample.token_transfer Sample.recipient_account 4030000%float ] in
  let E := Sample.env Sample.now (Sample.ledger_with tx) Sample.empty_ledger in
  Math_pow E 10%float (USDC_DECIMALS E) = 1000000%float
  /\ (4030000 <? 4.03 * 1000000)%float = true
  /\ Token.verifyPayment E Sample.initialized "sig1" 4.03%float None
     = Returned (failure
         (Token.insufficient_message E 4.03%float 4.03%float))
  /\ (nan * 1000000 <=? 4030000)%float = false
  /\ Token.verifyPayment E Sample.initialized "sig1" nan None
     = Returned
         {| PaymentVerification.valid := true;
            PaymentVerification.signature := Some "sig1";
            PaymentVerification.amount := Some 4.03%float;
            PaymentVerification.token := Some "USDC";
            PaymentVerification.from := Some Sample.sender_account;
            PaymentVerification.to := Some Sample.recipient_account;
            PaymentVerification.timestamp := Some 1699999900%float;
            PaymentVerification.error := None |}.
Proof. repeat split; reflexivity. Qed.

(** ** The amount checks on the scenarios of the specification *)

(** Scenario B: a native record whose recipient gains 0.01 SOL, with 0.01
    expected, is valid. *)
Lemma native_valid_iff_within_tolerance_witness :
  let tx :=
    Sample.native_tx (Some 1699999900%float)
      (Sample.ok_meta [5000000000%float; 1000000000%float]
                      [4989995000%float; 1010000000%float]) in
  let E := Sample.env Sample.now Sample.empty_ledger (Sample.ledger_with tx) in
  exists v,
    Native.verifyPayment E Sample.native_server "sig1"
      0.01%float None = Returned v
    /\ PaymentVerification.valid v = true.
Proof.
  cbv zeta.
  destruct (native_valid_iff_within_tolerance
              (Sample.env Sample.now Sample.empty_ledger
                 (Sample.ledger_with
                    (Sample.native_tx (Some 1699999900%float)
                       (Sample.ok_meta [5000000000%float; 1000000000%float]
                          [4989995000%float; 1010000000%float]))))
              Sample.native_server
              "sig1" None
              (Sample.native_tx (Some 1699999900%float)
                 (Sample.ok_meta [5000000000%float; 1000000000%float]
                    [4989995000%float; 1010000000%float]))
              {| toBase58 := Sample.recipient |}
              [ {| toBase58 := Sample.sender |};
                {| toBase58 := Sample.recipient |} ]
              1%nat eq_refl eq_refl eq_refl eq_refl eq_refl eq_refl
              0.01%float eq_refl)
    as (v & Hv & Hvalid).
  exists v. split; [exact Hv | rewrite Hvalid; reflexivity].
Defined.

(** Scenario C: a token record transferring 15000 base units to the expected
    account, with 0.01 (10000 base units) expected, is valid. *)
Lemma token_valid_iff_at_least_expected_witness :
  let tx :=
    Sample.parsed_tx (Some 1699999900%float) (Sample.ok_meta [] [])
      [ Sample.token_transfer Sample.recipient_account 15000%float ] in
  let E := Sample.env Sample.now (Sample.ledger_with tx) Sample.empty_ledger in
  exists v,
    Token.verifyPayment E Sample.initialized "sig1" 0.01%float None
    = Returned v
    /\ PaymentVerification.valid v = true.
Proof.
  cbv zeta.
  destruct (token_valid_iff_at_least_expected
              (Sample.env Sample.now
                 (Sample.ledger_with
                    (Sample.parsed_tx (Some 1699999900%float)
                       (Sample.ok_meta [] [])
                       [ Sample.token_transfer Sample.recipient_account
                           15000%float ]))
                 Sample.empty_ledger)
              Sample.initialized "sig1" None
              (Sample.parsed_tx (Some 1699999900%float) (Sample.ok_meta [] [])
                 [ Sample.token_transfer Sample.recipient_account 15000%float ])
              {| Token.TransferInfo.source := Some Sample.sender_account;
                 Token.TransferInfo.destination := Some Sample.recipient_account;
                 Token.TransferInfo.amount := Some 15000%float |}
              eq_refl eq_refl eq_refl eq_refl eq_refl
              0.01%float eq_refl eq_refl)
    as (v & Hv & Hvalid).
  exists v. split; [exact Hv | rewrite Hvalid; reflexivity].
Defined.

(** The extractor skips an undecoded instruction and a memo, and takes the
    first of two transfers. *)
Lemma findTokenTransfer_first_match_witness :
  Token.findTokenTransfer_loop
    ([ PartiallyDecodedInstruction Sample.system_program [] "3Bxs4h24hBtQy9rw";
       ParsedInstruction "spl-memo" Sample.token_program (ParsedString "order 17") ]
     ++ Sample.token_transfer Sample.recipient_account 15000%float
     :: [ Sample.token_transfer Sample.other_account 1%float ])
  = Returned (Some
      {| Token.TransferInfo.source := Some Sample.sender_account;
         Token.TransferInfo.destination := Some Sample.recipient_account;
         Token.TransferInfo.amount := Some 15000%float |}).
Proof.
  apply (findTokenTransfer_first_match
           [ PartiallyDecodedInstruction Sample.system_program []
               "3Bxs4h24hBtQy9rw";
             ParsedInstruction "spl-memo" Sample.token_program
               (ParsedString "order 17") ]
           (Sample.token_transfer Sample.recipient_account 15000%float)
           [ Sample.token_transfer Sample.other_account 1%float ]
           {| ParsedInfo.source := Some Sample.sender_account;
              ParsedInfo.destination := Some Sample.recipient_account;
              ParsedInfo.amount := Some 15000%float;
              ParsedInfo.tokenAmount := None |}).
  - intros i [<- | [<- | []]]; reflexivity.
  - reflexivity.
Defined.

(** * Further properties of the two servers *)

(** ** What a valid verdict guarantees *)

Lemma findIndex_first {A} (p : A -> bool) (l : list A) (i : nat) :
  findIndex p l = Some i ->
  (exists x, nth_error l i = Some x /\ p x = true)
  /\ (forall j y, (j < i)%nat -> nth_error l j = Some y -> p y = false).
Proof.
  revert i. induction l as [| x rest IH]; simpl; [discriminate |].
  intros i. destruct (p x) eqn:Hx.
  - intros [= <-]. split; [exists x; split; [reflexivity | exact Hx] |].
    intros j y Hj. inversion Hj.
  - destruct (findIndex p rest) as [k |]; [| discriminate].
    intros [= <-]. destruct (IH k eq_refl) as [Hat Hbefore]. split.
    + exact Hat.
    + intros [| j] y Hj; simpl.
      * intros [= <-]. exact Hx.
      * apply Hbefore. lia.
Qed.

Lemma strict_neq_false (destination expected : option string) :
  Token.strict_neq destination expected = false <-> destination = expected.
Proof.
  destruct destination as [d |], expected as [e |]; cbn;
    try (split; [discriminate | congruence]); [| split; reflexivity].
  rewrite negb_false_iff, String.eqb_eq. split; congruence.
Qed.

(** X4: a valid verdict of the token variant is sound.  If [verifyPayment]
    returns a valid verdict, then the ledger holds a record for the
    signature, the record reports no execution error and is not stale, the
    extractor found a transfer in it, the destination of that transfer is the
    expected one (once the recipient's token account is derived, that
    account's address; before, only a transfer naming no destination), and
    the amount-too-small test failed; the verdict echoes the signature and
    carries the transfer's source, destination and amount in display
    units. *)
Theorem token_valid_verdict_sound :
  forall (E : Env) (this : Token.Server.t) (signature : string)
         (expectedAmount : number) (maxAgeSeconds : option number)
         (v : PaymentVerification.t),
    Token.verifyPayment E this signature expectedAmount maxAgeSeconds
    = Returned v ->
    PaymentVerification.valid v = true ->
    exists tx transferInfo,
      getParsedTransaction E signature confirmed = Returned (Some tx)
      /\ meta_err_truthy (ParsedTransactionWithMeta.meta tx) = false
      /\ token_stale E (max_age maxAgeSeconds) tx = false
      /\ Token.findTokenTransfer tx = Returned (Some transferInfo)
      /\ Token.TransferInfo.destination transferInfo
         = Token.expected_destination this
      /\ (forall account,
          Token.Server.recipientTokenAccount this = Some account ->
          Token.TransferInfo.destination transferInfo
          = Some (toBase58 account)
          /\ PaymentVerification.to v = Some (toBase58 account))
      /\ (Token.Server.recipientTokenAccount this = None ->
          Token.TransferInfo.destination transferInfo = None
          /\ PaymentVerification.to v = None)
      /\ (ToNumber (Token.TransferInfo.amount transferInfo)
            <? expectedAmount * Math_pow E 10 (USDC_DECIMALS E))%float = false
      /\ PaymentVerification.signature v = Some signature
      /\ PaymentVerification.amount v
         = Some (ToNumber (Token.TransferInfo.amount transferInfo)
                   / Math_pow E 10 (USDC_DECIMALS E))%float
      /\ PaymentVerification.from v = Token.TransferInfo.source transferInfo
      /\ PaymentVerification.to v
         = Token.TransferInfo.destination transferInfo.
Proof.
  intros E this signature expectedAmount maxAgeSeconds v Hv Hvalid.
  destruct (token_verifyPayment_verdict _ _ _ _ _ _ Hv)
    as [[Hinvalid _] | (_ & _ & tx & ti & Hfetch & Hfind & _)];
    [congruence |].
  rewrite (token_verifyPayment_fetched _ _ _ _ _ _ Hfetch) in Hv.
  unfold Token.check_record in Hv. fold (max_age maxAgeSeconds) in Hv.
  fold (token_stale E (max_age maxAgeSeconds) tx) in Hv.
  destruct (meta_err_truthy _) eqn:Herr;
    [injection Hv as <-; discriminate |].
  destruct (token_stale E (max_age maxAgeSeconds) tx) eqn:Hstale;
    [injection Hv as <-; discriminate |].
  rewrite Hfind in Hv. cbn [bind try_catch] in Hv.
  destruct (Token.strict_neq _ _) eqn:Hdest;
    [injection Hv as <-; discriminate |].
  destruct (_ <? _)%float eqn:Hpaid; [injection Hv as <-; discriminate |].
  injection Hv as <-. apply strict_neq_false in Hdest.
  exists tx, ti. cbn.
  repeat match goal with |- _ /\ _ => split end; try assumption;
    try reflexivity.
  - intros account Hacc. rewrite Hdest. unfold Token.expected_destination.
    rewrite Hacc. split; reflexivity.
  - intros Hacc. rewrite Hdest. unfold Token.expected_destination.
    rewrite Hacc. split; reflexivity.
Qed.

(** X4 at a token record paying the expected account in full. *)
Lemma token_valid_verdict_sound_witness :
  let tx :=
    Sample.parsed_tx (Some 1699999900%float) (Sample.ok_meta [] [])
      [ Sample.token_transfer Sample.recipient_account 15000%float ] in
  let E := Sample.env Sample.now (Sample.ledger_with tx) Sample.empty_ledger in
  exists transferInfo,
    Token.findTokenTransfer tx = Returned (Some transferInfo)
    /\ Token.TransferInfo.destination transferInfo
       = Some Sample.recipient_account.
Proof.
  cbv zeta.
  destruct (token_valid_verdict_sound
              (Sample.env Sample.now
                 (Sample.ledger_with
                    (Sample.parsed_tx (Some 1699999900%float)
                       (Sample.ok_meta [] [])
                       [ Sample.token_transfer Sample.recipient_account
                           15000%float ]))
                 Sample.empty_ledger)
              Sample.initialized "sig1" 0.01%float None _ eq_refl eq_refl)
    as (tx & ti & Hfetch & _ & _ & Hfind & _ & Hacc & _).
  injection Hfetch as <-.
  exists ti. split; [exact Hfind |].
  exact (proj1 (Hacc {| toBase58 := Sample.recipient_account |} eq_refl)).
Defined.

(** X5: a valid verdict of the native variant is sound.  If [verifyPayment]
    returns a valid verdict, then the ledger holds a record for the
    signature, the record is not stale and reports no execution error, the
    configured recipient is a well-formed key that occurs among the record's
    static account keys (at the first position holding it), and the
    above-tolerance test failed for the balance change at that position; the
    verdict names the first account key as sender and the configured
    recipient as destination. *)
Theorem native_valid_verdict_sound :
  forall (E : Env) (this : Native.Server.t) (signature : string)
         (expectedAmountSol : number) (maxAgeSeconds : option number)
         (v : PaymentVerification.t),
    Native.verifyPayment E this signature expectedAmountSol maxAgeSeconds
    = Returned v ->
    PaymentVerification.valid v = true ->
    exists tx key keys i listed sender,
      getTransaction E signature confirmed = Returned (Some tx)
      /\ native_stale E (max_age maxAgeSeconds) tx = false
      /\ meta_err_truthy (VersionedTransactionResponse.meta tx) = false
      /\ PublicKey_new E
           (X402ServerConfig.recipientAddress (Native.Server.config this))
         = Returned key
      /\ VersionedTransactionResponse.getAccountKeys tx = Returned keys
      /\ nth_error keys i = Some listed
      /\ equals listed key = true
      /\ (forall j k, (j < i)%nat -> nth_error keys j = Some k ->
          equals k key = false)
      /\ (Native.tolerance
            <? abs (Native.receivedSol_at
                      (VersionedTransactionResponse.meta tx) i
                    - expectedAmountSol))%float = false
      /\ nth_error keys 0 = Some sender
      /\ v = {| PaymentVerification.valid := true;
                PaymentVerification.signature := Some signature;
                PaymentVerification.amount :=
                  Some (Native.receivedSol_at
                          (VersionedTransactionResponse.meta tx) i);
                PaymentVerification.token := Some "SOL";
                PaymentVerification.from := Some (toBase58 sender);
                PaymentVerification.to :=
                  Some (X402ServerConfig.recipientAddress
                          (Native.Server.config this));
                PaymentVerification.timestamp :=
                  Some (or_number (VersionedTransactionResponse.blockTime tx)
                          0%float);
                PaymentVerification.error := None |}.
Proof.
  intros E this signature expectedAmountSol maxAgeSeconds v Hv Hvalid.
  destruct (native_verifyPayment_verdict _ _ _ _ _ _ Hv)
    as [[Hinvalid _] | (_ & _ & tx & Hfetch & _)]; [congruence |].
  rewrite (native_verifyPayment_fetched _ _ _ _ _ _ Hfetch) in Hv.
  revert Hv Hvalid.
  unfold Native.check_record. fold (max_age maxAgeSeconds).
  fold (native_age E tx). fold (native_stale E (max_age maxAgeSeconds) tx).
  destruct (native_stale E (max_age maxAgeSeconds) tx) eqn:Hstale;
    [intros [= <-]; discriminate |].
  destruct (meta_err_truthy _) eqn:Herr; [intros [= <-]; discriminate |].
  destruct (PublicKey_new E _) as [key | e] eqn:Hkey; cbn [bind try_catch];
    [| intros Hcatch Hvalid;
       destruct (native_catch_clause_verdict _ _ Hcatch) as [reason ->];
       discriminate].
  destruct (VersionedTransactionResponse.getAccountKeys tx) as [keys | e]
    eqn:Hkeys; cbn [bind try_catch];
    [| intros Hcatch Hvalid;
       destruct (native_catch_clause_verdict _ _ Hcatch) as [reason ->];
       discriminate].
  destruct (findIndex _ keys) as [i |] eqn:Hindex;
    [| intros [= <-]; discriminate].
  destruct (_ <? _)%float eqn:Hamount; [intros [= <-]; discriminate |].
  destruct (nth_error keys 0) as [sender |] eqn:Hsender;
    cbn [try_catch];
    [| intros Hcatch Hvalid;
       destruct (native_catch_clause_verdict _ _ Hcatch) as [reason ->];
       discriminate].
  intros [= <-] _.
  destruct (findIndex_first _ _ _ Hindex) as [(listed & Hat & Heq) Hbefore].
  exists tx, key, keys, i, listed, sender. repeat split; try assumption.
Qed.

(** X5 at the native record of scenario B. *)
Lemma native_valid_verdict_sound_witness :
  let tx :=
    Sample.native_tx (Some 1699999900%float)
      (Sample.ok_meta [5000000000%float; 1000000000%float]
                      [4989995000%float; 1010000000%float]) in
  let E := Sample.env Sample.now Sample.empty_ledger (Sample.ledger_with tx) in
  exists keys sender,
    VersionedTransactionResponse.getAccountKeys tx = Returned keys
    /\ nth_error keys 0 = Some sender.
Proof.
  cbv zeta.
  destruct (native_valid_verdict_sound
              (Sample.env Sample.now Sample.empty_ledger
                 (Sample.ledger_with
                    (Sample.native_tx (Some 1699999900%float)
                       (Sample.ok_meta [5000000000%float; 1000000000%float]
                          [4989995000%float; 1010000000%float]))))
              Sample.native_server
              "sig1" 0.01%float None _ eq_refl eq_refl)
    as (tx & key & keys & i & listed & sender & Hfetch & _ & _ & _ & Hkeys
        & _ & _ & _ & _ & Hsender & _).
  injection Hfetch as <-. exists keys, sender. split; assumption.
Defined.

(** ** The transfer extractor, result by result *)

Lemma matching_parsed_transfer instruction info :
  Token.matching_parsed instruction = Some info ->
  exists program programId type,
    instruction = ParsedInstruction program programId (ParsedObject (Some type) info)
    /\ (type = "transfer" \/ type = "transferChecked").
Proof.
  destruct instruction as [program programId [s | [type |] info'] | ? ? ?];
    simpl; try discriminate.
  destruct (String.eqb type "transfer") eqn:H1;
    [| destruct (String.eqb type "transferChecked") eqn:H2];
    simpl; try discriminate; intros [= <-];
    exists program, programId, type; split; try reflexivity.
  - left. now apply String.eqb_eq.
  - right. now apply String.eqb_eq.
Qed.

(** X6: whatever [findTokenTransfer] gives is decided by the first
    instruction, in list order, that is a parsed object of type [transfer] or
    [transferChecked].  A transfer is returned only if that instruction has
    an [info], and then holds its source, destination and amount; [null] is
    returned only if no instruction is of that kind; and an error is thrown
    only if that instruction has no [info], the error being the TypeError of
    reading [source]. *)
Theorem findTokenTransfer_first_decides :
  forall (tx : ParsedTransactionWithMeta.t),
    match Token.findTokenTransfer tx with
    | Returned (Some transferInfo) =>
      exists before program programId type info after,
        ParsedTransactionWithMeta.instructions tx
        = (before
             ++ ParsedInstruction program programId
                  (ParsedObject (Some type) (Some info))
             :: after)%list
        /\ (forall i, In i before -> Token.matching_parsed i = None)
        /\ (type = "transfer" \/ type = "transferChecked")
        /\ transferInfo
           = {| Token.TransferInfo.source := ParsedInfo.source info;
                Token.TransferInfo.destination := ParsedInfo.destination info;
                Token.TransferInfo.amount :=
                  or_undefined (ParsedInfo.amount info)
                    (ParsedInfo.tokenAmount info) |}
    | Returned None =>
      forall i, In i (ParsedTransactionWithMeta.instructions tx) ->
                Token.matching_parsed i = None
    | Thrown e =>
      e = TypeError_undefined "source"
      /\ exists before program programId type after,
           ParsedTransactionWithMeta.instructions tx
           = (before
                ++ ParsedInstruction program programId
                     (ParsedObject (Some type) None)
                :: after)%list
           /\ (forall i, In i before -> Token.matching_parsed i = None)
           /\ (type = "transfer" \/ type = "transferChecked")
    end.
Proof.
  intros tx. unfold Token.findTokenTransfer.
  induction (ParsedTransactionWithMeta.instructions tx) as [| i rest IH];
    cbn [Token.findTokenTransfer_loop].
  - intros i [].
  - destruct (Token.matching_parsed i) as [[info |] |] eqn:Hi.
    + destruct (matching_parsed_transfer _ _ Hi)
        as (program & programId & type & -> & Htype).
      exists [], program, programId, type, info, rest.
      repeat split; [intros j [] | exact Htype].
    + destruct (matching_parsed_transfer _ _ Hi)
        as (program & programId & type & -> & Htype).
      split; [reflexivity |].
      exists [], program, programId, type, rest.
      repeat split; [intros j [] | exact Htype].
    + destruct (Token.findTokenTransfer_loop rest) as [[ti |] | e].
      * destruct IH as (before & program & programId & type & info & after
                        & -> & Hbefore & Htype & ->).
        exists (i :: before), program, programId, type, info, after.
        repeat split; [| exact Htype].
        intros j [<- | Hj]; [exact Hi | exact (Hbefore j Hj)].
      * intros j [<- | Hj]; [exact Hi | exact (IH j Hj)].
      * destruct IH as (-> & before & program & programId & type & after
                        & -> & Hbefore & Htype).
        split; [reflexivity |].
        exists (i :: before), program, programId, type, after.
        repeat split; [| exact Htype].
        intros j [<- | Hj]; [exact Hi | exact (Hbefore j Hj)].
Qed.

(** X7: a transfer-typed instruction without [info] makes the verification
    fail even when a well-formed transfer follows it.  For a record that is
    found, successful and not stale, if the first instruction of type
    [transfer] or [transferChecked] has no [info], the verdict of the token
    variant is the failure whose reason is the TypeError's message. *)
Theorem token_malformed_transfer_fails_verification :
  forall (E : Env) (this : Token.Server.t) (signature : string)
         (expectedAmount : number) (maxAgeSeconds : option number)
         tx before program programId type after,
    getParsedTransaction E signature confirmed = Returned (Some tx) ->
    meta_err_truthy (ParsedTransactionWithMeta.meta tx) = false ->
    token_stale E (max_age maxAgeSeconds) tx = false ->
    ParsedTransactionWithMeta.instructions tx
    = (before
         ++ ParsedInstruction program programId (ParsedObject (Some type) None)
         :: after)%list ->
    (forall i, In i before -> Token.matching_parsed i = None) ->
    type = "transfer" \/ type = "transferChecked" ->
    Token.verifyPayment E this signature expectedAmount maxAgeSeconds
    = Returned (failure
        "Cannot read properties of undefined (reading 'source')").
Proof.
  intros E this signature expectedAmount maxAgeSeconds tx before program
    programId type after Hfetch Herr Hstale Hinstr Hbefore Htype.
  rewrite (token_verifyPayment_fetched _ _ _ _ _ _ Hfetch).
  unfold Token.check_record.
  fold (token_stale E (max_age maxAgeSeconds) tx).
  rewrite Herr, Hstale.
  assert (Hthrow : Token.findTokenTransfer tx
                   = Thrown (TypeError_undefined "source")).
  { unfold Token.findTokenTransfer. rewrite Hinstr. clear Hinstr.
    induction before as [| i before IH]; cbn [app Token.findTokenTransfer_loop].
    - cbn [Token.matching_parsed].
      destruct Htype as [-> | ->]; reflexivity.
    - rewrite (Hbefore i (or_introl eq_refl)).
      apply IH. intros j Hj. apply Hbefore. right. exact Hj. }
  rewrite Hthrow. reflexivity.
Qed.

(** X7 at a record whose first instruction is a transfer without [info],
    followed by a transfer paying the expected account in full. *)
Lemma token_malformed_transfer_fails_verification_witness :
  let tx :=
    Sample.parsed_tx (Some 1699999900%float) (Sample.ok_meta [] [])
      [ ParsedInstruction "spl-token" Sample.token_program
          (ParsedObject (Some "transfer") None);
        Sample.token_transfer Sample.recipient_account 15000%float ] in
  let E := Sample.env Sample.now (Sample.ledger_with tx) Sample.empty_ledger in
  Token.verifyPayment E Sample.initialized "sig1" 0.01%float None
  = Returned (failure
      "Cannot read properties of undefined (reading 'source')").
Proof.
  cbv zeta.
  apply (token_malformed_transfer_fails_verification
           _ Sample.initialized "sig1" 0.01%float None
           (Sample.parsed_tx (Some 1699999900%float) (Sample.ok_meta [] [])
              [ ParsedInstruction "spl-token" Sample.token_program
                  (ParsedObject (Some "transfer") None);
                Sample.token_transfer Sample.recipient_account 15000%float ])
           [] "spl-token" Sample.token_program "transfer"
           [ Sample.token_transfer Sample.recipient_account 15000%float ]);
    try reflexivity.
  - intros i [].
  - left. reflexivity.
Defined.

(** ** The token server's lazy initialisation *)

(** X8: [createPaymentRequirements] initialises the token server at most
    once.  When a call returns, the server it leaves has the recipient's token
    account derived and its configuration, mint and endpoint unchanged; from
    then on every call, in whatever environment, returns and leaves that
    server as it is, so the key operations are not run again. *)
Theorem createPaymentRequirements_initializes_once :
  forall (E : Env) (this this' : Token.Server.t) (amount : number)
         (resourceId : option string) (requirements : PaymentRequirements.t),
    Token.createPaymentRequirements E this amount resourceId
    = Returned (requirements, this') ->
    (exists account, Token.Server.recipientTokenAccount this' = Some account)
    /\ Token.Server.config this' = Token.Server.config this
    /\ Token.Server.usdcMint this' = Token.Server.usdcMint this
    /\ Token.Server.connection this' = Token.Server.connection this
    /\ (forall (E' : Env) amount' resourceId',
        exists requirements',
          Token.createPaymentRequirements E' this' amount' resourceId'
          = Returned (requirements', this')).
Proof.
  intros E this this' amount resourceId requirements.
  unfold Token.createPaymentRequirements.
  destruct (Token.Server.recipientTokenAccount this) as [account |] eqn:Hacc;
    cbn [bind].
  - intros [= _ <-]. split; [eauto |]. repeat split.
    intros E' amount' resourceId'. rewrite Hacc. cbn [bind]. eauto.
  - unfold Token.initialize.
    destruct (PublicKey_new E _) as [recipient | e]; cbn [bind];
      [| discriminate].
    destruct (getAssociatedTokenAddress E _ recipient) as [account | e];
      cbn [bind]; [| discriminate].
    intros [= _ <-]. cbn. split; [eauto |]. repeat split.
    intros E' amount' resourceId'. eauto.
Qed.

(** X8 at the server as the constructor leaves it. *)
Lemma createPaymentRequirements_initializes_once_witness :
  Token.Server.recipientTokenAccount Sample.initialized
  = Some {| toBase58 := Sample.recipient_account |}
  /\ exists requirements,
       Token.createPaymentRequirements
         (Sample.env Sample.now Sample.down_ledger Sample.down_ledger)
         Sample.initialized 0.05%float None
       = Returned (requirements, Sample.initialized).
Proof.
  destruct (createPaymentRequirements_initializes_once
              (Sample.env Sample.now Sample.empty_ledger Sample.empty_ledger)
              Sample.uninitialized Sample.initialized 0.01%float None _
              eq_refl)
    as (_ & _ & _ & _ & Hagain).
  split; [reflexivity |].
  exact (Hagain (Sample.env Sample.now Sample.down_ledger Sample.down_ledger)
                0.05%float None).
Defined.

(** X9: after [initialize] the recipient check of the token variant accepts
    exactly one destination, the base58 form of the account that
    [getAssociatedTokenAddress] derived from the server's mint and the
    configured recipient; a transfer that names no destination is rejected
    like any other. *)
Theorem initialize_fixes_expected_destination :
  forall (E : Env) (this this' : Token.Server.t),
    Token.initialize E this = Returned this' ->
    exists recipient account,
      PublicKey_new E
        (X402ServerConfig.recipientAddress (Token.Server.config this))
      = Returned recipient
      /\ getAssociatedTokenAddress E (Token.Server.usdcMint this) recipient
         = Returned account
      /\ Token.Server.recipientTokenAccount this' = Some account
      /\ (forall destination : option string,
          Token.strict_neq destination (Token.expected_destination this')
          = false
          <-> destination = Some (toBase58 account)).
Proof.
  intros E this this'. unfold Token.initialize.
  destruct (PublicKey_new E _) as [recipient | e]; cbn [bind];
    [| discriminate].
  destruct (getAssociatedTokenAddress E _ recipient) as [account | e] eqn:Hacc;
    cbn [bind]; [| discriminate].
  intros [= <-]. exists recipient, account.
  split; [reflexivity |]. split; [exact Hacc |]. split; [reflexivity |].
  intros destination. apply strict_neq_false.
Qed.

(** X9 at the sample server. *)
Lemma initialize_fixes_expected_destination_witness :
  Token.strict_neq (Some Sample.recipient_account)
    (Token.expected_destination Sample.initialized) = false
  /\ Token.strict_neq (Some Sample.recipient)
       (Token.expected_destination Sample.initialized) = true
  /\ Token.strict_neq None
       (Token.expected_destination Sample.initialized) = true.
Proof.
  destruct (initialize_fixes_expected_destination
              (Sample.env Sample.now Sample.empty_ledger Sample.empty_ledger)
              Sample.uninitialized Sample.initialized eq_refl)
    as (recipient & account & _ & Hderived & Haccount & Hcheck).
  injection Haccount as <-.
  split; [| split].
  - apply Hcheck. reflexivity.
  - destruct (Token.strict_neq (Some Sample.recipient) _) eqn:Hneq;
      [reflexivity |].
    apply Hcheck in Hneq. discriminate Hneq.
  - destruct (Token.strict_neq None _) eqn:Hneq; [reflexivity |].
    apply Hcheck in Hneq. discriminate Hneq.
Defined.

(** ** The identifier of a payment option *)

Lemma or_string_nonempty (a : option string) (b : string) :
  b <> "" -> or_string a b <> "".
Proof.
  intros Hb. destruct a as [[| c s] |]; simpl; [exact Hb | discriminate |
                                                exact Hb].
Qed.

Lemma or_string_given (s b : string) : s <> "" -> or_string (Some s) b = s.
Proof. destruct s; simpl; [congruence | reflexivity]. Qed.

Lemma or_string_missing (a : option string) (b : string) :
  a = None \/ a = Some "" -> or_string a b = b.
Proof. intros [-> | ->]; reflexivity. Qed.

(** X10: the payment option that [createPaymentRequirements] emits never has
    an empty identifier.  A resource identifier that is a non-empty string is
    taken as it is; a missing one and the empty string both give the
    time-based default, ["sol-"] or ["payment-"] followed by the clock. *)
Theorem payment_option_id_never_empty :
  forall (E : Env) (amount : number) (resourceId : option string),
    (forall this : Native.Server.t,
        exists option,
          Native.createPaymentRequirements E this amount resourceId
          = Returned {| PaymentRequirements.version := X402_VERSION E;
                        PaymentRequirements.paymentOptions := [option] |}
          /\ PaymentOption.id option <> ""
          /\ (forall s, resourceId = Some s -> s <> "" ->
              PaymentOption.id option = s)
          /\ (resourceId = None \/ resourceId = Some "" ->
              PaymentOption.id option
              = "sol-" ++ Number_toString E (Date_now E)))
    /\ (forall (this this' : Token.Server.t) requirements,
        Token.createPaymentRequirements E this amount resourceId
        = Returned (requirements, this') ->
        exists option,
          PaymentRequirements.paymentOptions requirements = [option]
          /\ PaymentOption.id option <> ""
          /\ (forall s, resourceId = Some s -> s <> "" ->
              PaymentOption.id option = s)
          /\ (resourceId = None \/ resourceId = Some "" ->
              PaymentOption.id option
              = "payment-" ++ Number_toString E (Date_now E))).
Proof.
  intros E amount resourceId. split.
  - intros this. eexists. split; [reflexivity |]. cbn. split; [| split].
    + apply or_string_nonempty. discriminate.
    + intros s -> Hs. apply or_string_given. exact Hs.
    + apply or_string_missing.
  - intros this this' requirements. unfold Token.createPaymentRequirements.
    destruct (match Token.Server.recipientTokenAccount this with
              | Some _ => Returned this
              | None => Token.initialize E this
              end) as [state | e]; cbn [bind]; [| discriminate].
    intros [= <- _]. eexists. split; [reflexivity |]. cbn. split; [| split].
    + apply or_string_nonempty. discriminate.
    + intros s -> Hs. apply or_string_given. exact Hs.
    + apply or_string_missing.
Qed.

(** X10 at the empty resource identifier. *)
Lemma payment_option_id_never_empty_witness :
  exists option,
    Native.createPaymentRequirements
      (Sample.env Sample.now Sample.empty_ledger Sample.empty_ledger)
      Sample.native_server
      0.01%float (Some "")
    = Returned {| PaymentRequirements.version := "1.0";
                  PaymentRequirements.paymentOptions := [option] |}
    /\ PaymentOption.id option = "sol-1700000000000".
Proof.
  destruct (proj1 (payment_option_id_never_empty
                     (Sample.env Sample.now Sample.empty_ledger
                        Sample.empty_ledger)
                     0.01%float (Some ""))
              Sample.native_server)
    as (option & Hreq & _ & _ & Hdefault).
  exists option. split; [exact Hreq |].
  rewrite (Hdefault (or_intror eq_refl)). reflexivity.
Defined.

(** ** A native server with a recipient that is no address *)

Lemma native_initialize_throws E this (e : Exception) :
  Native.initialize E this = Thrown e ->
  e = ThrownError {| message := "Invalid recipient address" |}
  /\ exists e',
       PublicKey_new E
         (X402ServerConfig.recipientAddress (Native.Server.config this))
       = Thrown e'.
Proof.
  unfold Native.initialize.
  destruct (PublicKey_new E _) as [key | e']; cbn [bind try_catch];
    [discriminate |].
  intros [= <-]. split; [reflexivity | eauto].
Qed.

(** X11: the native variant validates the recipient address in [initialize]
    only.  When [initialize] throws, its error is 'Invalid recipient address'
    whatever the key library threw; the challenge methods still return,
    naming that recipient in the payment option; no call of [verifyPayment]
    gives a valid verdict, and each call returns a verdict that is not valid
    whenever neither the fetch nor the key library throws [null] or
    [undefined]; and [getRecipientBalance] throws what the key library threw
    without querying the ledger. *)
Theorem native_unvalidated_recipient :
  forall (E : Env) (this : Native.Server.t) (e : Exception),
    Native.initialize E this = Thrown e ->
    e = ThrownError {| message := "Invalid recipient address" |}
    /\ (forall amount resourceId,
        exists response option,
          Native.create402Response E this amount resourceId = Returned response
          /\ PaymentRequirements.paymentOptions (X402Response.body response)
             = [option]
          /\ PaymentOption.recipient option
             = X402ServerConfig.recipientAddress (Native.Server.config this))
    /\ (forall signature expectedAmountSol maxAgeSeconds,
        (forall v,
            Native.verifyPayment E this signature expectedAmountSol
              maxAgeSeconds
            = Returned v ->
            PaymentVerification.valid v = false)
        /\ ((forall error,
                getTransaction E signature confirmed = Thrown error ->
                nullish error = false) ->
            (forall error,
                PublicKey_new E
                  (X402ServerConfig.recipientAddress
                     (Native.Server.config this))
                = Thrown error ->
                nullish error = false) ->
            exists v,
              Native.verifyPayment E this signature expectedAmountSol
                maxAgeSeconds
              = Returned v
              /\ PaymentVerification.valid v = false))
    /\ (forall getBalance,
        exists e',
          PublicKey_new E
            (X402ServerConfig.recipientAddress (Native.Server.config this))
          = Thrown e'
          /\ Balance.getRecipientBalance E getBalance this = Thrown e').
Proof.
  intros E this e Hinit.
  destruct (native_initialize_throws _ _ _ Hinit) as [-> [e' Hkey]].
  split; [reflexivity |]. split; [| split].
  - intros amount resourceId. eexists. eexists.
    unfold Native.create402Response, Native.createPaymentRequirements.
    cbn [bind]. repeat split.
  - intros signature expectedAmountSol maxAgeSeconds.
    assert (Hinvalid : forall v,
               Native.verifyPayment E this signature expectedAmountSol
                 maxAgeSeconds
               = Returned v ->
               PaymentVerification.valid v = false).
    { intros v. unfold Native.verifyPayment.
      destruct (getTransaction E signature confirmed) as [[tx |] | e0];
        cbn [bind try_catch];
        [| intros [= <-]; reflexivity
         | intros Hcatch;
           destruct (native_catch_clause_verdict _ _ Hcatch) as [reason ->];
           reflexivity].
      unfold Native.check_record.
      destruct (_ <? _)%float; [intros [= <-]; reflexivity |].
      destruct (meta_err_truthy _); [intros [= <-]; reflexivity |].
      rewrite Hkey. cbn [bind try_catch]. intros Hcatch.
      destruct (native_catch_clause_verdict _ _ Hcatch) as [reason ->].
      reflexivity. }
    split; [exact Hinvalid |]. intros Hfetch Hnew.
    assert (Hreturns : exists v,
               Native.verifyPayment E this signature expectedAmountSol
                 maxAgeSeconds
               = Returned v).
    { unfold Native.verifyPayment. apply try_catch_returns. intros error.
      unfold Native.catch_clause.
      destruct (getTransaction E signature confirmed) as [[tx |] | e0]
        eqn:Hget; cbn [bind].
      - unfold Native.check_record.
        destruct (_ <? _)%float; [discriminate |].
        destruct (meta_err_truthy _); [discriminate |].
        rewrite Hkey. cbn [bind]. intros [= <-].
        destruct (message_of_returns _ (Hnew _ Hkey)) as [m ->].
        cbn [bind]. eauto.
      - discriminate.
      - intros [= <-].
        destruct (message_of_returns _ (Hfetch _ eq_refl)) as [m ->].
        cbn [bind]. eauto. }
    destruct Hreturns as [v Hv]. exists v. split; [exact Hv | eauto].
  - intros getBalance. exists e'. split; [exact Hkey |].
    unfold Balance.getRecipientBalance. rewrite Hkey. reflexivity.
Qed.

(** X11 at the native server built from the malformed configuration. *)
Lemma native_unvalidated_recipient_witness :
  exists response option,
    Native.create402Response
      (Sample.env Sample.now Sample.empty_ledger Sample.empty_ledger)
      Sample.native_misconfigured
      0.01%float None
    = Returned response
    /\ PaymentRequirements.paymentOptions (X402Response.body response)
       = [option]
    /\ PaymentOption.recipient option = "not-an-address".
Proof.
  exact (proj1 (proj2
           (native_unvalidated_recipient
              (Sample.env Sample.now Sample.empty_ledger Sample.empty_ledger)
              Sample.native_misconfigured
              {| message := "Invalid recipient address" |} eq_refl))
           0.01%float None).
Defined.

(** ** The status probe *)

(** X12: [getPaymentStatus] returns exactly when both of its fetches return,
    with the two existence flags; its [confirmed] flag is then what
    [isSignatureUsed] returns.  An error of the "confirmed" fetch is thrown as
    it is, whatever the "finalized" fetch would give, and an error of the
    "finalized" fetch is thrown when the first fetch returned.  This holds for
    both variants. *)
Theorem getPaymentStatus_probes_both_depths :
  forall (E : Env) (signature : string),
    (forall c f,
        Token.getPaymentStatus E signature = Returned (c, f)
        <-> exists txc txf,
              getTransaction E signature confirmed = Returned txc
              /\ getTransaction E signature finalized = Returned txf
              /\ c = present txc /\ f = present txf)
    /\ (forall c f,
        Token.getPaymentStatus E signature = Returned (c, f) ->
        Token.isSignatureUsed E signature = Returned c)
    /\ (forall e,
        getTransaction E signature confirmed = Thrown e ->
        Token.getPaymentStatus E signature = Thrown e)
    /\ (forall txc e,
        getTransaction E signature confirmed = Returned txc ->
        getTransaction E signature finalized = Thrown e ->
        Token.getPaymentStatus E signature = Thrown e)
    /\ Native.getPaymentStatus E signature = Token.getPaymentStatus E signature
    /\ Native.isSignatureUsed E signature = Token.isSignatureUsed E signature.
Proof.
  intros E signature.
  unfold Token.getPaymentStatus, Token.isSignatureUsed,
    Native.getPaymentStatus, Native.isSignatureUsed.
  destruct (getTransaction E signature confirmed) as [txc | ec];
    destruct (getTransaction E signature finalized) as [txf | ef];
    cbn [bind]; repeat split;
    try discriminate; try congruence;
    try (intros [= <- <-]; destruct txc, txf; eauto 6);
    try (intros (txc' & txf' & Hc & Hf & -> & ->); try discriminate;
         injection Hc as <-; injection Hf as <-;
         destruct txc, txf; reflexivity);
    try (intros [= <- _]; destruct txc; reflexivity).
Qed.

(** X12 at a signature known at "confirmed" depth only. *)
Lemma getPaymentStatus_probes_both_depths_witness :
  let tx := Sample.native_tx (Some 1699999900%float) (Sample.ok_meta [] []) in
  let ledger signature depth :=
    match depth with
    | confirmed => Sample.ledger_with tx signature depth
    | finalized => Returned None
    end in
  Token.isSignatureUsed (Sample.env Sample.now Sample.empty_ledger ledger)
    "sig1"
  = Returned true.
Proof.
  cbv zeta.
  apply (proj1 (proj2 (getPaymentStatus_probes_both_depths
                         (Sample.env Sample.now Sample.empty_ledger
                            (fun signature depth =>
                               match depth with
                               | confirmed =>
                                 Sample.ledger_with
                                   (Sample.native_tx (Some 1699999900%float)
                                      (Sample.ok_meta [] []))
                                   signature depth
                               | finalized => Returned None
                               end))
                         "sig1"))
           true false).
  reflexivity.
Defined.

(** ** Missing balance snapshots *)

Lemma balance_at_missing balances meta i :
  (forall m, meta = Some m -> (List.length (balances m) <= i)%nat) ->
  Native.balance_at balances meta i = 0%float.
Proof.
  intros Hshort. unfold Native.balance_at.
  destruct meta as [m |]; [| reflexivity].
  rewrite (proj2 (nth_error_None _ _) (Hshort m eq_refl)). reflexivity.
Qed.

(** X13: the native variant reads a missing balance as 0.  For a record that
    is found, fresh and successful and lists the recipient at a position for
    which neither snapshot has an entry (in particular when [meta] is null),
    the received amount is 0: the verdict is valid exactly when the
    above-tolerance test fails for [0 - expected], and a valid verdict reports
    the amount 0. *)
Theorem native_missing_balances_read_as_zero :
  forall (E : Env) (this : Native.Server.t) (signature : string)
         (expectedAmountSol : number) (maxAgeSeconds : option number)
         tx key keys i,
    getTransaction E signature confirmed = Returned (Some tx) ->
    native_stale E (max_age maxAgeSeconds) tx = false ->
    meta_err_truthy (VersionedTransactionResponse.meta tx) = false ->
    PublicKey_new E
      (X402ServerConfig.recipientAddress (Native.Server.config this))
    = Returned key ->
    VersionedTransactionResponse.getAccountKeys tx = Returned keys ->
    findIndex (fun k => equals k key) keys = Some i ->
    (forall m, VersionedTransactionResponse.meta tx = Some m ->
               (List.length (Meta.preBalances m) <= i)%nat
               /\ (List.length (Meta.postBalances m) <= i)%nat) ->
    exists v,
      Native.verifyPayment E this signature expectedAmountSol maxAgeSeconds
      = Returned v
      /\ PaymentVerification.valid v
         = negb (Native.tolerance <? abs (0 - expectedAmountSol))%float
      /\ (PaymentVerification.valid v = true ->
          PaymentVerification.amount v = Some 0%float).
Proof.
  intros E this signature expectedAmountSol maxAgeSeconds tx key keys i
    Hfetch Hfresh Herr Hkey Hkeys Hindex Hmissing.
  assert (Hzero : Native.receivedSol_at
                    (VersionedTransactionResponse.meta tx) i = 0%float).
  { unfold Native.receivedSol_at.
    rewrite !balance_at_missing; [reflexivity | |];
      intros m Hm; apply (Hmissing m Hm). }
  rewrite (native_verifyPayment_fetched _ _ _ _ _ _ Hfetch).
  unfold Native.check_record. fold (native_age E tx).
  fold (native_stale E (max_age maxAgeSeconds) tx).
  rewrite Hfresh, Herr, Hkey, Hkeys. cbn [bind]. rewrite Hindex, Hzero.
  destruct (Native.tolerance <? abs (0 - expectedAmountSol))%float.
  - eexists. split; [reflexivity |]. split; [reflexivity | discriminate].
  - destruct (findIndex_nonempty _ _ _ Hindex) as [sender ->].
    eexists. split; [reflexivity |]. split; reflexivity.
Qed.

(** X13 at a fresh native record without [meta] and a price of 0.00005 SOL:
    the payment is accepted although nothing was received. *)
Lemma native_missing_balances_read_as_zero_witness :
  let tx := Sample.native_tx (Some 1699999900%float) None in
  let E := Sample.env Sample.now Sample.empty_ledger (Sample.ledger_with tx) in
  exists v,
    Native.verifyPayment E Sample.native_server "sig1"
      0.00005%float None
    = Returned v
    /\ PaymentVerification.valid v = true
    /\ PaymentVerification.amount v = Some 0%float.
Proof.
  cbv zeta.
  destruct (native_missing_balances_read_as_zero
              (Sample.env Sample.now Sample.empty_ledger
                 (Sample.ledger_with
                    (Sample.native_tx (Some 1699999900%float) None)))
              Sample.native_server
              "sig1" 0.00005%float None
              (Sample.native_tx (Some 1699999900%float) None)
              {| toBase58 := Sample.recipient |}
              [ {| toBase58 := Sample.sender |};
                {| toBase58 := Sample.recipient |} ]
              1%nat eq_refl eq_refl eq_refl eq_refl eq_refl eq_refl)
    as (v & Hv & Hvalid & Hamount).
  - intros m Hm. discriminate Hm.
  - exists v. split; [exact Hv |].
    assert (Hv' : PaymentVerification.valid v = true)
      by (rewrite Hvalid; reflexivity).
    split; [exact Hv' | exact (Hamount Hv')].
Defined.

(** ** Overpayment in the token variant *)

(** Case analysis on the comparisons of exponents and mantissas in the
    hypotheses. *)
Ltac compare_cases :=
  repeat match goal with
  | H : context [(?a ?= ?b)%Z] |- _ =>
    destruct (Z.compare_spec a b); try subst; cbn in H; try discriminate H
  | H : context [Pos.compare_cont Eq ?a ?b] |- _ =>
    change (Pos.compare_cont Eq a b) with (Pos.compare a b) in H;
    destruct (Pos.compare_spec a b); try subst; cbn in H; try discriminate H
  end.

Lemma SFleb_trans (x y z : spec_float) :
  SFleb x y = true -> SFleb y z = true -> SFleb x z = true.
Proof.
  unfold SFleb.
  destruct x as [sx | sx | | sx mx ex], y as [sy | sy | | sy my ey],
    z as [sz | sz | | sz mz ez];
    cbn; try discriminate; try reflexivity;
    try (destruct sx; cbn; try discriminate; try reflexivity);
    try (destruct sy; cbn; try discriminate; try reflexivity);
    try (destruct sz; cbn; try discriminate; try reflexivity);
    intros H1 H2; compare_cases;
    repeat match goal with
    | |- context [(?a ?= ?b)%Z] =>
      destruct (Z.compare_spec a b); try subst; cbn; try reflexivity; try lia
    | |- context [Pos.compare_cont Eq ?a ?b] =>
      change (Pos.compare_cont Eq a b) with (Pos.compare a b);
      destruct (Pos.compare_spec a b); try subst; cbn; try reflexivity; try lia
    end;
    try reflexivity.
Qed.

Lemma leb_trans (x y z : number) :
  (x <=? y)%float = true -> (y <=? z)%float = true -> (x <=? z)%float = true.
Proof. rewrite !FloatAxioms.leb_spec. apply SFleb_trans. Qed.

Lemma SFcompare_refl (x : spec_float) :
  x <> S754_nan -> SFcompare x x = Some Eq.
Proof.
  destruct x as [s | s | | s m e]; cbn; intros Hx; try congruence.
  - destruct s; reflexivity.
  - destruct s; rewrite Z.compare_refl, Pos.compare_cont_refl; reflexivity.
Qed.

Lemma is_nan_true (x : number) :
  PrimFloat.is_nan x = true -> Prim2SF x = S754_nan.
Proof.
  unfold PrimFloat.is_nan. rewrite FloatAxioms.eqb_spec. unfold SFeqb.
  intros Hx. destruct (Prim2SF x) as [s | s | | s m e] eqn:Hp;
    [| | reflexivity |];
    rewrite SFcompare_refl in Hx by discriminate; discriminate Hx.
Qed.

Lemma leb_true_numbers (x y : number) :
  (x <=? y)%float = true ->
  PrimFloat.is_nan x = false /\ PrimFloat.is_nan y = false.
Proof.
  rewrite FloatAxioms.leb_spec. unfold SFleb. intros Hle.
  split.
  - destruct (PrimFloat.is_nan x) eqn:Hx; [| reflexivity].
    rewrite (is_nan_true _ Hx) in Hle. discriminate Hle.
  - destruct (PrimFloat.is_nan y) eqn:Hy; [| reflexivity].
    rewrite (is_nan_true _ Hy) in Hle.
    destruct (Prim2SF x); discriminate Hle.
Qed.

(** If [paid < bound] fails, it fails for every amount at least [paid]. *)
Lemma ltb_false_upward (paid paid' bound : number) :
  (paid <? bound)%float = false ->
  (paid <=? paid')%float = true ->
  (paid' <? bound)%float = false.
Proof.
  intros Hpaid Hle.
  destruct (leb_true_numbers _ _ Hle) as [Hn Hn'].
  destruct (PrimFloat.is_nan bound) eqn:Hbound.
  - apply ltb_nan_r, is_nan_true, Hbound.
  - rewrite (ltb_negb_leb _ _ Hn Hbound) in Hpaid.
    rewrite (ltb_negb_leb _ _ Hn' Hbound).
    apply negb_false_iff in Hpaid. apply negb_false_iff.
    exact (leb_trans _ _ _ Hpaid Hle).
Qed.

(** X14: in the token variant paying more never turns an accepted payment
    into a rejected one.  Take two records that are found, successful and not
    stale, each with a transfer to the expected account.  If the verdict on
    the first is valid for an expected amount, and the second transfers at
    least as much, then the verdict on the second is valid for that expected
    amount too. *)
Theorem token_overpayment_stays_valid :
  forall (E : Env) (this : Token.Server.t) (expectedAmount : number)
         (signature signature' : string)
         (maxAgeSeconds maxAgeSeconds' : option number)
         tx tx' transferInfo transferInfo' v,
    getParsedTransaction E signature confirmed = Returned (Some tx) ->
    meta_err_truthy (ParsedTransactionWithMeta.meta tx) = false ->
    token_stale E (max_age maxAgeSeconds) tx = false ->
    Token.findTokenTransfer tx = Returned (Some transferInfo) ->
    Token.strict_neq (Token.TransferInfo.destination transferInfo)
      (Token.expected_destination this) = false ->
    getParsedTransaction E signature' confirmed = Returned (Some tx') ->
    meta_err_truthy (ParsedTransactionWithMeta.meta tx') = false ->
    token_stale E (max_age maxAgeSeconds') tx' = false ->
    Token.findTokenTransfer tx' = Returned (Some transferInfo') ->
    Token.strict_neq (Token.TransferInfo.destination transferInfo')
      (Token.expected_destination this) = false ->
    (ToNumber (Token.TransferInfo.amount transferInfo)
       <=? ToNumber (Token.TransferInfo.amount transferInfo'))%float = true ->
    Token.verifyPayment E this signature expectedAmount maxAgeSeconds
    = Returned v ->
    PaymentVerification.valid v = true ->
    exists v',
      Token.verifyPayment E this signature' expectedAmount maxAgeSeconds'
      = Returned v'
      /\ PaymentVerification.valid v' = true.
Proof.
  intros E this expectedAmount signature signature' maxAgeSeconds
    maxAgeSeconds' tx tx' ti ti' v Hf He Hs Ht Hd Hf' He' Hs' Ht' Hd' Hle
    Hv Hvalid.
  destruct (token_valid_unless_below_expected E this signature maxAgeSeconds
              tx ti Hf He Hs Ht Hd expectedAmount) as (w & Hw & Hwvalid).
  rewrite Hv in Hw. injection Hw as <-.
  rewrite Hvalid in Hwvalid. symmetry in Hwvalid.
  apply negb_true_iff in Hwvalid.
  destruct (token_valid_unless_below_expected E this signature' maxAgeSeconds'
              tx' ti' Hf' He' Hs' Ht' Hd' expectedAmount)
    as (v' & Hv' & Hvalid').
  exists v'. split; [exact Hv' |].
  rewrite Hvalid'. apply negb_true_iff.
  exact (ltb_false_upward _ _ _ Hwvalid Hle).
Qed.

(** X14 at a payment in full and a payment of twice as much. *)
Lemma token_overpayment_stays_valid_witness :
  let tx :=
    Sample.parsed_tx (Some 1699999900%float) (Sample.ok_meta [] [])
      [ Sample.token_transfer Sample.recipient_account 10000%float ] in
  let tx' :=
    Sample.parsed_tx (Some 1699999900%float) (Sample.ok_meta [] [])
      [ Sample.token_transfer Sample.recipient_account 20000%float ] in
  let ledger signature depth :=
    if String.eqb signature "sig2" then Returned (Some tx')
    else Sample.ledger_with tx signature depth in
  exists v',
    Token.verifyPayment (Sample.env Sample.now ledger Sample.empty_ledger)
      Sample.initialized "sig2" 0.01%float None
    = Returned v'
    /\ PaymentVerification.valid v' = true.
Proof.
  cbv zeta.
  eapply (token_overpayment_stays_valid
            _ Sample.initialized 0.01%float "sig1" "sig2" None None
            (Sample.parsed_tx (Some 1699999900%float) (Sample.ok_meta [] [])
               [ Sample.token_transfer Sample.recipient_account 10000%float ])
            (Sample.parsed_tx (Some 1699999900%float) (Sample.ok_meta [] [])
               [ Sample.token_transfer Sample.recipient_account 20000%float ])
            {| Token.TransferInfo.source := Some Sample.sender_account;
               Token.TransferInfo.destination := Some Sample.recipient_account;
               Token.TransferInfo.amount := Some 10000%float |}
            {| Token.TransferInfo.source := Some Sample.sender_account;
               Token.TransferInfo.destination := Some Sample.recipient_account;
               Token.TransferInfo.amount := Some 20000%float |});
    reflexivity.
Defined.

(** * Properties of the workflow node *)

Section Node.

Import PocketNodeMock.

(** Case analysis along the calls that [item] chains. *)
Ltac item_cases :=
  repeat match goal with
  | |- context [and_then ?c _] => destruct c eqn:?; cbn [and_then]
  end.

Variable this : Context.
Variables operation credentials network : Value.

Lemma item_paired (i : nat) (data : ExecutionData) :
  item this operation credentials network i = Normal (Some data) ->
  pairedItem data = i.
Proof.
  unfold item.
  destruct (getNodeParameter this "walletAddress" i _) as [w | t];
    cbn [and_then]; [| discriminate].
  destruct (is_string operation "return402");
    [| destruct (is_string operation "verifyPayment")];
    item_cases; try discriminate; intros [= <-]; reflexivity.
Qed.

Lemma item_known (i : nat) :
  known_operation operation = true ->
  item this operation credentials network i <> Normal None.
Proof.
  unfold known_operation, item. intros Hknown.
  destruct (getNodeParameter this "walletAddress" i _) as [w | t];
    cbn [and_then]; [| discriminate].
  destruct (is_string operation "return402");
    [| destruct (is_string operation "verifyPayment")];
    [| | discriminate Hknown];
    item_cases; discriminate.
Qed.

Lemma item_unknown (i : nat) (w : Value) :
  known_operation operation = false ->
  getNodeParameter this "walletAddress" i (Some (VString "")) = Normal w ->
  item this operation credentials network i = Normal None.
Proof.
  unfold known_operation, item. intros Hunknown ->. cbn [and_then].
  apply orb_false_iff in Hunknown. destruct Hunknown as [-> ->]. reflexivity.
Qed.

Lemma pushed_output (i : nat) (data : ExecutionData) :
  item this operation credentials network i = Normal (Some data) ->
  pushed this operation credentials network i data.
Proof.
  intros Hitem. split; [exact (item_paired _ _ Hitem) |].
  rewrite Hitem. split; [intros output [= <-]; reflexivity | discriminate].
Qed.

Lemma pushed_error (i : nat) (t : Thrown) :
  item this operation credentials network i = Throw t ->
  pushed this operation credentials network i (error_item t i).
Proof.
  intros Hitem. split; [reflexivity |].
  rewrite Hitem. split; [discriminate | intros t' [= <-]; reflexivity].
Qed.

(** When the node continues on failure, the loop appends one entry per
    index. *)
Lemma loop_continues :
  continueOnFail this = true ->
  known_operation operation = true ->
  forall indices returnData,
  exists data,
    loop this operation credentials network indices returnData
    = Done [(returnData ++ data)%list]
    /\ Forall2 (pushed this operation credentials network) indices data.
Proof.
  intros Hcontinue Hknown indices.
  induction indices as [| i rest IH]; intros returnData; cbn [loop].
  - exists []. rewrite app_nil_r. split; [reflexivity | constructor].
  - destruct (item this operation credentials network i) as [[data |] | t]
      eqn:Hitem.
    + destruct (IH (returnData ++ [data])%list) as (more & -> & Hmore).
      exists (data :: more). rewrite <- app_assoc. split; [reflexivity |].
      constructor; [exact (pushed_output _ _ Hitem) | exact Hmore].
    + destruct (item_known i Hknown Hitem).
    + rewrite Hcontinue.
      destruct (IH (returnData ++ [error_item t i])%list)
        as (more & -> & Hmore).
      exists (error_item t i :: more). rewrite <- app_assoc.
      split; [reflexivity |].
      constructor; [exact (pushed_error _ _ Hitem) | exact Hmore].
Qed.

(** The first index from [start] on whose item throws is the same from
    [S start] on when the item at [start] does not throw. *)
Lemma first_throw_shift (start count i : nat) (t : Thrown) :
  (forall t', item this operation credentials network start <> Throw t') ->
  ((S start <= i < S start + count)%nat
   /\ item this operation credentials network i = Throw t
   /\ (forall j, (S start <= j < i)%nat ->
       forall t', item this operation credentials network j <> Throw t'))
  <-> ((start <= i < start + S count)%nat
       /\ item this operation credentials network i = Throw t
       /\ (forall j, (start <= j < i)%nat ->
           forall t', item this operation credentials network j <> Throw t')).
Proof.
  intros Hstart. split.
  - intros (Hi & Hthrow & Hbefore). split; [lia |].
    split; [exact Hthrow |]. intros j Hj t'.
    destruct (Nat.eq_dec j start) as [-> | Hne];
      [apply Hstart | apply Hbefore; lia].
  - intros (Hi & Hthrow & Hbefore).
    assert (i <> start) by (intros ->; exact (Hstart t Hthrow)).
    split; [lia |]. split; [exact Hthrow |].
    intros j Hj. apply Hbefore. lia.
Qed.

(** It is [start] itself when the item at [start] throws. *)
Lemma first_throw_here (start count i : nat) (t0 t : Thrown) :
  item this operation credentials network start = Throw t0 ->
  (start <= i < start + S count)%nat
  /\ item this operation credentials network i = Throw t
  /\ (forall j, (start <= j < i)%nat ->
      forall t', item this operation credentials network j <> Throw t') ->
  i = start /\ t = t0.
Proof.
  intros Hitem (Hi & Hthrow & Hbefore).
  destruct (Nat.eq_dec i start) as [-> | Hne].
  - split; [reflexivity | congruence].
  - exfalso. apply (Hbefore start ltac:(lia) t0). exact Hitem.
Qed.

(** When it does not, the loop stops at the first index whose item throws:
    what that item threw is wrapped with its index, unless it is a
    [NodeOperationError] already, which is thrown as it is. *)
Lemma loop_aborts :
  continueOnFail this = false ->
  forall count start returnData,
    (forall cause i,
        loop this operation credentials network (seq start count) returnData
        = NodeOperationError cause i
        <-> is_operation_error cause = false
            /\ (start <= i < start + count)%nat
            /\ item this operation credentials network i = Throw cause
            /\ (forall j, (start <= j < i)%nat ->
                forall t,
                  item this operation credentials network j <> Throw t))
    /\ (forall t,
        loop this operation credentials network (seq start count) returnData
        = Propagated t
        <-> is_operation_error t = true
            /\ exists i,
                 (start <= i < start + count)%nat
                 /\ item this operation credentials network i = Throw t
                 /\ (forall j, (start <= j < i)%nat ->
                     forall t',
                       item this operation credentials network j <> Throw t'))
    /\ ((exists output,
            loop this operation credentials network (seq start count)
              returnData = Done output)
        <-> (forall j, (start <= j < start + count)%nat ->
             forall t, item this operation credentials network j <> Throw t)).
Proof.
  intros Hstop.
  assert (Hnormal : forall count start returnData',
             (forall t', item this operation credentials network start
                         <> Throw t') ->
             ((forall cause i,
                  loop this operation credentials network
                    (seq (S start) count) returnData'
                  = NodeOperationError cause i
                  <-> is_operation_error cause = false
                      /\ (S start <= i < S start + count)%nat
                      /\ item this operation credentials network i = Throw cause
                      /\ (forall j, (S start <= j < i)%nat ->
                          forall t,
                            item this operation credentials network j
                            <> Throw t))
              /\ (forall t,
                  loop this operation credentials network
                    (seq (S start) count) returnData'
                  = Propagated t
                  <-> is_operation_error t = true
                      /\ exists i,
                           (S start <= i < S start + count)%nat
                           /\ item this operation credentials network i
                              = Throw t
                           /\ (forall j, (S start <= j < i)%nat ->
                               forall t',
                                 item this operation credentials network j
                                 <> Throw t'))
              /\ ((exists output,
                      loop this operation credentials network
                        (seq (S start) count) returnData' = Done output)
                  <-> (forall j, (S start <= j < S start + count)%nat ->
                       forall t,
                         item this operation credentials network j
                         <> Throw t))) ->
             (forall cause i,
                 loop this operation credentials network
                   (seq (S start) count) returnData'
                 = NodeOperationError cause i
                 <-> is_operation_error cause = false
                     /\ (start <= i < start + S count)%nat
                     /\ item this operation credentials network i = Throw cause
                     /\ (forall j, (start <= j < i)%nat ->
                         forall t,
                           item this operation credentials network j
                           <> Throw t))
             /\ (forall t,
                 loop this operation credentials network
                   (seq (S start) count) returnData'
                 = Propagated t
                 <-> is_operation_error t = true
                     /\ exists i,
                          (start <= i < start + S count)%nat
                          /\ item this operation credentials network i
                             = Throw t
                          /\ (forall j, (start <= j < i)%nat ->
                              forall t',
                                item this operation credentials network j
                                <> Throw t'))
             /\ ((exists output,
                     loop this operation credentials network
                       (seq (S start) count) returnData' = Done output)
                 <-> (forall j, (start <= j < start + S count)%nat ->
                      forall t,
                        item this operation credentials network j
                        <> Throw t))).
  { intros count start returnData' Hstart (Ha & Hp & Hd). split; [| split].
    - intros cause i. rewrite Ha. split.
      + intros [Hop Hfirst]. split; [exact Hop |].
        apply (first_throw_shift start count i cause Hstart). exact Hfirst.
      + intros [Hop Hfirst]. split; [exact Hop |].
        apply (first_throw_shift start count i cause Hstart). exact Hfirst.
    - intros t. rewrite Hp. split.
      + intros [Hop [i Hfirst]]. split; [exact Hop |]. exists i.
        apply (first_throw_shift start count i t Hstart). exact Hfirst.
      + intros [Hop [i Hfirst]]. split; [exact Hop |]. exists i.
        apply (first_throw_shift start count i t Hstart). exact Hfirst.
    - rewrite Hd. split.
      + intros Hall j Hj t.
        destruct (Nat.eq_dec j start) as [-> | Hne];
          [apply Hstart | apply Hall; lia].
      + intros Hall j Hj. apply Hall. lia. }
  intros count.
  induction count as [| count IH]; intros start returnData; cbn [seq loop].
  - split; [| split].
    + intros cause i. split; [discriminate | intros (_ & Hi & _); lia].
    + intros t. split; [discriminate | intros (_ & i & Hi & _); lia].
    + split; [intros _ j Hj; lia | eauto].
  - destruct (item this operation credentials network start) as [[data |] | t0]
      eqn:Hitem.
    + apply (Hnormal count start (returnData ++ [data])%list);
        [rewrite Hitem; discriminate | apply IH].
    + apply (Hnormal count start returnData);
        [rewrite Hitem; discriminate | apply IH].
    + rewrite Hstop. unfold raise.
      destruct (is_operation_error t0) eqn:Hop; split; [| split | | split].
      * intros cause i. split; [discriminate |].
        intros [Hcause Hfirst].
        destruct (first_throw_here start count i t0 cause Hitem Hfirst)
          as [_ ->].
        congruence.
      * intros t. split.
        -- intros [= <-]. split; [exact Hop |]. exists start.
           split; [lia |]. split; [exact Hitem |]. intros j Hj. lia.
        -- intros [_ [i Hfirst]].
           destruct (first_throw_here start count i t0 t Hitem Hfirst)
             as [_ ->].
           reflexivity.
      * split.
        -- intros [output Hdone]. discriminate Hdone.
        -- intros Hall. exfalso. apply (Hall start ltac:(lia) t0). exact Hitem.
      * intros cause i. split.
        -- intros [= <- <-]. split; [exact Hop |].
           split; [lia |]. split; [exact Hitem |]. intros j Hj. lia.
        -- intros [_ Hfirst].
           destruct (first_throw_here start count i t0 cause Hitem Hfirst)
             as [-> ->].
           reflexivity.
      * intros t. split; [discriminate |].
        intros [Ht [i Hfirst]].
        destruct (first_throw_here start count i t0 t Hitem Hfirst)
          as [_ ->].
        congruence.
      * split.
        -- intros [output Hdone]. discriminate Hdone.
        -- intros Hall. exfalso. apply (Hall start ltac:(lia) t0). exact Hitem.
Qed.

End Node.

Section NodeExecution.

Import PocketNodeMock.

Lemma Forall2_pushed_length this operation credentials network indices data :
  Forall2 (pushed this operation credentials network) indices data ->
  List.length data = List.length indices
  /\ map pairedItem data = indices.
Proof.
  induction 1 as [| i d indices data Hd _ [IHl IHm]]; [split; reflexivity |].
  cbn. destruct Hd as [<- _]. rewrite IHl, IHm. split; reflexivity.
Qed.

(** X15: a node set to continue on failure never fails on an item.  When
    the operation is one of the two it knows, [execute] returns one output
    list with exactly one entry per input item, in input order and paired
    with its item: the item's own output, or [{error: <message>}] when
    processing the item threw. *)
Theorem execute_continues_past_failures :
  forall (this : Context) (operation : Value),
    continueOnFail this = true ->
    getNodeParameter this "operation" 0 None = Normal operation ->
    known_operation operation = true ->
    exists data,
      execute this = Done [data]
      /\ List.length data = List.length (getInputData this)
      /\ map pairedItem data = seq 0 (List.length (getInputData this))
      /\ Forall2
           (pushed this operation (credentials_of this) (network_of this))
           (seq 0 (List.length (getInputData this))) data.
Proof.
  intros this operation Hcontinue Hoperation Hknown.
  unfold execute. rewrite Hoperation.
  destruct (loop_continues this operation (credentials_of this)
              (network_of this) Hcontinue Hknown
              (seq 0 (List.length (getInputData this))) [])
    as (data & Hloop & Hpushed).
  exists data. split; [exact Hloop |].
  destruct (Forall2_pushed_length _ _ _ _ _ _ Hpushed) as [Hlen Hmap].
  rewrite Hlen, length_seq. repeat split; assumption.
Qed.

(** X15 at three items to verify, the last of which makes the SDK throw. *)
Lemma execute_continues_past_failures_witness :
  exists data,
    execute (SampleNode.context 3 true SampleNode.verify_parameters)
    = Done [data]
    /\ map pairedItem data = [0; 1; 2]%nat
    /\ nth_error data 2
       = Some {| json := VObject [ ("error", VString "Signature is required") ];
                 pairedItem := 2 |}.
Proof.
  destruct (execute_continues_past_failures
              (SampleNode.context 3 true SampleNode.verify_parameters)
              (VString "verifyPayment") eq_refl eq_refl eq_refl)
    as (data & Hexecute & _ & Hmap & _).
  exists data. split; [exact Hexecute |]. split; [exact Hmap |].
  injection Hexecute as <-. reflexivity.
Defined.

(** X16: a node that does not continue on failure stops at the first item
    whose processing throws.  When what that item threw is no
    [NodeOperationError], [execute] throws the [NodeOperationError] built
    from it with the item's index: this happens with cause [cause] and index
    [i] exactly when item [i] throws [cause], [cause] is no
    [NodeOperationError] and no earlier item throws.  When it is a
    [NodeOperationError] already, [execute] throws it as it is, with whatever
    index it carries.  [execute] returns exactly when no item throws. *)
Theorem execute_aborts_at_first_failure :
  forall (this : Context) (operation : Value),
    continueOnFail this = false ->
    getNodeParameter this "operation" 0 None = Normal operation ->
    (forall cause i,
        execute this = NodeOperationError cause i
        <-> is_operation_error cause = false
            /\ (i < List.length (getInputData this))%nat
            /\ item this operation (credentials_of this) (network_of this) i
               = Throw cause
            /\ (forall j, (j < i)%nat ->
                forall t,
                  item this operation (credentials_of this) (network_of this)
                    j <> Throw t))
    /\ (forall t,
        execute this = Propagated t
        <-> is_operation_error t = true
            /\ exists i,
                 (i < List.length (getInputData this))%nat
                 /\ item this operation (credentials_of this)
                      (network_of this) i
                    = Throw t
                 /\ (forall j, (j < i)%nat ->
                     forall t',
                       item this operation (credentials_of this)
                         (network_of this) j <> Throw t'))
    /\ ((exists output, execute this = Done output)
        <-> (forall j, (j < List.length (getInputData this))%nat ->
             forall t,
               item this operation (credentials_of this) (network_of this) j
               <> Throw t)).
Proof.
  intros this operation Hstop Hoperation.
  unfold execute. rewrite Hoperation.
  destruct (loop_aborts this operation (credentials_of this) (network_of this)
              Hstop (List.length (getInputData this)) 0 [])
    as (Habort & Hprop & Hdone).
  split; [| split].
  - intros cause i. rewrite Habort. split.
    + intros (Hop & Hi & Hthrow & Hbefore). split; [exact Hop |].
      split; [lia |]. split; [exact Hthrow |].
      intros j Hj. apply Hbefore. lia.
    + intros (Hop & Hi & Hthrow & Hbefore). split; [exact Hop |].
      split; [lia |]. split; [exact Hthrow |].
      intros j Hj. apply Hbefore. lia.
  - intros t. rewrite Hprop. split.
    + intros (Hop & i & Hi & Hthrow & Hbefore). split; [exact Hop |].
      exists i. split; [lia |]. split; [exact Hthrow |].
      intros j Hj. apply Hbefore. lia.
    + intros (Hop & i & Hi & Hthrow & Hbefore). split; [exact Hop |].
      exists i. split; [lia |]. split; [exact Hthrow |].
      intros j Hj. apply Hbefore. lia.
  - rewrite Hdone. split; intros Hall j Hj; apply Hall; lia.
Qed.

(** X16 at the same three items, the third of which aborts the execution,
    and at three items the first of which makes the SDK throw a
    [NodeOperationError] made for item 7. *)
Lemma execute_aborts_at_first_failure_witness :
  execute (SampleNode.context 3 false SampleNode.verify_parameters)
  = NodeOperationError
      (ErrorObject {| message := "Signature is required" |}) 2
  /\ execute SampleNode.rethrowing_context
     = Propagated
         (OperationError {| message := "No payment for this item" |} (Some 7%nat)).
Proof.
  split.
  - apply (proj1 (execute_aborts_at_first_failure
                    (SampleNode.context 3 false SampleNode.verify_parameters)
                    (VString "verifyPayment") eq_refl eq_refl)).
    split; [reflexivity |]. split; [cbn; lia |]. split; [reflexivity |].
    intros [| [| j]] Hj t; [discriminate | discriminate | lia].
  - apply (proj1 (proj2 (execute_aborts_at_first_failure
                    SampleNode.rethrowing_context
                    (VString "verifyPayment") eq_refl eq_refl))).
    split; [reflexivity |]. exists 0%nat.
    split; [cbn; lia |]. split; [reflexivity |]. intros j Hj. lia.
Defined.

Lemma loop_pushes_nothing this operation credentials network :
  forall indices returnData,
    (forall i, In i indices ->
               item this operation credentials network i = Normal None) ->
    loop this operation credentials network indices returnData
    = Done [returnData].
Proof.
  induction indices as [| i rest IH]; intros returnData Hnone; cbn [loop].
  - reflexivity.
  - rewrite (Hnone i (or_introl eq_refl)).
    apply IH. intros j Hj. apply Hnone. right. exact Hj.
Qed.

(** X17: an operation that is neither ['return402'] nor ['verifyPayment'] is
    no error.  When the wallet-address parameter can be read for every item,
    [execute] returns a single empty output list, whatever the number of
    input items and whether or not the node continues on failure. *)
Theorem execute_unknown_operation_is_silent :
  forall (this : Context) (operation : Value),
    getNodeParameter this "operation" 0 None = Normal operation ->
    known_operation operation = false ->
    (forall i, (i < List.length (getInputData this))%nat ->
     exists w,
       getNodeParameter this "walletAddress" i (Some (VString "")) = Normal w) ->
    execute this = Done [[]].
Proof.
  intros this operation Hoperation Hunknown Hwallet.
  unfold execute. rewrite Hoperation.
  apply loop_pushes_nothing. intros i Hi.
  apply in_seq in Hi. destruct (Hwallet i ltac:(lia)) as [w Hw].
  exact (item_unknown this operation _ _ i w Hunknown Hw).
Qed.

(** X17 at two items and the operation ['refund']. *)
Lemma execute_unknown_operation_is_silent_witness :
  execute (SampleNode.context 2 false
             (fun name _ =>
                if String.eqb name "operation" then Some (VString "refund")
                else None))
  = Done [[]].
Proof.
  apply (execute_unknown_operation_is_silent _ (VString "refund"));
    try reflexivity.
  intros i _. exists (VString ""). reflexivity.
Defined.

(** X18: a wallet is generated only when none is configured.  If the
    wallet-address parameter of an item, or else the wallet address of the
    credentials, is truthy, the processing of that item does not depend on
    [generateWallet]. *)
Theorem configured_wallet_is_never_replaced :
  forall (this : Context) (operation credentials network : Value) (i : nat)
         (nodeWalletAddress : Value),
    getNodeParameter this "walletAddress" i (Some (VString ""))
    = Normal nodeWalletAddress ->
    truthy_value (configured_recipient credentials nodeWalletAddress) = true ->
    forall generate,
      item (set_generateWallet this generate) operation credentials network i
      = item this operation credentials network i.
Proof.
  intros this operation credentials network i w Hw Htruthy generate.
  unfold item. cbn [set_generateWallet getNodeParameter X402Server_new].
  rewrite Hw. cbn [and_then].
  unfold ensure_recipient. rewrite Htruthy. reflexivity.
Qed.

(** X18 at a context whose wallet-address parameter is set and a generator
    that always throws. *)
Lemma configured_wallet_is_never_replaced_witness :
  item (set_generateWallet
          (SampleNode.context 1 false SampleNode.verify_parameters)
          (fun _ => Throw (NotAnError VNull)))
    (VString "verifyPayment") VNull (VString "devnet") 0
  = item (SampleNode.context 1 false SampleNode.verify_parameters)
      (VString "verifyPayment") VNull (VString "devnet") 0.
Proof.
  exact (configured_wallet_is_never_replaced
           (SampleNode.context 1 false SampleNode.verify_parameters)
           (VString "verifyPayment") VNull (VString "devnet") 0%nat
           (VString Sample.recipient) eq_refl eq_refl
           (fun _ => Throw (NotAnError VNull))).
Defined.

End NodeExecution.

Section NodeOutputs.

Import PocketNodeMock.

Lemma lookup_set_same key v fields :
  lookup key (set key v fields) = Some v.
Proof.
  induction fields as [| [k old] rest IH]; cbn.
  - now rewrite String.eqb_refl.
  - destruct (String.eqb k key) eqn:Hk; cbn; rewrite Hk;
      [reflexivity | exact IH].
Qed.

Lemma lookup_set_other key key' v fields :
  key' <> key -> lookup key (set key' v fields) = lookup key fields.
Proof.
  intros Hne. induction fields as [| [k old] rest IH]; cbn.
  - destruct (String.eqb key' key) eqn:Hk; [| reflexivity].
    apply String.eqb_eq in Hk. contradiction.
  - destruct (String.eqb k key') eqn:Hk'; cbn.
    + apply String.eqb_eq in Hk'. subst k.
      destruct (String.eqb key' key) eqn:Hk; [| reflexivity].
      apply String.eqb_eq in Hk. contradiction.
    + destruct (String.eqb k key); [reflexivity | exact IH].
Qed.

Lemma lookup_None_not_In key fields :
  ~ In key (map fst fields) -> lookup key fields = None.
Proof.
  induction fields as [| [k v] rest IH]; cbn; [reflexivity |].
  intros Hnot. destruct (String.eqb k key) eqn:Hk.
  - apply String.eqb_eq in Hk. tauto.
  - apply IH. tauto.
Qed.

(** Spreading leaves a property alone that the spread value does not have. *)
Lemma lookup_spread_absent key copied fields :
  lookup key copied = None ->
  lookup key (fold_left (fun acc kv => set (fst kv) (snd kv) acc) copied fields)
  = lookup key fields.
Proof.
  revert fields. induction copied as [| [k v] rest IH]; intros fields; cbn;
    [reflexivity |].
  destruct (String.eqb k key) eqn:Hk; [discriminate |].
  intros Hrest. rewrite (IH _ Hrest). apply lookup_set_other.
  intros ->. rewrite String.eqb_refl in Hk. discriminate.
Qed.

(** Spreading defines every property of the spread value. *)
Lemma lookup_spread_present key v copied fields :
  NoDup (map fst copied) ->
  lookup key copied = Some v ->
  lookup key (fold_left (fun acc kv => set (fst kv) (snd kv) acc) copied fields)
  = Some v.
Proof.
  revert fields. induction copied as [| [k w] rest IH]; intros fields; cbn;
    [discriminate |].
  intros Hnodup. inversion Hnodup as [| ? ? Hnot Hrest]; subst.
  destruct (String.eqb k key) eqn:Hk.
  - apply String.eqb_eq in Hk. subst k. intros [= <-].
    rewrite (lookup_spread_absent _ _ _ (lookup_None_not_In _ _ Hnot)).
    apply lookup_set_same.
  - intros Hlookup. exact (IH _ Hrest Hlookup).
Qed.

(** X19: the output of a challenge item is the SDK's response with a
    default status code.  When the parameters can be read, a recipient is
    settled, the server is built and [create402Response] returns an object
    with distinct property names, the item's [json] holds every property of
    that response with its value, holds [statusCode] 402 unless the response
    has a [statusCode] of its own, and holds nothing else. *)
Theorem challenge_output_is_response_with_status :
  forall (this : Context) (credentials network : Value) (i : nat)
         nodeWalletAddress resourceInput description amount mimeType timeout
         recipientAddress (server : X402Server) (response : Value),
    getNodeParameter this "walletAddress" i (Some (VString ""))
    = Normal nodeWalletAddress ->
    getNodeParameter this "resource" i (Some (VString "/api/resource"))
    = Normal resourceInput ->
    getNodeParameter this "description" i
      (Some (VString "Premium content access")) = Normal description ->
    getNodeParameter this "amount" i (Some (VString "0.01")) = Normal amount ->
    getNodeParameter this "mimeType" i (Some (VString "application/json"))
    = Normal mimeType ->
    getNodeParameter this "timeout" i (Some (VNumber 60%float))
    = Normal timeout ->
    ensure_recipient this network
      (configured_recipient credentials nodeWalletAddress)
    = Normal recipientAddress ->
    X402Server_new this (server_config recipientAddress network)
    = Normal server ->
    create402Response server
      (VObject [ ("resource", or_value resourceInput (VString "/api/resource"));
                 ("description", description);
                 ("amount", amount);
                 ("mimeType", mimeType);
                 ("timeout", timeout) ])
    = Normal response ->
    NoDup (map fst (own_properties response)) ->
    exists fields,
      item this (VString "return402") credentials network i
      = Normal (Some {| json := VObject fields; pairedItem := i |})
      /\ (forall key v,
          lookup key (own_properties response) = Some v ->
          lookup key fields = Some v)
      /\ (lookup "statusCode" (own_properties response) = None ->
          lookup "statusCode" fields = Some (VNumber 402%float))
      /\ (forall key,
          key <> "statusCode" ->
          lookup key (own_properties response) = None ->
          lookup key fields = None).
Proof.
  intros this credentials network i w resourceInput description amount
    mimeType timeout recipientAddress server response
    Hw Hres Hdesc Hamount Hmime Htimeout Hrecipient Hserver Hresponse Hnodup.
  exists (spread [ ("statusCode", VNumber 402%float) ] response).
  split; [| split; [| split]].
  - unfold item. rewrite Hw. cbn [and_then is_string String.eqb].
    change (String.eqb "return402" "return402") with true. cbn iota.
    rewrite Hres. cbn [and_then]. rewrite Hdesc. cbn [and_then].
    rewrite Hamount. cbn [and_then]. rewrite Hmime. cbn [and_then].
    rewrite Htimeout. cbn [and_then]. rewrite Hrecipient. cbn [and_then].
    rewrite Hserver. cbn [and_then]. rewrite Hresponse. reflexivity.
  - intros key v Hkey. unfold spread.
    exact (lookup_spread_present _ _ _ _ Hnodup Hkey).
  - intros Hnone. unfold spread.
    rewrite (lookup_spread_absent _ _ _ Hnone). reflexivity.
  - intros key Hne Hnone. unfold spread.
    rewrite (lookup_spread_absent _ _ _ Hnone). cbn [lookup].
    destruct (String.eqb "statusCode" key) eqn:Hk; [| reflexivity].
    apply String.eqb_eq in Hk. congruence.
Qed.

(** X19 at a challenge request with default parameters. *)
Lemma challenge_output_is_response_with_status_witness :
  exists fields,
    item (SampleNode.context 1 false SampleNode.challenge_parameters)
      (VString "return402") VNull (VString "devnet") 0
    = Normal (Some {| json := VObject fields; pairedItem := 0 |})
    /\ lookup "statusCode" fields = Some (VNumber 402%float)
    /\ lookup "payTo" fields = Some (VString Sample.other_account).
Proof.
  destruct (challenge_output_is_response_with_status
              (SampleNode.context 1 false SampleNode.challenge_parameters)
              VNull (VString "devnet") 0%nat
              (VString "") (VString "/api/resource")
              (VString "Premium content access") (VString "0.01")
              (VString "application/json") (VNumber 60%float)
              (VString Sample.other_account)
              (SampleNode.server
                 (server_config (VString Sample.other_account)
                    (VString "devnet")))
              _ eq_refl eq_refl eq_refl eq_refl eq_refl eq_refl eq_refl
              eq_refl eq_refl)
    as (fields & Hitem & Hcopied & Hstatus & _).
  - cbn. repeat constructor; cbn; intuition discriminate.
  - exists fields. split; [exact Hitem |]. split.
    + apply Hstatus. reflexivity.
    + apply Hcopied. reflexivity.
Defined.

(** X20: a verdict is output, never raised.  When the parameters can be
    read, a recipient is settled, the server is built and its [verifyPayment]
    returns an object, the item's [json] is [{verified, signature, amount,
    from, to, error}] with the object's [valid], [amount], [from], [to] and
    [error] ([undefined] for a missing one) and the signature parameter;
    this holds whatever [valid] is, so a payment that is not valid is no
    error of the item. *)
Theorem verdict_is_output_not_raised :
  forall (this : Context) (credentials network : Value) (i : nat)
         nodeWalletAddress recipientAddress (server : X402Server)
         signature expectedAmount verdict,
    getNodeParameter this "walletAddress" i (Some (VString ""))
    = Normal nodeWalletAddress ->
    ensure_recipient this network
      (configured_recipient credentials nodeWalletAddress)
    = Normal recipientAddress ->
    X402Server_new this (server_config recipientAddress network)
    = Normal server ->
    getNodeParameter this "signature" i None = Normal signature ->
    getNodeParameter this "expectedAmount" i None = Normal expectedAmount ->
    verifyPayment server signature expectedAmount = Normal (VObject verdict) ->
    item this (VString "verifyPayment") credentials network i
    = Normal (Some
        {| json :=
             VObject
               [ ("verified", get_optional (VObject verdict) "valid");
                 ("signature", signature);
                 ("amount", get_optional (VObject verdict) "amount");
                 ("from", get_optional (VObject verdict) "from");
                 ("to", get_optional (VObject verdict) "to");
                 ("error", get_optional (VObject verdict) "error") ];
           pairedItem := i |}).
Proof.
  intros this credentials network i w recipientAddress server signature
    expectedAmount verdict Hw Hrecipient Hserver Hsignature Hexpected Hverdict.
  unfold item. rewrite Hw. cbn [and_then is_string].
  change (String.eqb "verifyPayment" "return402") with false.
  change (String.eqb "verifyPayment" "verifyPayment") with true. cbn iota.
  rewrite Hrecipient. cbn [and_then]. rewrite Hserver. cbn [and_then].
  rewrite Hsignature. cbn [and_then]. rewrite Hexpected. cbn [and_then].
  rewrite Hverdict. reflexivity.
Qed.

(** X20 at a signature the sample SDK does not know. *)
Lemma verdict_is_output_not_raised_witness :
  item (SampleNode.context 3 false SampleNode.verify_parameters)
    (VString "verifyPayment") VNull (VString "devnet") 1
  = Normal (Some
      {| json :=
           VObject
             [ ("verified", VBool false);
               ("signature", VString "sig9");
               ("amount", VUndefined);
               ("from", VUndefined);
               ("to", VUndefined);
               ("error", VString "Transaction not found") ];
         pairedItem := 1 |}).
Proof.
  exact (verdict_is_output_not_raised
           (SampleNode.context 3 false SampleNode.verify_parameters)
           VNull (VString "devnet") 1%nat
           (VString Sample.recipient) (VString Sample.recipient)
           (SampleNode.server
              (server_config (VString Sample.recipient) (VString "devnet")))
           (VString "sig9") (VString "0.01")
           [ ("valid", VBool false);
             ("error", VString "Transaction not found") ]
           eq_refl eq_refl eq_refl eq_refl eq_refl eq_refl).
Defined.

End NodeOutputs.

(** * From construction to verification *)

(** The sample servers are what the constructors build from the sample
    configurations. *)
Lemma sample_servers_constructed :
  let E := Sample.env Sample.now Sample.empty_ledger Sample.empty_ledger in
  Native.constructor E Sample.config = Returned Sample.native_server
  /\ Native.constructor E Sample.malformed_config
     = Returned Sample.native_misconfigured
  /\ Token.constructor E Sample.config = Returned Sample.uninitialized
  /\ Token.constructor E Sample.malformed_config
     = Returned Sample.misconfigured.
Proof. repeat split; reflexivity. Qed.

(** X21: what the constructors settle.  Both variants open the connection
    on the configured endpoint when that is a non-empty string and on the
    network's default endpoint otherwise, so on a non-empty endpoint whenever
    the defaults are.  When opening the connection throws, both constructors
    throw what it threw, the token one before it reads the mint.  Otherwise
    the native constructor returns, and the token constructor returns exactly
    when the key library accepts the mint address (the configured one when
    non-empty, else the network's default), throwing what the key library
    threw otherwise.  Neither looks at the recipient address, and the token
    server that is returned has no recipient token account yet. *)
Theorem constructors_settle_endpoint_and_mint :
  forall (E : Env) (config : X402ServerConfig.t),
    let default :=
      match X402ServerConfig.network config with
      | devnet => SOLANA_DEVNET_RPC E
      | mainnet_beta => SOLANA_MAINNET_RPC E
      end in
    let mint :=
      or_string (X402ServerConfig.usdcMintAddress config)
        (match X402ServerConfig.network config with
         | devnet => USDC_DEVNET_MINT E
         | mainnet_beta => USDC_MAINNET_MINT E
         end) in
    let endpoint := or_string (X402ServerConfig.rpcUrl config) default in
    (forall url, X402ServerConfig.rpcUrl config = Some url -> url <> "" ->
                 endpoint = url)
    /\ (X402ServerConfig.rpcUrl config = None
        \/ X402ServerConfig.rpcUrl config = Some "" ->
        endpoint = default)
    /\ (default <> "" -> endpoint <> "")
    /\ (forall e,
        Connection_new E endpoint = Thrown e ->
        Native.constructor E config = Thrown e
        /\ Token.constructor E config = Thrown e)
    /\ (forall connection,
        Connection_new E endpoint = Returned connection ->
        Native.constructor E config
        = Returned {| Native.Server.connection := connection;
                      Native.Server.config := config |}
        /\ (forall key,
            PublicKey_new E mint = Returned key ->
            Token.constructor E config
            = Returned {| Token.Server.connection := connection;
                          Token.Server.config := config;
                          Token.Server.usdcMint := key;
                          Token.Server.recipientTokenAccount := None |})
        /\ (forall e,
            PublicKey_new E mint = Thrown e ->
            Token.constructor E config = Thrown e))
    /\ (forall recipientAddress,
        let config' :=
          {| X402ServerConfig.network := X402ServerConfig.network config;
             X402ServerConfig.recipientAddress := recipientAddress;
             X402ServerConfig.rpcUrl := X402ServerConfig.rpcUrl config;
             X402ServerConfig.usdcMintAddress :=
               X402ServerConfig.usdcMintAddress config |} in
        match Token.constructor E config, Token.constructor E config' with
        | Returned this, Returned this' =>
          Token.Server.usdcMint this' = Token.Server.usdcMint this
          /\ Token.Server.connection this' = Token.Server.connection this
        | Thrown e, Thrown e' => e' = e
        | _, _ => False
        end
        /\ match Native.constructor E config, Native.constructor E config' with
           | Returned this, Returned this' =>
             Native.Server.connection this' = Native.Server.connection this
           | Thrown e, Thrown e' => e' = e
           | _, _ => False
           end).
Proof.
  intros E config. cbv zeta. unfold Native.constructor, Token.constructor.
  cbn [X402ServerConfig.network X402ServerConfig.rpcUrl
       X402ServerConfig.usdcMintAddress].
  split; [| split; [| split; [| split; [| split]]]].
  - intros url -> Hurl. apply or_string_given. exact Hurl.
  - apply or_string_missing.
  - apply or_string_nonempty.
  - intros e ->. split; reflexivity.
  - intros connection ->. cbn [bind]. split; [reflexivity |]. split.
    + intros key ->. reflexivity.
    + intros e ->. reflexivity.
  - intros recipientAddress.
    destruct (Connection_new E _) as [connection | e]; cbn [bind];
      [| split; reflexivity].
    split; [| reflexivity].
    destruct (PublicKey_new E _) as [key | e]; cbn [bind];
      [split; reflexivity | reflexivity].
Qed.

(** X21 at a configuration whose endpoint override is the empty string, and
    at one whose endpoint has no scheme and whose mint is no address. *)
Lemma constructors_settle_endpoint_and_mint_witness :
  let E := Sample.env Sample.now Sample.empty_ledger Sample.empty_ledger in
  let config :=
    {| X402ServerConfig.network := mainnet_beta;
       X402ServerConfig.recipientAddress := Sample.recipient;
       X402ServerConfig.rpcUrl := Some "";
       X402ServerConfig.usdcMintAddress := None |} in
  Native.constructor E config
  = Returned
      {| Native.Server.connection :=
           {| rpcEndpoint := "https://api.mainnet-beta.solana.com" |};
         Native.Server.config := config |}
  /\ Token.constructor E
       {| X402ServerConfig.network := devnet;
          X402ServerConfig.recipientAddress := Sample.recipient;
          X402ServerConfig.rpcUrl := Some "localhost:8899";
          X402ServerConfig.usdcMintAddress := Some "not-a-mint" |}
     = Thrown
         {| message := "Endpoint URL must start with `http:` or `https:`." |}.
Proof.
  cbv zeta. split.
  - exact (proj1 (proj1 (proj2 (proj2 (proj2 (proj2
             (constructors_settle_endpoint_and_mint
                (Sample.env Sample.now Sample.empty_ledger Sample.empty_ledger)
                {| X402ServerConfig.network := mainnet_beta;
                   X402ServerConfig.recipientAddress := Sample.recipient;
                   X402ServerConfig.rpcUrl := Some "";
                   X402ServerConfig.usdcMintAddress := None |})))))
             {| rpcEndpoint := "https://api.mainnet-beta.solana.com" |}
             eq_refl)).
  - exact (proj2 (proj1 (proj2 (proj2 (proj2
             (constructors_settle_endpoint_and_mint
                (Sample.env Sample.now Sample.empty_ledger Sample.empty_ledger)
                {| X402ServerConfig.network := devnet;
                   X402ServerConfig.recipientAddress := Sample.recipient;
                   X402ServerConfig.rpcUrl := Some "localhost:8899";
                   X402ServerConfig.usdcMintAddress := Some "not-a-mint" |}))))
             {| message :=
                  "Endpoint URL must start with `http:` or `https:`." |}
             eq_refl)).
Defined.

(** X22: a payment that meets the challenge is accepted.  Let a token server
    that is not initialised issue a 402 response, and let [account] be the
    token account that [getAssociatedTokenAddress] derives from the server's
    mint and the configured recipient.  On the server the call leaves, a
    record that is found, successful and not stale, whose extracted transfer
    goes to [account] and for which the amount-too-small test fails, gets a
    valid verdict naming [account] as destination. *)
Theorem payment_meeting_the_challenge_is_accepted :
  forall (E : Env) (this this' : Token.Server.t) (price : number)
         (resourceId : option string) (response : X402Response.t)
         (recipient account : PublicKey)
         (signature : string) (expectedAmount : number)
         (maxAgeSeconds : option number) tx transferInfo,
    Token.Server.recipientTokenAccount this = None ->
    Token.create402Response E this price resourceId
    = Returned (response, this') ->
    PublicKey_new E
      (X402ServerConfig.recipientAddress (Token.Server.config this))
    = Returned recipient ->
    getAssociatedTokenAddress E (Token.Server.usdcMint this) recipient
    = Returned account ->
    getParsedTransaction E signature confirmed = Returned (Some tx) ->
    meta_err_truthy (ParsedTransactionWithMeta.meta tx) = false ->
    token_stale E (max_age maxAgeSeconds) tx = false ->
    Token.findTokenTransfer tx = Returned (Some transferInfo) ->
    Token.TransferInfo.destination transferInfo = Some (toBase58 account) ->
    (ToNumber (Token.TransferInfo.amount transferInfo)
       <? expectedAmount * Math_pow E 10 (USDC_DECIMALS E))%float = false ->
    exists v,
      Token.verifyPayment E this' signature expectedAmount maxAgeSeconds
      = Returned v
      /\ PaymentVerification.valid v = true
      /\ PaymentVerification.to v = Some (toBase58 account)
      /\ PaymentVerification.signature v = Some signature.
Proof.
  intros E this this' price resourceId response recipient account signature
    expectedAmount maxAgeSeconds tx ti Hnull Hresponse Hrecipient Haccount
    Hfetch Herr Hstale Hfind Hdest Hpaid.
  assert (Hstate : Token.Server.recipientTokenAccount this' = Some account).
  { revert Hresponse.
    unfold Token.create402Response, Token.createPaymentRequirements,
      Token.initialize.
    rewrite Hnull, Hrecipient. cbn [bind]. rewrite Haccount. cbn [bind].
    intros [= _ <-]. reflexivity. }
  rewrite (token_verifyPayment_fetched _ _ _ _ _ _ Hfetch).
  unfold Token.check_record.
  fold (token_stale E (max_age maxAgeSeconds) tx).
  rewrite Herr, Hstale, Hfind. cbn [bind].
  assert (Hneq : Token.strict_neq (Token.TransferInfo.destination ti)
                   (Token.expected_destination this') = false).
  { apply strict_neq_false. rewrite Hdest.
    unfold Token.expected_destination. rewrite Hstate. reflexivity. }
  rewrite Hneq, Hpaid. eexists. repeat split. exact Hdest.
Qed.

(** X22 at the sample server as its constructor leaves it. *)
Lemma payment_meeting_the_challenge_is_accepted_witness :
  let tx :=
    Sample.parsed_tx (Some 1699999900%float) (Sample.ok_meta [] [])
      [ Sample.token_transfer Sample.recipient_account 15000%float ] in
  let E := Sample.env Sample.now (Sample.ledger_with tx) Sample.empty_ledger in
  exists v,
    Token.verifyPayment E Sample.initialized "sig1" 0.01%float None
    = Returned v
    /\ PaymentVerification.valid v = true
    /\ PaymentVerification.to v = Some Sample.recipient_account
    /\ PaymentVerification.signature v = Some "sig1".
Proof.
  cbv zeta.
  eapply (payment_meeting_the_challenge_is_accepted
            _ Sample.uninitialized Sample.initialized 0.01%float None _
            {| toBase58 := Sample.recipient |}
            {| toBase58 := Sample.recipient_account |}
            "sig1" 0.01%float None
            (Sample.parsed_tx (Some 1699999900%float) (Sample.ok_meta [] [])
               [ Sample.token_transfer Sample.recipient_account 15000%float ])
            {| Token.TransferInfo.source := Some Sample.sender_account;
               Token.TransferInfo.destination := Some Sample.recipient_account;
               Token.TransferInfo.amount := Some 15000%float |});
    reflexivity.
Defined.
